(** * schtools: the cached acquisition of the SCH database

    A shallow embedding of [schtools/_sch_database.py], [schtools/config.py],
    [schtools/_annotation.py] and [schtools/datamanager/datasets.py], and the
    properties of the cache they keep: when a download happens, how it is
    retried, what a failed download leaves behind, how the file is published,
    where the cache lives, and what the entry points return or raise.

    The Python functions are written in a small state-and-exception monad over
    an explicit file system.  Whatever the interpreter cannot decide by itself
    (the outcome of each network transfer, the random names drawn for
    temporary files, the clock, the process environment, the behaviour of the
    storage during a move) is read from an environment record [Env], so that
    a run of the model is a function of the environment and of the initial
    state.  Line numbers in the comments are those of the Python files.

    Conventions of the model:
    - Python integers are [Z], the delay is a rational, times are integers
      counting microseconds, as [datetime] does; the clock does not advance
      during a call;
    - paths follow the POSIX flavour of [os.path] and [pathlib]; a path is
      its tuple of parts, and the file system is a finite map from paths to
      files and directories;
    - an interruption ([KeyboardInterrupt]) or any other exception reaches
      the code as the outcome of a transfer, where the program spends its
      time;
    - [while True] runs on fuel, one unit per iteration: enough fuel gives the
      result of the loop, and a run that exhausts it is [OutOfFuel];
    - the log of the state records the actions of a run, newest first, and the
      entry into [_download_sch_database]. *)

From Stdlib Require Import ZArith QArith Ascii String.
From stdpp Require Import base option list strings pretty gmap.

#[local] Open Scope Z_scope.

(** ** Exceptions *)

(** The exception classes the code raises, catches or lets through.  The two
    last ones derive from [BaseException] only; all the others derive from
    [Exception].  [URLError] stands for the class and its subclasses
    ([HTTPError], [ContentTooShortError]). *)
Inductive exn : Type :=
  | URLError (reason : string)
  | TimeoutError
  | OSError (msg : string)
  | FileNotFoundError (msg : string)
  | FileExistsError (msg : string)
  | NotADirectoryError (msg : string)
  | IsADirectoryError (msg : string)
  | PermissionError (msg : string)
  | ShutilError (msg : string)
  | KeyError (key : string)
  | TypeError (msg : string)
  | ValueError (msg : string)
  | RuntimeError (msg : string)
  | PandasError (msg : string)
  | KeyboardInterrupt
  | SystemExit.

(** [isinstance(e, Exception)] *)
Definition is_Exception (e : exn) : bool :=
  match e with
  | KeyboardInterrupt | SystemExit => false
  | _ => true
  end.

(** [isinstance(e, (URLError, TimeoutError))], the clause on line 96. *)
Definition is_URLError_or_TimeoutError (e : exn) : bool :=
  match e with
  | URLError _ | TimeoutError => true
  | _ => false
  end.

(** [isinstance(e, (Exception, KeyboardInterrupt))], the clause on line 105. *)
Definition is_Exception_or_KeyboardInterrupt (e : exn) : bool :=
  match e with
  | KeyboardInterrupt => true
  | _ => is_Exception e
  end.

(** ** Strings and paths *)

Definition sep : ascii := "/"%char.

(** [s.startswith(sep)] and [s.endswith(sep)] *)
Definition startswith_sep (s : string) : bool :=
  match s with
  | String c _ => bool_decide (c = sep)
  | EmptyString => false
  end.

Fixpoint endswith_sep (s : string) : bool :=
  match s with
  | EmptyString => false
  | String c EmptyString => bool_decide (c = sep)
  | String _ s' => endswith_sep s'
  end.

(** [posixpath.join(a, b)] for two arguments. *)
Definition join (a b : string) : string :=
  if startswith_sep b then b
  else if bool_decide (a = EmptyString) || endswith_sep a then a +:+ b
  else a +:+ "/" +:+ b.

(** [s.partition(sep)] without the separator: the text before the first
    separator, and the text from that separator on (empty when there is none). *)
Fixpoint break_at_sep (s : string) : string * string :=
  match s with
  | EmptyString => (EmptyString, EmptyString)
  | String c s' =>
      if bool_decide (c = sep) then (EmptyString, s)
      else let '(h, t) := break_at_sep s' in (String c h, t)
  end.

(** [s.rstrip(sep)] *)
Fixpoint rstrip_sep (s : string) : string :=
  match s with
  | EmptyString => EmptyString
  | String c s' =>
      match rstrip_sep s' with
      | EmptyString => if bool_decide (c = sep) then EmptyString else String c EmptyString
      | r => String c r
      end
  end.

(** [s.split(sep)] *)
Fixpoint split_sep (s : string) : list string :=
  match s with
  | EmptyString => [EmptyString]
  | String c s' =>
      if bool_decide (c = sep) then EmptyString :: split_sep s'
      else match split_sep s' with
           | h :: t => String c h :: t
           | [] => [String c EmptyString]
           end
  end.

(** A [pathlib.PurePosixPath] is its tuple of [parts], outermost first; the
    part ["/"] opens an absolute path.  The empty tuple is the path ["."]. *)
Abbreviation Path := (list string).

Definition is_real_part (s : string) : bool :=
  negb (bool_decide (s = EmptyString)) && negb (bool_decide (s = ".")).

(** [Path(s)]: empty components and ["."] are dropped. *)
Definition Path_of_string (s : string) : Path :=
  (if startswith_sep s then ["/"] else []) ++ filter (fun c => is_real_part c = true) (split_sep s).

(** [p / name] for a plain file name. *)
Definition Path_div (p : Path) (name : string) : Path := p ++ [name].
Infix "/:" := Path_div (at level 40, left associativity).
Arguments Path_div : simpl never.

Fixpoint join_parts (l : list string) : string :=
  match l with
  | [] => EmptyString
  | [x] => x
  | x :: l' => x +:+ "/" +:+ join_parts l'
  end.

(** [str(p)] *)
Definition Path_str (p : Path) : string :=
  match p with
  | [] => "."
  | "/" :: l => "/" +:+ join_parts l
  | _ => join_parts p
  end.

(** ** The world *)

(** A node of the file system: a regular file with its content, or a
    directory; both carry their modification time, in microseconds. *)
Inductive node : Type :=
  | File (content : string) (mtime : Z)
  | Dir (mtime : Z).

Definition st_mtime (n : node) : Z :=
  match n with
  | File _ t => t
  | Dir t => t
  end.

Definition is_Dir (o : option node) : bool :=
  match o with
  | Some (Dir _) => true
  | _ => false
  end.

(** What one call of [urlretrieve] does: it completes and the destination
    holds the payload, or it raises, possibly after having written a part of
    the payload to the destination. *)
Inductive net_outcome : Type :=
  | NetOk (payload : string)
  | NetRaise (e : exn) (written : option string).

(** How the storage answers the publishing move: it performs it, it refuses
    it, or it reports success although the destination is not there afterwards
    (lost by the storage, or removed by another process before the check of
    line 114). *)
Inductive move_outcome : Type :=
  | MoveDone
  | MoveRaises (e : exn)
  | MoveVanishes.

Record Env : Type := mkEnv {
  environ : gmap string string;   (* os.environ *)
  pw_dir : option string;         (* pwd.getpwuid(os.getuid()).pw_dir *)
  pw_nam : gmap string string;    (* pwd.getpwnam(name).pw_dir *)
  now : Z;                        (* the clock, microseconds since the epoch *)
  net : nat -> net_outcome;       (* the outcome of the i-th transfer *)
  tmp_names : list string;        (* the random names tempfile draws, in order *)
  storage : move_outcome;
}.

(** The observable actions of a run, in the log of the state. *)
Inductive event : Type :=
  | EvDownload (target_dir : Path) (n_retries : Z) (delay : Q)
  | EvPrint (msg : string)
  | EvWarn (msg : string)
  | EvSleep (delay : Q)
  | EvMakedirs (p : Path)
  | EvTemp (p : Path)
  | EvUrlretrieve (link : string) (dest : Path)
  | EvUnlink (p : Path)
  | EvMove (src dst : Path).

Record State : Type := mkState {
  st_fs : gmap Path node;
  st_attempts : nat;        (* transfers started so far *)
  st_log : list event;      (* newest first *)
}.

Definition set_fs (fs : gmap Path node) (s : State) : State :=
  mkState fs (st_attempts s) (st_log s).

Definition log (ev : event) (s : State) : State :=
  mkState (st_fs s) (st_attempts s) (ev :: st_log s).

Definition tick (s : State) : State :=
  mkState (st_fs s) (S (st_attempts s)) (st_log s).

(** ** The monad: state, exceptions, and fuel for [while True] *)

Inductive outcome (A : Type) : Type :=
  | Ok (a : A)
  | Raise (e : exn)
  | OutOfFuel.
Arguments Ok {A} a.
Arguments Raise {A} e.
Arguments OutOfFuel {A}.

Definition M (A : Type) : Type := State -> outcome A * State.

Definition ret {A} (a : A) : M A := fun s => (Ok a, s).
Definition raise {A} (e : exn) : M A := fun s => (Raise e, s).
Definition out_of_fuel {A} : M A := fun s => (OutOfFuel, s).

Definition bind {A B} (m : M A) (k : A -> M B) : M B := fun s =>
  match m s with
  | (Ok a, s') => k a s'
  | (Raise e, s') => (Raise e, s')
  | (OutOfFuel, s') => (OutOfFuel, s')
  end.

(** [try: m  except BaseException as e: h e]; a handler that does not apply
    re-raises. *)
Definition try_except {A} (m : M A) (h : exn -> M A) : M A := fun s =>
  match m s with
  | (Raise e, s') => h e s'
  | r => r
  end.

Declare Scope py_scope.
Delimit Scope py_scope with py.
Notation "x <- m ;; k" := (bind m (fun x => k))
  (at level 100, m at next level, k at level 200, right associativity) : py_scope.
Notation "m ;; k" := (bind m (fun _ => k))
  (at level 100, k at level 200, right associativity) : py_scope.
#[local] Open Scope py_scope.

Definition emit (ev : event) : M unit := fun s => (Ok tt, log ev s).

(** ** The constants of the module *)

Record remote_dataset : Type := {
  url : string;
  filename : string;
}.

Definition REMOTE_SCH_DATASET : remote_dataset := {|
  url := "https://www.anatel.gov.br/dadosabertos/paineis_de_dados/certificacao_de_produtos";
  filename := "produtos_certificados.zip";
|}.

Definition US_PER_DAY : Z := 86400000000.

(** [timedelta.days] of a duration in microseconds: the normalisation of
    [timedelta] rounds towards minus infinity. *)
Definition timedelta_days (us : Z) : Z := us / US_PER_DAY.

(** ** The library calls the code makes *)

Section Library.
Variable E : Env.

(** The home directory [os.path.expanduser] substitutes for [~name]: for the
    current user [HOME], else the password database. *)
Definition userhome (name : string) : option string :=
  if bool_decide (name = EmptyString) then
    match environ E !! "HOME" with
    | Some h => Some h
    | None => pw_dir E
    end
  else pw_nam E !! name.

(** [os.path.expanduser]: a path that does not start with a tilde, or whose
    user is unknown, is returned unchanged. *)
Definition expanduser (path : string) : string :=
  match path with
  | String "~"%char rest =>
      let '(name, tail) := break_at_sep rest in
      match userhome name with
      | None => path
      | Some home =>
          let r := rstrip_sep home +:+ tail in
          if bool_decide (r = EmptyString) then "/" else r
      end
  | _ => path
  end.

(** [Path.expanduser]: only the first part is expanded, and an unknown home
    is an error. *)
Definition Path_expanduser (p : Path) : M Path :=
  match p with
  | String "~"%char r :: rest =>
      match expanduser (String "~"%char r) with
      | String "~"%char _ => raise (RuntimeError "Could not determine home directory.")
      | homedir => ret (Path_of_string homedir ++ rest)
      end
  | _ => ret p
  end.

(** [Path.exists] *)
Definition Path_exists (p : Path) : M bool := fun s =>
  (Ok (bool_decide (is_Some (st_fs s !! p))), s).

(** [Path.stat().st_mtime] *)
Definition Path_stat_st_mtime (p : Path) : M Z := fun s =>
  match st_fs s !! p with
  | Some n => (Ok (st_mtime n), s)
  | None => (Raise (FileNotFoundError (Path_str p)), s)
  end.

(** [datetime.today()], as microseconds. *)
Definition datetime_today : M Z := ret (now E).

(** [os.makedirs(p, exist_ok=True)]: every prefix of [p] that is absent is
    created, outermost first; a prefix that is a regular file stops it. *)
Fixpoint makedirs_from (done todo : Path) (fs : gmap Path node)
  : outcome unit * gmap Path node :=
  match todo with
  | [] => (Ok tt, fs)
  | name :: rest =>
      let d := done /: name in
      match fs !! d with
      | Some (Dir _) => makedirs_from d rest fs
      | Some (File _ _) =>
          (Raise (match rest with
                  | [] => FileExistsError (Path_str d)
                  | _ => NotADirectoryError (Path_str d)
                  end), fs)
      | None => makedirs_from d rest (<[d := Dir (now E)]> fs)
      end
  end.

Definition makedirs (p : Path) : M unit := fun s =>
  let '(r, fs) := makedirs_from [] p (st_fs s) in
  (r, log (EvMakedirs p) (set_fs fs s)).

(** [NamedTemporaryFile(prefix=..., dir=..., delete=False)] followed by
    [close()]: an empty file under the first drawn name that is free. *)
Definition NamedTemporaryFile (prefix : string) (dir : Path) : M Path := fun s =>
  match find (fun r => bool_decide (st_fs s !! (dir /: (prefix +:+ r)) = None)) (tmp_names E) with
  | Some r =>
      let p := dir /: (prefix +:+ r) in
      (Ok p, log (EvTemp p) (set_fs (<[p := File EmptyString (now E)]> (st_fs s)) s))
  | None => (Raise (FileExistsError "No usable temporary file name found"), s)
  end.

(** [urlretrieve(link, dest)]: the environment decides the outcome of each
    transfer; the destination is (re)written with what was received. *)
Definition urlretrieve (link : string) (dest : Path) : M unit := fun s =>
  let s1 := log (EvUrlretrieve link dest) (tick s) in
  match net E (st_attempts s) with
  | NetOk payload => (Ok tt, set_fs (<[dest := File payload (now E)]> (st_fs s)) s1)
  | NetRaise e (Some part) => (Raise e, set_fs (<[dest := File part (now E)]> (st_fs s)) s1)
  | NetRaise e None => (Raise e, s1)
  end.

(** [warnings.warn] under the default filters, and [print]. *)
Definition warnings_warn (msg : string) : M unit := emit (EvWarn msg).
Definition print (msg : string) : M unit := emit (EvPrint msg).

(** [time.sleep]: a negative length is a [ValueError]. *)
Definition time_sleep (delay : Q) : M unit :=
  if Qle_bool 0 delay then emit (EvSleep delay)
  else raise (ValueError "sleep length must be non-negative").

(** [os.unlink] *)
Definition os_unlink (p : Path) : M unit := fun s =>
  match st_fs s !! p with
  | Some (File _ _) => (Ok tt, log (EvUnlink p) (set_fs (delete p (st_fs s)) s))
  | Some (Dir _) => (Raise (IsADirectoryError (Path_str p)), s)
  | None => (Raise (FileNotFoundError (Path_str p)), s)
  end.

(** [shutil.move(src, dst)] of a regular file: onto [dst], or into [dst]
    when it is a directory; the node keeps its modification time. *)
Definition shutil_move (src dst : Path) : M unit := fun s =>
  let s1 := log (EvMove src dst) s in
  match storage E with
  | MoveRaises e => (Raise e, s1)
  | behaviour =>
      match st_fs s !! src with
      | None => (Raise (FileNotFoundError (Path_str src)), s1)
      | Some n =>
          let real_dst :=
            if is_Dir (st_fs s !! dst) then dst /: default EmptyString (last src) else dst in
          if is_Dir (st_fs s !! dst) && bool_decide (is_Some (st_fs s !! real_dst)) then
            (Raise (ShutilError ("Destination path '" +:+ Path_str real_dst +:+ "' already exists")), s1)
          else
            match behaviour with
            | MoveVanishes => (Ok tt, set_fs (delete real_dst (delete src (st_fs s))) s1)
            | _ => (Ok tt, set_fs (<[real_dst := n]> (delete src (st_fs s))) s1)
            end
      end
  end.

(** [open(p, "rb").read()] *)
Definition read_file (p : Path) : M string := fun s =>
  match st_fs s !! p with
  | Some (File c _) => (Ok c, s)
  | Some (Dir _) => (Raise (IsADirectoryError (Path_str p)), s)
  | None => (Raise (FileNotFoundError (Path_str p)), s)
  end.

End Library.

(** ** pandas *)

(** The parsers of pandas are an interface of the model: a parser receives
    the bytes of a file that was opened, and either builds a frame or fails
    with a message. *)
Class Pandas : Type := {
  DataFrame : Type;
  (* read_csv(content, sep=..., dtype={column: str, ...}) *)
  pandas_read_csv : string -> string -> list string -> string + DataFrame;
  (* frame[column] = to_datetime(frame[column], format=..., errors="coerce") *)
  pandas_to_datetime : DataFrame -> string -> string -> string + DataFrame;
  (* frame.dropna(subset=...) *)
  pandas_dropna : DataFrame -> list string -> string + DataFrame;
  (* read_excel(content) *)
  pandas_read_excel : string -> string + DataFrame;
}.

(** The values the functions of the package hand to their callers. *)
Inductive pyval `{Pandas} : Type :=
  | VNone
  | VStr (s : string)
  | VPath (p : Path)
  | VFrame (frame : DataFrame).

(** ** schtools/_sch_database.py and schtools/_annotation.py *)

Section Code.
Variable E : Env.
Context `{Pandas}.

Definition pd_lift {A} (r : string + A) : M A :=
  match r with
  | inl msg => raise (PandasError msg)
  | inr a => ret a
  end.

Definition pd_read_csv (p : Path) (separator : string) (dtype : list string) : M DataFrame :=
  content <- read_file p ;;
  pd_lift (pandas_read_csv content separator dtype).

Definition pd_read_excel (p : Path) : M DataFrame :=
  content <- read_file p ;;
  pd_lift (pandas_read_excel content).

(** [_get_data_home], lines 22-51: no directory is created here. *)
Definition _get_data_home (data_home : option string) : Path :=
  let default_data_home :=
    join (default "~" (environ E !! "LOCALAPPDATA")) "sch_database" in
  let data_home :=
    match data_home with
    | None => default default_data_home (environ E !! "SCH_DATAHOME")
    | Some d => d
    end in
  let data_home := expanduser E data_home in
  Path_of_string data_home.

(** The [while True] loop of lines 91-104.  One unit of fuel is one
    iteration; [n_retries] is the Python integer, decremented as it is. *)
Fixpoint download_loop (fuel : nat) (temp_file_path : Path) (n_retries : Z) (delay : Q)
  : M unit :=
  match fuel with
  | O => out_of_fuel
  | S fuel' =>
      try_except
        (let link := url REMOTE_SCH_DATASET +:+ "/" +:+ filename REMOTE_SCH_DATASET in
         urlretrieve E link temp_file_path)
        (fun e =>
           if is_URLError_or_TimeoutError e then
             if n_retries =? 0 then raise e
             else
               warnings_warn ("Retry downloading from url: " +:+ url REMOTE_SCH_DATASET) ;;
               let n_retries := n_retries - 1 in
               time_sleep delay ;;
               download_loop fuel' temp_file_path n_retries delay
           else raise e)
  end.

(** [_download_sch_database], lines 54-115. *)
Definition _download_sch_database (fuel : nat) (target_dir : Path) (n_retries : Z) (delay : Q)
  : M unit :=
  emit (EvDownload target_dir n_retries delay) ;;
  makedirs E target_dir ;;
  let sch_file_path := target_dir /: filename REMOTE_SCH_DATASET in
  temp_file <- NamedTemporaryFile E (filename REMOTE_SCH_DATASET +:+ ".part_") target_dir ;;
  try_except
    (let temp_file_path := temp_file in
     download_loop fuel temp_file_path n_retries delay)
    (fun e =>
       if is_Exception_or_KeyboardInterrupt e then
         os_unlink temp_file ;;
         raise e
       else raise e) ;;
  shutil_move E temp_file sch_file_path ;;
  present <- Path_exists sch_file_path ;;
  if negb present then raise (OSError "Error downloading SCH Database file.")
  else ret tt.

(** The tail of [fetch_sch_database], lines 219-244. *)
Definition read_sch_frame (sch_file_path : Path) : M pyval :=
  let dtype := ["Número de Homologação"; "CNPJ do Solicitante"] in
  frame <- pd_read_csv sch_file_path ";" dtype ;;
  frame <- pd_lift (pandas_to_datetime frame "Data da Homologação" "%d/%m/%Y") ;;
  frame <- pd_lift (pandas_to_datetime frame
                      "Data do Certificado de Conformidade Técnica" "%d/%m/%Y") ;;
  frame <- pd_lift (pandas_to_datetime frame
                      "Data de Validade do Certificado" "%d/%m/%Y %H:%M:%S") ;;
  frame <- pd_lift (pandas_dropna frame ["Número de Homologação"]) ;;
  ret (VFrame frame).

(** The canonical path [fetch_sch_database] computes on lines 184-189. *)
Definition sch_file_path_of (data_home : option string) : Path :=
  let data_home :=
    match data_home with
    | None => _get_data_home data_home
    | Some d => Path_of_string d
    end in
  data_home /: filename REMOTE_SCH_DATASET.

(** [fetch_sch_database], lines 118-244; its parameters are keyword-only. *)
Definition fetch_sch_database (fuel : nat) (data_home : option string)
    (download_if_missing : bool) (download_grace_period : Z) (force_download : bool)
    (n_retries : Z) (delay : Q) : M pyval :=
  let data_home :=
    match data_home with
    | None => _get_data_home data_home
    | Some d => Path_of_string d
    end in
  let sch_file_path := data_home /: filename REMOTE_SCH_DATASET in
  present <- Path_exists sch_file_path ;;
  (if present then
     sch_file_ctime <- Path_stat_st_mtime sch_file_path ;;
     today <- datetime_today E ;;
     let sch_file_age := today - sch_file_ctime in
     if timedelta_days sch_file_age >? download_grace_period then
       print ("File " +:+ Path_str sch_file_path +:+ " is older than "
              +:+ pretty download_grace_period +:+ " days. Re-downloading the file...") ;;
       _download_sch_database fuel data_home n_retries delay
     else if force_download then
       print ("File " +:+ Path_str sch_file_path +:+ " is not older than "
              +:+ pretty download_grace_period
              +:+ " days. Re-downloading the file (forced)...") ;;
       _download_sch_database fuel data_home n_retries delay
     else ret tt
   else
     if download_if_missing then
       print ("File " +:+ Path_str sch_file_path
              +:+ " does not exist. Downloading the file...") ;;
       _download_sch_database fuel data_home n_retries delay
     else
       raise (OSError ("File " +:+ Path_str sch_file_path
                       +:+ " does not exist. Set download_if_missing=True to download it."))) ;;
  read_sch_frame sch_file_path.

(** The binding of a call of [fetch_sch_database] that passes positional
    arguments only: every parameter of the signature is keyword-only, so
    the signature accepts no positional argument; with none given, every
    parameter takes its default. *)
Definition call_fetch_sch_database (fuel : nat) (args : list pyval) : M pyval :=
  match args with
  | [] => fetch_sch_database fuel None true 180 false 3 1
  | [_] => raise (TypeError
             "fetch_sch_database() takes 0 positional arguments but 1 was given")
  | _ => raise (TypeError
           ("fetch_sch_database() takes 0 positional arguments but "
            +:+ pretty (length args) +:+ " were given"))
  end.

(** [fetch_annotation], _annotation.py lines 4-21. *)
Definition fetch_annotation (annotation_path : string) : M pyval :=
  annotation_path <- Path_expanduser E (Path_of_string annotation_path) ;;
  present <- Path_exists annotation_path ;;
  if negb present then
    raise (FileNotFoundError ("Annotation file not found: " +:+ Path_str annotation_path))
  else
    frame <- pd_read_excel annotation_path ;;
    ret (VFrame frame).

End Code.

(** [d[k]] on a dict: a missing key is a [KeyError]. *)
Definition getitem {V} (d : gmap string V) (k : string) : M V :=
  match d !! k with
  | Some v => ret v
  | None => raise (KeyError k)
  end.

(** ** schtools/config.py *)

Module config.
Section Config.
Variable E : Env.

(** [_get_data_home], config.py lines 7-50: the three folders of the data
    home are created, and the four paths are returned as strings. *)
Definition _get_data_home (data_home : option string) : M (gmap string string) :=
  let default_data_home :=
    join (join (default "~" (environ E !! "LOCALAPPDATA")) "sch_tools") "datasets" in
  let data_home :=
    match data_home with
    | None => default default_data_home (environ E !! "SCH_DATAHOME")
    | Some d => d
    end in
  let data_home := Path_of_string (expanduser E data_home) in
  let sch_data_home := data_home /: "sch" in
  let search_results_data_home := data_home /: "search_results" in
  let annotation_data_home := data_home /: "annotation" in
  makedirs E sch_data_home ;;
  makedirs E search_results_data_home ;;
  makedirs E annotation_data_home ;;
  ret (<["data_home" := Path_str data_home]>
       (<["sch_data_home" := Path_str sch_data_home]>
        (<["search_results_data_home" := Path_str search_results_data_home]>
         (<["annotation_data_home" := Path_str annotation_data_home]> ∅)))).

End Config.
End config.

(** ** schtools/datamanager/datasets.py *)

Module datasets.
Section Datasets.
Variable E : Env.
Context `{Pandas}.

Record SCHToolsDatasets : Type := {
  sch : pyval;
  annotation : pyval;
}.

(** [SCHToolsDatasets.__init__], lines 18-31.  The configuration is a dict
    of tables of strings, as [load_config_file] builds it.  The argument of
    the call is evaluated before the call is bound. *)
Definition __init__ (fuel : nat) (config : gmap string (gmap string string))
  : M SCHToolsDatasets :=
  datasets_table <- getitem config "datasets" ;;
  sch_data_home <- getitem datasets_table "sch_data_home" ;;
  sch <- call_fetch_sch_database E fuel [VStr sch_data_home] ;;
  cloud_table <- getitem config "cloud" ;;
  cloud_annotation_get_folder <- getitem cloud_table "cloud_annotation_get_folder" ;;
  let cloud_annotation_get_file := join cloud_annotation_get_folder "Annotation.xlsx" in
  annotation <- fetch_annotation E cloud_annotation_get_file ;;
  ret {| sch := sch; annotation := annotation |}.

End Datasets.
End datasets.

(** ** A concrete world, to run the model *)

(** Frames as the raw text of the file: enough to run the code. *)
#[local] Instance RawPandas : Pandas := {|
  DataFrame := string;
  pandas_read_csv content _ _ := inr content;
  pandas_to_datetime frame _ _ := inr frame;
  pandas_dropna frame _ := inr frame;
  pandas_read_excel content := inr content;
|}.

Definition DAY : Z := US_PER_DAY.

(** A user [u] with home [/home/u]; the clock at day 1000; a network that
    answers as the given function says. *)
Definition env0 (answers : nat -> net_outcome) (behaviour : move_outcome) : Env := {|
  environ := {[ "HOME" := "/home/u" ]};
  pw_dir := Some "/home/u";
  pw_nam := ∅;
  now := 1000 * DAY;
  net := answers;
  tmp_names := ["a1b2c3d4"; "e5f6g7h8"];
  storage := behaviour;
|}.

Definition cache_dir : Path := ["/"; "home"; "u"; "sch_database"].
Definition canonical0 : Path := cache_dir /: "produtos_certificados.zip".
Definition staging0 : Path := cache_dir /: "produtos_certificados.zip.part_a1b2c3d4".

Definition state0 (fs : gmap Path node) : State := mkState fs 0 [].

(** A cache that holds the file, written [age] days ago. *)
Definition cached (age : Z) : gmap Path node :=
  {[ canonical0 := File "old" ((1000 - age) * DAY) ]}.

Definition always (o : net_outcome) : nat -> net_outcome := fun _ => o.

(** The network fails with [e] for the first [k] transfers, then delivers. *)
Definition fails_then_ok (k : nat) (e : exn) (payload : string) : nat -> net_outcome :=
  fun i => if (i <? k)%nat then NetRaise e None else NetOk payload.

(** ** Reading the log *)

Definition is_EvDownload (ev : event) : bool :=
  match ev with EvDownload _ _ _ => true | _ => false end.

Definition is_EvMove (ev : event) : bool :=
  match ev with EvMove _ _ => true | _ => false end.

Fixpoint count_events (P : event -> bool) (l : list event) : nat :=
  match l with
  | [] => 0
  | ev :: l' => (if P ev then 1 else 0) + count_events P l'
  end.

(** The number of calls of [_download_sch_database], and of publishing moves,
    a state has seen. *)
Definition downloads (s : State) : nat := count_events is_EvDownload (st_log s).
Definition moves (s : State) : nat := count_events is_EvMove (st_log s).

(** The address the loop fetches, and the warning it emits. *)
Definition remote_link : string :=
  url REMOTE_SCH_DATASET +:+ "/" +:+ filename REMOTE_SCH_DATASET.
Definition retry_warning : string :=
  "Retry downloading from url: " +:+ url REMOTE_SCH_DATASET.

(** What [k] retried transfers leave in the log (newest first): each one is a
    transfer, then the warning, then the sleep. *)
Fixpoint retry_events (k : nat) (temp_file_path : Path) (delay : Q) : list event :=
  match k with
  | O => []
  | S k' =>
      retry_events k' temp_file_path delay
      ++ [EvSleep delay; EvWarn retry_warning; EvUrlretrieve remote_link temp_file_path]
  end.

(** The transfer is one the loop retries. *)
Definition retried (o : net_outcome) : bool :=
  match o with
  | NetRaise e _ => is_URLError_or_TimeoutError e
  | NetOk _ => false
  end.

(** The state [urlretrieve] leaves. *)
Definition transferred (E : Env) (dest : Path) (s : State) : State :=
  let s1 := log (EvUrlretrieve remote_link dest) (tick s) in
  match net E (st_attempts s) with
  | NetOk payload => set_fs (<[dest := File payload (now E)]> (st_fs s)) s1
  | NetRaise _ (Some part) => set_fs (<[dest := File part (now E)]> (st_fs s)) s1
  | NetRaise _ None => s1
  end.

(** The prefix of the names of the staging files, line 85. *)
Definition staging_prefix : string := filename REMOTE_SCH_DATASET +:+ ".part_".

(** The file system once [makedirs] has gone over [target_dir]. *)
Definition fs_made (E : Env) (target_dir : Path) (s : State) : gmap Path node :=
  snd (makedirs_from E [] target_dir (st_fs s)).

(** The staging file of a call of [_download_sch_database] from state [s],
    when the call gets as far as creating one. *)
Definition staging_of (E : Env) (target_dir : Path) (s : State) : option Path :=
  match makedirs_from E [] target_dir (st_fs s) with
  | (Ok _, fs) =>
      match find (fun r => bool_decide (fs !! (target_dir /: (staging_prefix +:+ r)) = None))
                 (tmp_names E) with
      | Some r => Some (target_dir /: (staging_prefix +:+ r))
      | None => None
      end
  | _ => None
  end.

(** The state in which the retry loop starts: the call is logged, the target
    directory made, the empty staging file created. *)
Definition staged (E : Env) (target_dir : Path) (n_retries : Z) (delay : Q)
    (temp_file : Path) (s : State) : State :=
  log (EvTemp temp_file)
    (set_fs (<[temp_file := File EmptyString (now E)]> (fs_made E target_dir s))
       (log (EvMakedirs target_dir) (log (EvDownload target_dir n_retries delay) s))).

(** The publishing step, lines 113-115. *)
Definition publish (E : Env) (temp_file sch_file_path : Path) : M unit :=
  shutil_move E temp_file sch_file_path ;;
  present <- Path_exists sch_file_path ;;
  if negb present then raise (OSError "Error downloading SCH Database file.")
  else ret tt.

(** [q] is one of the non-empty prefixes of [p]: the path itself or one of
    its parents. *)
Definition is_prefix_of (q p : Path) : Prop :=
  exists k : nat, (0 < k <= length p)%nat /\ q = take k p.

(** The directory [fetch_sch_database] works in, lines 184-187: without an
    argument the resolver is asked; an argument is taken as it is. *)
Definition data_home_of (E : Env) (data_home : option string) : Path :=
  match data_home with
  | None => _get_data_home E data_home
  | Some d => Path_of_string d
  end.

(** The statement of lines 191-217 of [fetch_sch_database], on its own. *)
Definition refresh_cache (E : Env) (fuel : nat) (data_home : Path)
    (download_if_missing : bool) (download_grace_period : Z) (force_download : bool)
    (n_retries : Z) (delay : Q) : M unit :=
  let sch_file_path := data_home /: filename REMOTE_SCH_DATASET in
  present <- Path_exists sch_file_path ;;
  if present then
    sch_file_ctime <- Path_stat_st_mtime sch_file_path ;;
    today <- datetime_today E ;;
    let sch_file_age := today - sch_file_ctime in
    if timedelta_days sch_file_age >? download_grace_period then
      print ("File " +:+ Path_str sch_file_path +:+ " is older than "
             +:+ pretty download_grace_period +:+ " days. Re-downloading the file...") ;;
      _download_sch_database E fuel data_home n_retries delay
    else if force_download then
      print ("File " +:+ Path_str sch_file_path +:+ " is not older than "
             +:+ pretty download_grace_period
             +:+ " days. Re-downloading the file (forced)...") ;;
      _download_sch_database E fuel data_home n_retries delay
    else ret tt
  else
    if download_if_missing then
      print ("File " +:+ Path_str sch_file_path
             +:+ " does not exist. Downloading the file...") ;;
      _download_sch_database E fuel data_home n_retries delay
    else
      raise (OSError ("File " +:+ Path_str sch_file_path
                      +:+ " does not exist. Set download_if_missing=True to download it.")).

(** The order of precedence of the specification: the explicit argument,
    else the environment variable, else the platform default. *)
Definition precedence (explicit from_environment : option string) (platform_default : string)
  : string :=
  match explicit, from_environment with
  | Some d, _ => d
  | None, Some v => v
  | None, None => platform_default
  end.

(** The platform defaults of the two resolvers. *)
Definition default_sch_database (E : Env) : string :=
  join (default "~" (environ E !! "LOCALAPPDATA")) "sch_database".
Definition default_sch_tools (E : Env) : string :=
  join (join (default "~" (environ E !! "LOCALAPPDATA")) "sch_tools") "datasets".

(** The directory [p] and all its parents are there. *)
Definition all_dirs (fs : gmap Path node) (p : Path) : Prop :=
  forall q, is_prefix_of q p -> is_Dir (fs !! q) = true.

(** No regular file stands where [p] or one of its parents should be. *)
Definition no_file_on (fs : gmap Path node) (p : Path) : Prop :=
  forall q c m, is_prefix_of q p -> fs !! q <> Some (File c m).

(** The data home of config.py. *)
Definition config_home (E : Env) (explicit : option string) : Path :=
  Path_of_string
    (expanduser E (precedence explicit (environ E !! "SCH_DATAHOME") (default_sch_tools E))).

(** ** The rest of schtools/config.py: the loaders *)

(** The values of a parsed TOML document, as [tomllib] builds them.  Of a
    float the loaders observe whether it is zero; of a date or a time, the
    name of its Python type. *)
#[warnings="-register-all"]
Inductive toml : Type :=
  | TStr (s : string)
  | TInt (z : Z)
  | TBool (b : bool)
  | TFloat (zero : bool)
  | TTemporal (python_type : string)
  | TList (l : list toml)
  | TDict (d : gmap string toml).

(** [type(v).__name__] *)
Definition type_name (v : toml) : string :=
  match v with
  | TStr _ => "str"
  | TInt _ => "int"
  | TBool _ => "bool"
  | TFloat _ => "float"
  | TTemporal name => name
  | TList _ => "list"
  | TDict _ => "dict"
  end.

(** [bool(v)] *)
Definition truthy (v : toml) : bool :=
  match v with
  | TStr s => negb (bool_decide (s = EmptyString))
  | TInt z => negb (z =? 0)
  | TBool b => b
  | TFloat zero => negb zero
  | TTemporal _ => true
  | TList l => negb (bool_decide (l = []))
  | TDict d => negb (bool_decide (d = ∅))
  end.

(** [bool(v)] of a value that may be [None]; [all] over a list of them. *)
Definition truthy_opt (o : option toml) : bool :=
  match o with
  | Some v => truthy v
  | None => false
  end.

(** The loaders meet exceptions the acquisition code never raises. *)
Inductive py_exn : Type :=
  | Builtin (e : exn)
  | AttributeError (msg : string)
  | OtherException (class_name msg : string).

Inductive result (A : Type) : Type :=
  | Returned (a : A)
  | Raised (e : py_exn)
  | Unfinished.
Arguments Returned {A} a.
Arguments Raised {A} e.
Arguments Unfinished {A}.

Definition L (A : Type) : Type := State -> result A * State.

Definition retL {A} (a : A) : L A := fun s => (Returned a, s).
Definition raiseL {A} (e : exn) : L A := fun s => (Raised (Builtin e), s).

Definition bindL {A B} (m : L A) (k : A -> L B) : L B := fun s =>
  match m s with
  | (Returned a, s') => k a s'
  | (Raised e, s') => (Raised e, s')
  | (Unfinished, s') => (Unfinished, s')
  end.

(** A computation of the acquisition code, run by a loader. *)
Definition lift {A} (m : M A) : L A := fun s =>
  match m s with
  | (Ok a, s') => (Returned a, s')
  | (Raise e, s') => (Raised (Builtin e), s')
  | (OutOfFuel, s') => (Unfinished, s')
  end.

Notation "x <~ m ;; k" := (bindL m (fun x => k))
  (at level 100, m at next level, k at level 200, right associativity) : py_scope.

(** [tomllib.loads]: the parser is an interface of the model; its failures
    ([TOMLDecodeError], [UnicodeDecodeError]) are [ValueError]s. *)
Class Tomllib : Type := {
  tomllib_loads : string -> string + gmap string toml;
}.

(** The string contains a NUL character. *)
Fixpoint has_nul (s : string) : bool :=
  match s with
  | EmptyString => false
  | String c s' => bool_decide (c = Ascii.zero) || has_nul s'
  end.

(** The string names a directory by its form: it ends with a separator or
    with a part ["."]. *)
Definition wants_dir (s : string) : bool :=
  match last (split_sep s) with
  | Some c => negb (is_real_part c)
  | None => false
  end.

(** [os.path.exists] on a string: [os.stat] succeeds.  The empty string and a
    string with a NUL name nothing; a regular file is not found under a name
    that wants a directory. *)
Definition os_path_exists_str (s : string) (fs : gmap Path node) : bool :=
  if bool_decide (s = EmptyString) || has_nul s then false
  else
    match fs !! Path_of_string s with
    | Some (File _ _) => negb (wants_dir s)
    | Some (Dir _) => true
    | None => false
    end.

Section Loaders.
Variable E : Env.
Context `{Tomllib}.
(** [str(Path(__file__).parent)], the directory of config.py. *)
Variable module_dir : string.
(** [os.path.exists] on a value that is not a string: the answer (a file
    descriptor that is open or not, a [TypeError], an [OverflowError]) is
    left to the environment. *)
Variable exists_other : toml -> py_exn + bool.

Definition tomllib_load (content : string) : L (gmap string toml) :=
  match tomllib_loads content with
  | inl msg => raiseL (ValueError msg)
  | inr document => retL document
  end.

(** [os.path.exists] *)
Definition os_path_exists (v : toml) : L bool := fun s =>
  match v with
  | TStr p => (Returned (os_path_exists_str p (st_fs s)), s)
  | _ =>
      match exists_other v with
      | inl e => (Raised e, s)
      | inr b => (Returned b, s)
      end
  end.

(** [os.path.expanduser] on a value: [os.fspath] rejects what is not a
    string. *)
Definition py_expanduser (v : toml) : L string :=
  match v with
  | TStr p => retL (expanduser E p)
  | _ => raiseL (TypeError ("expected str, bytes or os.PathLike object, not " +:+ type_name v))
  end.

(** [v.get(key, None)]: only a dict has the method. *)
Definition py_get (v : toml) (key : string) : L (option toml) :=
  match v with
  | TDict d => retL (d !! key)
  | _ => fun s => (Raised (AttributeError ("'" +:+ type_name v +:+ "' object has no attribute 'get'")), s)
  end.

(** The call [_get_data_home(v)] of config.py with a value of the document:
    the value reaches [expanduser] before any directory is made. *)
Definition call_get_data_home (v : option toml) : L (gmap string string) :=
  match v with
  | None => lift (config._get_data_home E None)
  | Some (TStr p) => lift (config._get_data_home E (Some p))
  | Some v => raiseL (TypeError ("expected str, bytes or os.PathLike object, not " +:+ type_name v))
  end.

(** [load_api_credentiails], config.py lines 52-78. *)
Definition load_api_credentiails (creds_file : option toml) : L (gmap string toml) :=
  let creds_file :=
    match creds_file with
    | None => TStr (join "~" "creds.ini")
    | Some v => v
    end in
  creds_file <~ py_expanduser creds_file ;;
  present <~ os_path_exists (TStr creds_file) ;;
  if negb present then
    raiseL (FileNotFoundError ("Credentials file not found: " +:+ creds_file))
  else
    content <~ lift (read_file (Path_of_string creds_file)) ;;
    creds <~ tomllib_load content ;;
    retL creds.

(** [load_config_file], config.py lines 80-140. *)
Definition load_config_file (config_file : option string) : L (gmap string toml) :=
  let config_file :=
    match config_file with
    | None => join module_dir "config.toml"
    | Some f => f
    end in
  present <~ os_path_exists (TStr config_file) ;;
  config <~ (if negb present then
               raiseL (FileNotFoundError ("Config file not found: " +:+ config_file))
             else
               content <~ lift (read_file (Path_of_string config_file)) ;;
               tomllib_load content) ;;
  _ <~ match config !! "cloud" with
       | None => raiseL (ValueError "Cloud configuration is missing in the config file.")
       | Some cloud =>
           cloud_annotation_get_folder <~ py_get cloud "cloud_annotation_get_folder" ;;
           cloud_annotation_post_folder <~ py_get cloud "cloud_annotation_post_folder" ;;
           if negb (truthy_opt cloud_annotation_get_folder
                    && truthy_opt cloud_annotation_post_folder) then
             raiseL (ValueError "GET/POST cloud configuration is missing in the config file.")
           else
             get_exists <~ match cloud_annotation_get_folder with
                           | Some v => os_path_exists v
                           | None => retL false
                           end ;;
             post_exists <~ match cloud_annotation_post_folder with
                            | Some v => os_path_exists v
                            | None => retL false
                            end ;;
             if negb (get_exists && post_exists) then
               raiseL (FileNotFoundError
                         "GET/POST cloud configuration folders not found. Check config file.")
             else retL tt
       end ;;
  datasets_paths <~ call_get_data_home (config !! "datasets") ;;
  let config := <["datasets" := TDict (TStr <$> datasets_paths)]> config in
  creds_file <~ match config !! "credentials" with
                | Some credentials =>
                    if truthy credentials then py_get credentials "creds_file"
                    else retL None
                | None => retL None
                end ;;
  creds <~ load_api_credentiails creds_file ;;
  let config := <["credentials" := TDict creds]> config in
  retL config.

End Loaders.

(** The tables of strings of a configuration: what
    [SCHToolsDatasets.__init__] indexes. *)
Definition string_of_toml (v : toml) : option string :=
  match v with
  | TStr s => Some s
  | _ => None
  end.
Definition table_of_toml (v : toml) : option (gmap string string) :=
  match v with
  | TDict d => Some (omap string_of_toml d)
  | _ => None
  end.
Definition tables_of (config : gmap string toml) : gmap string (gmap string string) :=
  omap table_of_toml config.

(** The three parts of [load_config_file], on their own: lines 96-103,
    105-128 and 130-140. *)
Definition read_config `{Tomllib} (exists_other : toml -> py_exn + bool)
    (config_file : string) : L (gmap string toml) :=
  present <~ os_path_exists exists_other (TStr config_file) ;;
  if negb present then
    raiseL (FileNotFoundError ("Config file not found: " +:+ config_file))
  else
    content <~ lift (read_file (Path_of_string config_file)) ;;
    tomllib_load content.

Definition validate_cloud (exists_other : toml -> py_exn + bool)
    (config : gmap string toml) : L unit :=
  match config !! "cloud" with
  | None => raiseL (ValueError "Cloud configuration is missing in the config file.")
  | Some cloud =>
      cloud_annotation_get_folder <~ py_get cloud "cloud_annotation_get_folder" ;;
      cloud_annotation_post_folder <~ py_get cloud "cloud_annotation_post_folder" ;;
      if negb (truthy_opt cloud_annotation_get_folder
               && truthy_opt cloud_annotation_post_folder) then
        raiseL (ValueError "GET/POST cloud configuration is missing in the config file.")
      else
        get_exists <~ match cloud_annotation_get_folder with
                      | Some v => os_path_exists exists_other v
                      | None => retL false
                      end ;;
        post_exists <~ match cloud_annotation_post_folder with
                       | Some v => os_path_exists exists_other v
                       | None => retL false
                       end ;;
        if negb (get_exists && post_exists) then
          raiseL (FileNotFoundError
                    "GET/POST cloud configuration folders not found. Check config file.")
        else retL tt
  end.

Definition finish_config `{Tomllib} (E : Env) (exists_other : toml -> py_exn + bool)
    (config : gmap string toml) : L (gmap string toml) :=
  datasets_paths <~ call_get_data_home E (config !! "datasets") ;;
  let config := <["datasets" := TDict (TStr <$> datasets_paths)]> config in
  creds_file <~ match config !! "credentials" with
                | Some credentials =>
                    if truthy credentials then py_get credentials "creds_file"
                    else retL None
                | None => retL None
                end ;;
  creds <~ load_api_credentiails E exists_other creds_file ;;
  let config := <["credentials" := TDict creds]> config in
  retL config.

(** The credentials file that a document names, lines 132-135, when these
    lines raise nothing: the [creds_file] entry of a [credentials] table
    that is not empty. *)
Definition named_creds_file (document : gmap string toml) : option toml :=
  match document !! "credentials" with
  | Some (TDict credentials) =>
      if truthy (TDict credentials) then credentials !! "creds_file" else None
  | _ => None
  end.

(** The file named [f] is found by [os.path.exists], is a regular file, and
    parses as [document]. *)
Definition holds_document `{Tomllib} (f : string) (document : gmap string toml)
    (fs : gmap Path node) : Prop :=
  os_path_exists_str f fs = true /\
  exists c m, fs !! Path_of_string f = Some (File c m) /\ tomllib_loads c = inr document.

(** The document passes the checks of lines 105-128 in state [s]. *)
Definition cloud_validated (exists_other : toml -> py_exn + bool)
    (document : gmap string toml) (s : State) : Prop :=
  exists cloud g p,
    document !! "cloud" = Some (TDict cloud) /\
    cloud !! "cloud_annotation_get_folder" = Some g /\
    cloud !! "cloud_annotation_post_folder" = Some p /\
    truthy g = true /\ truthy p = true /\
    fst (os_path_exists exists_other g s) = Returned true /\
    fst (os_path_exists exists_other p s) = Returned true.

(** A parser that knows a few documents by their text, and a disk that
    holds some of them: the configuration of a package installed in [/pkg],
    with its two cloud folders, and the credentials of the user. *)
Definition config_document : gmap string toml :=
  {[ "cloud" := TDict {[ "cloud_annotation_get_folder" := TStr "/cloud/get";
                         "cloud_annotation_post_folder" := TStr "/cloud/post" ]} ]}.
Definition creds_document : gmap string toml :=
  {[ "api_key" := TStr "k" ]}.

Definition stored_documents : gmap string (gmap string toml) :=
  {[ "CONFIG" := config_document;
     "CREDS" := creds_document;
     "CLOUD IS A STRING" := {[ "cloud" := TStr "/cloud" ]};
     "EMPTY GET FOLDER" :=
       {[ "cloud" := TDict {[ "cloud_annotation_get_folder" := TStr EmptyString;
                              "cloud_annotation_post_folder" := TStr "/cloud/post" ]} ]};
     "NO POST FOLDER ON DISK" :=
       {[ "cloud" := TDict {[ "cloud_annotation_get_folder" := TStr "/cloud/get";
                              "cloud_annotation_post_folder" := TStr "/cloud/nowhere" ]} ]};
     "DATASETS TABLE" :=
       <[ "datasets" := TDict {[ "data_home" := TStr "/srv/data" ]} ]> config_document ]}.

#[local] Instance StoredToml : Tomllib := {|
  tomllib_loads content :=
    match stored_documents !! content with
    | Some document => inr document
    | None => inl "Invalid statement (at line 1, column 1)"
    end;
|}.

Definition no_descriptor (v : toml) : py_exn + bool :=
  inl (Builtin (TypeError ("stat: path should be string, bytes, os.PathLike or integer, not "
                           +:+ type_name v))).

(** The disk of the package, its configuration file holding [text]. *)
Definition installed (text : string) : gmap Path node :=
  {[ ["/"; "pkg"; "config.toml"] := File text 0;
     ["/"; "cloud"; "get"] := Dir 0;
     ["/"; "cloud"; "post"] := Dir 0 ]}.
Definition with_creds (text : string) : gmap Path node :=
  <[ ["/"; "home"; "u"; "creds.ini"] := File "CREDS" 0 ]> (installed text).

Definition host0 : Env := env0 (always (NetOk "new")) MoveDone.

(** * Facts about the library calls *)

Section LibraryFacts.
Variable E : Env.

Lemma staging_ne_canonical (dir : Path) (r : string) :
  dir /: (staging_prefix +:+ r) <> dir /: filename REMOTE_SCH_DATASET.
Proof.
  unfold Path_div. intros Heq. apply app_inv_head in Heq.
  injection Heq as Heq. cbn in Heq. discriminate Heq.
Qed.

Lemma makedirs_from_lookup (done todo : Path) (fs : gmap Path node) :
  forall r fs', makedirs_from E done todo fs = (r, fs') ->
    (forall q n, fs !! q = Some n -> fs' !! q = Some n) /\
    (forall q, fs !! q = None ->
       fs' !! q = None \/
       (fs' !! q = Some (Dir (now E)) /\
        exists k, (0 < k <= length todo)%nat /\ q = done ++ take k todo)).
Proof.
  revert done fs. induction todo as [|name rest IH]; intros done fs r fs' Hrun; cbn in Hrun.
  - inversion Hrun; subst. split; auto.
  - revert Hrun. destruct (fs !! (done /: name)) as [[c m|m]|] eqn:Hd; intros Hrun.
    + inversion Hrun; subst. split; auto.
    + destruct (IH _ _ _ _ Hrun) as [Hkeep Hnew]. split; [exact Hkeep|].
      intros q Hq. destruct (Hnew q Hq) as [Hn|[Hn (k & Hk & ->)]]; [by left|right].
      split; [exact Hn|]. exists (S k). split; [cbn; lia|].
      unfold Path_div. by rewrite <- app_assoc.
    + destruct (IH _ _ _ _ Hrun) as [Hkeep Hnew]. split.
      * intros q n Hq. apply Hkeep. rewrite lookup_insert_ne; [exact Hq|].
        intros <-. congruence.
      * intros q Hq. destruct (decide (q = done /: name)) as [->|Hne].
        -- right. split; [apply Hkeep, lookup_insert_eq|].
           exists 1%nat. split; [cbn; lia|]. cbn. by rewrite take_0.
        -- destruct (Hnew q) as [Hn|[Hn (k & Hk & ->)]].
           ++ by rewrite lookup_insert_ne.
           ++ by left.
           ++ right. split; [exact Hn|]. exists (S k). split; [cbn; lia|].
              unfold Path_div. by rewrite <- app_assoc.
Qed.

End LibraryFacts.

Section MakedirsFacts.
Variable E : Env.

(** Regular files are neither created nor touched. *)
Lemma makedirs_from_files (done todo : Path) (fs : gmap Path node) r fs' q c m :
  makedirs_from E done todo fs = (r, fs') ->
  fs' !! q = Some (File c m) <-> fs !! q = Some (File c m).
Proof.
  intros Hrun. destruct (makedirs_from_lookup E _ _ _ _ _ Hrun) as [Hkeep Hnew].
  split; [|apply Hkeep].
  intros Hq. destruct (fs !! q) as [n|] eqn:Hfs.
  - apply Hkeep in Hfs. congruence.
  - destruct (Hnew q Hfs) as [Hn|[Hn _]]; congruence.
Qed.

(** Paths longer than the one being made are out of reach. *)
Lemma makedirs_from_frame (done todo : Path) (fs : gmap Path node) r fs' q :
  makedirs_from E done todo fs = (r, fs') ->
  (length done + length todo < length q)%nat ->
  fs' !! q = fs !! q.
Proof.
  intros Hrun Hlen. destruct (makedirs_from_lookup E _ _ _ _ _ Hrun) as [Hkeep Hnew].
  destruct (fs !! q) as [n|] eqn:Hfs; [by apply Hkeep|].
  destruct (Hnew q Hfs) as [Hn|[_ (k & Hk & ->)]]; [exact Hn|].
  rewrite length_app, length_take in Hlen. lia.
Qed.

Lemma makedirs_from_dirs (done todo : Path) (fs : gmap Path node) :
  forall fs', makedirs_from E done todo fs = (Ok tt, fs') ->
  forall k, (0 < k <= length todo)%nat -> is_Dir (fs' !! (done ++ take k todo)) = true.
Proof.
  revert done fs. induction todo as [|name rest IH]; intros done fs fs' Hrun k Hk;
    cbn in Hrun, Hk; [lia|].
  assert (Hstep : forall fs1 t, fs1 !! (done /: name) = Some (Dir t) ->
            makedirs_from E (done /: name) rest fs1 = (Ok tt, fs') ->
            is_Dir (fs' !! (done ++ take k (name :: rest))) = true).
  { intros fs1 t Hd Hrec. destruct k as [|k]; [lia|]. cbn.
    destruct k as [|k].
    - rewrite take_0.
      destruct (makedirs_from_lookup E _ _ _ _ _ Hrec) as [Hkeep _].
      apply Hkeep in Hd. unfold Path_div in Hd. by rewrite Hd.
    - replace (done ++ name :: take (S k) rest) with ((done /: name) ++ take (S k) rest)
        by (unfold Path_div; by rewrite <- app_assoc).
      apply (IH _ _ _ Hrec). lia. }
  revert Hrun. destruct (fs !! (done /: name)) as [[c m|m]|] eqn:Hd; intros Hrun.
  - discriminate Hrun.
  - exact (Hstep fs m Hd Hrun).
  - refine (Hstep _ (now E) _ Hrun). apply lookup_insert_eq.
Qed.

(** A second run finds everything in place. *)
Lemma makedirs_from_idem (done todo : Path) (fs : gmap Path node) :
  forall fs', makedirs_from E done todo fs = (Ok tt, fs') ->
  makedirs_from E done todo fs' = (Ok tt, fs').
Proof.
  revert done fs. induction todo as [|name rest IH]; intros done fs fs' Hrun; cbn in Hrun.
  - cbn. reflexivity.
  - assert (Hstep : forall fs1 t, fs1 !! (done /: name) = Some (Dir t) ->
              makedirs_from E (done /: name) rest fs1 = (Ok tt, fs') ->
              makedirs_from E done (name :: rest) fs' = (Ok tt, fs')).
    { intros fs1 t Hd Hrec. cbn.
      destruct (makedirs_from_lookup E _ _ _ _ _ Hrec) as [Hkeep _].
      rewrite (Hkeep _ _ Hd). exact (IH _ _ _ Hrec). }
    revert Hrun. destruct (fs !! (done /: name)) as [[c m|m]|] eqn:Hd; intros Hrun.
    + discriminate Hrun.
    + exact (Hstep fs m Hd Hrun).
    + refine (Hstep _ (now E) _ Hrun). apply lookup_insert_eq.
Qed.

(** When the directory and its parents are there, nothing happens. *)
Lemma makedirs_from_existing (done todo : Path) (fs : gmap Path node) :
  (forall k, (0 < k <= length todo)%nat -> is_Dir (fs !! (done ++ take k todo)) = true) ->
  makedirs_from E done todo fs = (Ok tt, fs).
Proof.
  revert done. induction todo as [|name rest IH]; intros done Hall; cbn; [reflexivity|].
  pose proof (Hall 1%nat ltac:(cbn; lia)) as H1. cbn in H1. rewrite take_0 in H1.
  unfold Path_div. destruct (fs !! (done ++ [name])) as [[c m|m]|]; try discriminate H1.
  apply IH. intros k Hk. rewrite <- app_assoc. apply (Hall (S k)). cbn. lia.
Qed.

(** The call succeeds exactly when no regular file stands on the way. *)
Lemma makedirs_from_ok_iff (done todo : Path) (fs : gmap Path node) :
  fst (makedirs_from E done todo fs) = Ok tt <->
  (forall k c m, (0 < k <= length todo)%nat -> fs !! (done ++ take k todo) <> Some (File c m)).
Proof.
  revert done fs. induction todo as [|name rest IH]; intros done fs; cbn.
  - split; [intros _ k c m Hk; lia|reflexivity].
  - unfold Path_div. destruct (fs !! (done ++ [name])) as [[c m|m]|] eqn:Hd.
    + cbn. split; [discriminate|]. intros Hall. exfalso.
      apply (Hall 1%nat c m); [cbn; lia|]. cbn. by rewrite take_0.
    + rewrite IH. split; intros Hall k c' m' Hk.
      * destruct k as [|[|k]]; [lia| |].
        -- cbn. rewrite take_0. congruence.
        -- specialize (Hall (S k) c' m'). rewrite <- app_assoc in Hall. apply Hall. cbn in Hk. lia.
      * rewrite <- app_assoc. apply (Hall (S k)). cbn. lia.
    + rewrite IH. split; intros Hall k c' m' Hk.
      * destruct k as [|[|k]]; [lia| |].
        -- cbn. rewrite take_0. congruence.
        -- specialize (Hall (S k) c' m'). rewrite <- app_assoc in Hall.
           intros Hf. apply Hall; [cbn in Hk; lia|].
           rewrite lookup_insert_ne; [exact Hf|]. intros Heq. cbn in Hf, Heq. congruence.
      * rewrite <- app_assoc. intros Hf.
        destruct (decide (done ++ [name] = done ++ [name] ++ take k rest)) as [Heq|Hne].
        -- rewrite <- Heq, lookup_insert_eq in Hf. discriminate Hf.
        -- rewrite lookup_insert_ne in Hf by exact Hne.
           apply (Hall (S k) c' m'); [cbn; lia|exact Hf].
Qed.

End MakedirsFacts.

(** * Facts about the retry loop *)

Section LoopFacts.
Variable E : Env.

Lemma transferred_attempts dest s : st_attempts (transferred E dest s) = S (st_attempts s).
Proof. unfold transferred. by destruct (net E (st_attempts s)) as [?|? [?|]]. Qed.

Lemma transferred_log dest s :
  st_log (transferred E dest s) = EvUrlretrieve remote_link dest :: st_log s.
Proof. unfold transferred. by destruct (net E (st_attempts s)) as [?|? [?|]]. Qed.

Lemma transferred_frame dest s q :
  q <> dest -> st_fs (transferred E dest s) !! q = st_fs s !! q.
Proof.
  intros Hne. unfold transferred.
  destruct (net E (st_attempts s)) as [?|? [?|]]; cbn; try reflexivity;
    by rewrite lookup_insert_ne.
Qed.

Lemma transferred_dest dest s :
  st_fs (transferred E dest s) !! dest = st_fs s !! dest \/
  exists c, st_fs (transferred E dest s) !! dest = Some (File c (now E)).
Proof.
  unfold transferred.
  destruct (net E (st_attempts s)) as [?|? [?|]]; cbn; [right|right|by left];
    eexists; apply lookup_insert_eq.
Qed.

(** One iteration of the loop, by cases on what the transfer did. *)
Lemma download_loop_S fuel tmp n d s :
  download_loop E (S fuel) tmp n d s =
  match net E (st_attempts s) with
  | NetOk _ => (Ok tt, transferred E tmp s)
  | NetRaise e _ =>
      if is_URLError_or_TimeoutError e then
        if n =? 0 then (Raise e, transferred E tmp s)
        else if Qle_bool 0 d then
          download_loop E fuel tmp (n - 1) d
            (log (EvSleep d) (log (EvWarn retry_warning) (transferred E tmp s)))
        else (Raise (ValueError "sleep length must be non-negative"),
              log (EvWarn retry_warning) (transferred E tmp s))
      else (Raise e, transferred E tmp s)
  end.
Proof.
  cbn [download_loop]. unfold try_except, urlretrieve, transferred, remote_link.
  destruct (net E (st_attempts s)) as [p|e [w|]]; try reflexivity;
    destruct (is_URLError_or_TimeoutError e); try reflexivity;
    destruct (n =? 0); try reflexivity;
    unfold bind, warnings_warn, emit, time_sleep, raise;
    destruct (Qle_bool 0 d); reflexivity.
Qed.

(** Whatever the budget and the outcome, the loop starts transfers and logs
    them, and writes to its staging file only. *)
Lemma download_loop_effect fuel :
  forall tmp n d s r s',
    download_loop E fuel tmp n d s = (r, s') ->
    downloads s' = downloads s /\
    moves s' = moves s /\
    (forall q, q <> tmp -> st_fs s' !! q = st_fs s !! q) /\
    (st_fs s' !! tmp = st_fs s !! tmp \/ exists c, st_fs s' !! tmp = Some (File c (now E))) /\
    (r = Ok tt -> exists payload,
       net E (pred (st_attempts s')) = NetOk payload /\
       st_fs s' !! tmp = Some (File payload (now E))).
Proof.
  induction fuel as [|fuel IH]; intros tmp n d s r s' Hrun.
  - cbn in Hrun. inversion Hrun; subst. repeat split; auto. discriminate.
  - rewrite download_loop_S in Hrun.
    assert (Hbase : downloads (transferred E tmp s) = downloads s /\
                    moves (transferred E tmp s) = moves s).
    { unfold downloads, moves. by rewrite transferred_log. }
    assert (Hstop : forall r0, (r0 = Ok tt -> exists p, net E (st_attempts s) = NetOk p) ->
              (r0, transferred E tmp s) = (r, s') ->
              downloads s' = downloads s /\ moves s' = moves s /\
              (forall q, q <> tmp -> st_fs s' !! q = st_fs s !! q) /\
              (st_fs s' !! tmp = st_fs s !! tmp \/
               exists c, st_fs s' !! tmp = Some (File c (now E))) /\
              (r = Ok tt -> exists payload,
                 net E (pred (st_attempts s')) = NetOk payload /\
                 st_fs s' !! tmp = Some (File payload (now E)))).
    { intros r0 Hok Heq. inversion Heq; subst. destruct Hbase as [Hb1 Hb2].
      repeat split; auto using transferred_frame, transferred_dest.
      intros Hr. destruct (Hok Hr) as [p Hp]. exists p.
      rewrite transferred_attempts. split; [exact Hp|].
      unfold transferred. rewrite Hp. cbn. apply lookup_insert_eq. }
    destruct (net E (st_attempts s)) as [p|e w] eqn:Hnet.
    + apply (Hstop (Ok tt)); [eauto|exact Hrun].
    + destruct (is_URLError_or_TimeoutError e);
        [|apply (Hstop (Raise e)); [discriminate|exact Hrun]].
      destruct (n =? 0); [apply (Hstop (Raise e)); [discriminate|exact Hrun]|].
      destruct (Qle_bool 0 d).
      * destruct (IH _ _ _ _ _ _ Hrun) as (H1 & H2 & H3 & H4 & H5).
        destruct Hbase as [Hb1 Hb2]. cbn in H3, H4.
        repeat split.
        -- rewrite H1. exact Hb1.
        -- rewrite H2. exact Hb2.
        -- intros q Hq. rewrite (H3 q Hq). by apply transferred_frame.
        -- destruct H4 as [H4|H4]; [|by right]. rewrite H4. apply transferred_dest.
        -- exact H5.
      * inversion Hrun; subst. destruct Hbase as [Hb1 Hb2].
        unfold downloads, moves in *. cbn.
        repeat split; auto using transferred_frame, transferred_dest; discriminate.
Qed.

(** Within the data model of the retry policy (a budget and a delay that
    are not negative), the loop stops after at most [n + 1] transfers: the
    first [k] are retried, each followed by the warning and the sleep, and
    the next one ends the loop. *)
Lemma download_loop_spec fuel :
  forall tmp n d s,
    0 <= n -> Qle_bool 0 d = true -> (Z.to_nat n < fuel)%nat ->
    exists k r s',
      (k <= Z.to_nat n)%nat /\
      (forall i, (i < k)%nat -> retried (net E (st_attempts s + i)) = true) /\
      download_loop E fuel tmp n d s = (r, s') /\
      st_attempts s' = (st_attempts s + k + 1)%nat /\
      st_log s' = EvUrlretrieve remote_link tmp :: retry_events k tmp d ++ st_log s /\
      match net E (st_attempts s + k) with
      | NetOk _ => r = Ok tt
      | NetRaise e _ =>
          r = Raise e /\ (is_URLError_or_TimeoutError e = true -> k = Z.to_nat n)
      end.
Proof.
  induction fuel as [|fuel IH]; intros tmp n d s Hn Hd Hfuel; [lia|].
  rewrite download_loop_S.
  assert (Hstop : forall r0,
            match net E (st_attempts s) with
            | NetOk _ => r0 = Ok tt
            | NetRaise e _ =>
                r0 = Raise e /\ (is_URLError_or_TimeoutError e = true -> 0%nat = Z.to_nat n)
            end ->
            exists k r s',
              (k <= Z.to_nat n)%nat /\
              (forall i, (i < k)%nat -> retried (net E (st_attempts s + i)) = true) /\
              (r0, transferred E tmp s) = (r, s') /\
              st_attempts s' = (st_attempts s + k + 1)%nat /\
              st_log s' = EvUrlretrieve remote_link tmp :: retry_events k tmp d ++ st_log s /\
              match net E (st_attempts s + k) with
              | NetOk _ => r = Ok tt
              | NetRaise e _ =>
                  r = Raise e /\ (is_URLError_or_TimeoutError e = true -> k = Z.to_nat n)
              end).
  { intros r0 Hr0. exists 0%nat, r0, (transferred E tmp s).
    rewrite Nat.add_0_r, transferred_attempts, transferred_log.
    repeat split; [lia|intros i Hi; lia|lia|exact Hr0]. }
  destruct (net E (st_attempts s)) as [p|e w] eqn:Hnet.
  - apply Hstop. reflexivity.
  - destruct (is_URLError_or_TimeoutError e) eqn:Hretry;
      [|apply Hstop; split; [reflexivity|discriminate]].
    destruct (n =? 0) eqn:Hzero.
    { apply Hstop. split; [reflexivity|]. intros _. apply Z.eqb_eq in Hzero. subst n. reflexivity. }
    apply Z.eqb_neq in Hzero. rewrite Hd.
    set (s2 := log (EvSleep d) (log (EvWarn retry_warning) (transferred E tmp s))).
    destruct (IH tmp (n - 1) d s2 ltac:(lia) Hd ltac:(lia))
      as (k & r & s' & Hk & Hpre & Hrun & Hatt & Hlog & Hlast).
    assert (Hs2 : st_attempts s2 = S (st_attempts s)) by (cbn; apply transferred_attempts).
    exists (S k), r, s'. rewrite Hs2 in *.
    replace (st_attempts s + S k)%nat with (S (st_attempts s) + k)%nat by lia.
    repeat split.
    + lia.
    + intros [|i] Hi.
      * rewrite Nat.add_0_r, Hnet. exact Hretry.
      * replace (st_attempts s + S i)%nat with (S (st_attempts s) + i)%nat by lia.
        apply Hpre. lia.
    + exact Hrun.
    + lia.
    + rewrite Hlog. cbn [retry_events]. subst s2. cbn [st_log log].
      rewrite transferred_log. by rewrite <- app_assoc.
    + destruct (net E (S (st_attempts s) + k)) as [?|e' ?]; [exact Hlast|].
      destruct Hlast as [Hr Hex]. split; [exact Hr|]. intros He'. specialize (Hex He'). lia.
Qed.

(** Outside that data model the budget never reaches zero: with a negative
    budget and a network that keeps failing, no amount of fuel ends the loop. *)
Lemma download_loop_negative_budget fuel :
  forall tmp n d s,
    n < 0 -> Qle_bool 0 d = true ->
    (forall i, retried (net E i) = true) ->
    fst (download_loop E fuel tmp n d s) = OutOfFuel.
Proof.
  induction fuel as [|fuel IH]; intros tmp n d s Hn Hd Hnet; [reflexivity|].
  rewrite download_loop_S. specialize (Hnet (st_attempts s)) as Hnow.
  destruct (net E (st_attempts s)) as [p|e w]; [discriminate Hnow|].
  cbn in Hnow. rewrite Hnow, Hd.
  destruct (n =? 0) eqn:Hzero; [apply Z.eqb_eq in Hzero; lia|].
  apply IH; [lia|exact Hd|exact Hnet].
Qed.

End LoopFacts.

(** * Facts about [_download_sch_database] *)

Section DownloadFacts.
Variable E : Env.

(** The call, once its staging file exists: the loop, then either the
    clean-up of line 106 or the publishing step. *)
Lemma download_phases fuel target n d s tmp :
  staging_of E target s = Some tmp ->
  _download_sch_database E fuel target n d s =
  match download_loop E fuel tmp n d (staged E target n d tmp s) with
  | (Ok _, s3) => publish E tmp (target /: filename REMOTE_SCH_DATASET) s3
  | (Raise e, s3) =>
      if is_Exception_or_KeyboardInterrupt e then (os_unlink tmp ;; raise e) s3
      else (Raise e, s3)
  | (OutOfFuel, s3) => (OutOfFuel, s3)
  end.
Proof.
  unfold staging_of, _download_sch_database, staged, fs_made, publish.
  unfold bind at 1. unfold emit at 1. unfold bind at 1. unfold makedirs at 1. cbn [st_fs log].
  destruct (makedirs_from E [] target (st_fs s)) as [[[]|e|] fs] eqn:Hmk; try discriminate.
  cbn [snd]. unfold bind at 1. unfold NamedTemporaryFile at 1. cbn [st_fs log set_fs].
  fold staging_prefix.
  destruct (find _ (tmp_names E)) as [r|]; [|discriminate].
  intros [= <-]. unfold bind at 1, try_except at 1.
  destruct (download_loop E fuel _ n d _) as [[[]|e|] s3]; try reflexivity.
  destruct (is_Exception_or_KeyboardInterrupt e); [|reflexivity].
  unfold bind, os_unlink, raise.
  by destruct (st_fs s3 !! _) as [[c m|m]|].
Qed.

(** The call, when it cannot create its staging file: it fails with an
    [Exception], having at most made directories. *)
Lemma download_no_staging fuel target n d s :
  staging_of E target s = None ->
  exists e s',
    _download_sch_database E fuel target n d s = (Raise e, s') /\
    is_Exception e = true /\
    st_fs s' = fs_made E target s /\
    st_attempts s' = st_attempts s /\
    st_log s' = EvMakedirs target :: EvDownload target n d :: st_log s.
Proof.
  unfold staging_of, _download_sch_database, fs_made.
  unfold bind at 1. unfold emit at 1. unfold bind at 1. unfold makedirs at 1. cbn [st_fs log].
  pose proof (makedirs_from_ok_iff E [] target (st_fs s)) as Hok.
  destruct (makedirs_from E [] target (st_fs s)) as [[[]|e|] fs] eqn:Hmk.
  - cbn [snd]. unfold bind at 1. unfold NamedTemporaryFile at 1. cbn [st_fs log set_fs].
    fold staging_prefix.
    destruct (find _ (tmp_names E)) as [r|]; [discriminate|]. intros _.
    eexists _, _. repeat split.
  - intros _. exists e. eexists. repeat split.
    clear Hok. revert Hmk. generalize (@nil string) as done. generalize (st_fs s) as fs0.
    induction target as [|name rest IH]; intros fs0 done Hmk; cbn in Hmk; [discriminate|].
    revert Hmk. destruct (fs0 !! (done /: name)) as [[c m|m]|]; intros Hmk; eauto.
    inversion Hmk; subst. by destruct rest.
  - exfalso. clear Hok. revert Hmk. generalize (@nil string) as done. generalize (st_fs s) as fs0.
    induction target as [|name rest IH]; intros fs0 done Hmk; cbn in Hmk; [discriminate|].
    revert Hmk. destruct (fs0 !! (done /: name)) as [[c m|m]|]; intros Hmk; eauto.
    discriminate.
Qed.

End DownloadFacts.

Section StagingFacts.
Variable E : Env.

Lemma staging_of_Some target s tmp :
  staging_of E target s = Some tmp ->
  makedirs_from E [] target (st_fs s) = (Ok tt, fs_made E target s) /\
  fs_made E target s !! tmp = None /\
  exists r, tmp = target /: (staging_prefix +:+ r).
Proof.
  unfold staging_of, fs_made.
  destruct (makedirs_from E [] target (st_fs s)) as [[[]|e|] fs]; try discriminate.
  destruct (find _ (tmp_names E)) as [r|] eqn:Hfind; [|discriminate].
  intros [= <-]. apply find_some in Hfind as [_ Hfree].
  apply bool_decide_eq_true in Hfree. cbn. eauto.
Qed.

(** Making the target directory leaves the entries inside it alone. *)
Lemma fs_made_inside target s name :
  fs_made E target s !! (target /: name) = st_fs s !! (target /: name).
Proof.
  unfold fs_made.
  destruct (makedirs_from E [] target (st_fs s)) as [r fs] eqn:Hmk. cbn.
  apply (makedirs_from_frame E _ _ _ _ _ _ Hmk).
  unfold Path_div. rewrite length_app. cbn. lia.
Qed.

Lemma fs_made_files target s q c m :
  fs_made E target s !! q = Some (File c m) <-> st_fs s !! q = Some (File c m).
Proof.
  unfold fs_made.
  destruct (makedirs_from E [] target (st_fs s)) as [r fs] eqn:Hmk. cbn.
  apply (makedirs_from_files E _ _ _ _ _ _ _ _ Hmk).
Qed.

Lemma staged_facts target n d tmp s :
  st_fs (staged E target n d tmp s) = <[tmp := File EmptyString (now E)]> (fs_made E target s) /\
  st_attempts (staged E target n d tmp s) = st_attempts s /\
  downloads (staged E target n d tmp s) = S (downloads s) /\
  moves (staged E target n d tmp s) = moves s.
Proof. by repeat split. Qed.

(** The failure of the loop that the handler of line 105 catches: the
    staging file is unlinked, and the file system is back to what
    [makedirs] left. *)
Lemma download_loop_failed fuel target n d s tmp e s3 :
  staging_of E target s = Some tmp ->
  download_loop E fuel tmp n d (staged E target n d tmp s) = (Raise e, s3) ->
  is_Exception_or_KeyboardInterrupt e = true ->
  exists s',
    _download_sch_database E fuel target n d s = (Raise e, s') /\
    st_fs s' = fs_made E target s /\
    st_attempts s' = st_attempts s3 /\
    st_log s' = EvUnlink tmp :: st_log s3 /\
    downloads s' = S (downloads s) /\
    moves s' = moves s.
Proof.
  intros Hst Hloop Hcaught.
  rewrite (download_phases E fuel target n d s tmp Hst), Hloop, Hcaught.
  destruct (download_loop_effect E _ _ _ _ _ _ _ Hloop) as (Hd & Hm & Hframe & Htmp & _).
  destruct (staged_facts target n d tmp s) as (Hfs & _ & Hd0 & Hm0).
  destruct (staging_of_Some _ _ _ Hst) as (_ & Hfresh & _).
  assert (Hfile : exists c m, st_fs s3 !! tmp = Some (File c m)).
  { destruct Htmp as [Htmp|[c Htmp]]; [|eauto].
    rewrite Htmp, Hfs, lookup_insert_eq. eauto. }
  destruct Hfile as (c & m & Hfile).
  unfold bind, os_unlink, raise. rewrite Hfile.
  eexists. split; [reflexivity|]. cbn [st_fs st_attempts st_log log set_fs].
  repeat split.
  - apply map_eq. intros q. destruct (decide (q = tmp)) as [->|Hne].
    + by rewrite lookup_delete_eq, Hfresh.
    + rewrite lookup_delete_ne by done. rewrite (Hframe q Hne), Hfs.
      by rewrite lookup_insert_ne.
  - unfold downloads in *. cbn. congruence.
  - unfold moves in *. cbn. congruence.
Qed.

(** The publishing step logs its move and nothing else. *)
Lemma publish_log tmp dst s r s' :
  publish E tmp dst s = (r, s') ->
  st_log s' = EvMove tmp dst :: st_log s /\ st_attempts s' = st_attempts s.
Proof.
  unfold publish, bind, shutil_move, Path_exists, raise, ret.
  destruct (storage E) as [|e|];
    destruct (st_fs s !! tmp) as [nd|];
    repeat match goal with
           | |- context [if ?b then _ else _] => destruct b
           end;
    intros [= <- <-]; by split.
Qed.

Lemma download_counts fuel target n d s r s' :
  _download_sch_database E fuel target n d s = (r, s') ->
  downloads s' = S (downloads s) /\ (moves s' <= S (moves s))%nat.
Proof.
  intros Hrun. destruct (staging_of E target s) as [tmp|] eqn:Hst.
  - rewrite (download_phases E fuel target n d s tmp Hst) in Hrun.
    destruct (staged_facts target n d tmp s) as (_ & _ & Hd0 & Hm0).
    destruct (download_loop E fuel tmp n d (staged E target n d tmp s))
      as [[[]|e|] s3] eqn:Hloop;
      destruct (download_loop_effect E _ _ _ _ _ _ _ Hloop) as (Hd & Hm & _).
    + apply publish_log in Hrun as [Hlog _]. unfold downloads, moves in *.
      rewrite Hlog. cbn. lia.
    + destruct (is_Exception_or_KeyboardInterrupt e) eqn:Hc.
      * destruct (download_loop_failed _ _ _ _ _ _ _ _ Hst Hloop Hc)
          as (s'' & Hrun' & _ & _ & _ & Hd' & Hm').
        rewrite (download_phases E fuel target n d s tmp Hst), Hloop, Hc in Hrun'.
        rewrite Hrun in Hrun'. inversion Hrun'; subst. lia.
      * inversion Hrun; subst. lia.
    + inversion Hrun; subst. lia.
  - destruct (download_no_staging E fuel target n d s Hst)
      as (e & s'' & Hrun' & _ & _ & _ & Hlog).
    rewrite Hrun in Hrun'. inversion Hrun'; subst.
    unfold downloads, moves. rewrite Hlog. cbn. lia.
Qed.

End StagingFacts.

(** * The retry policy *)

(** C3.  In [_download_sch_database], with a retry budget [n_retries] and a
    delay that are not negative (the data model of the retry policy), and
    once the staging file exists: the first [k] transfers fail with a
    [URLError] or a [TimeoutError] and are retried, each one logged with its
    warning and its sleep of [delay] seconds; the transfer after them is the
    last one, so that [k + 1 <= n_retries + 1] transfers are made.  If the
    last transfer raises, that exception is the one the function raises: it
    is either not a network error (it propagates at once, whatever is left
    of the budget), or a network error that found the budget exhausted
    ([k = n_retries]). *)
Theorem retry_policy (E : Env) (fuel : nat) (target : Path) (n : Z) (d : Q)
    (s : State) (tmp : Path) :
  staging_of E target s = Some tmp ->
  0 <= n ->
  Qle_bool 0 d = true ->
  (Z.to_nat n < fuel)%nat ->
  exists (k : nat) (r : outcome unit) (s' : State),
    (k <= Z.to_nat n)%nat /\
    (forall i, (i < k)%nat -> retried (net E (st_attempts s + i)) = true) /\
    _download_sch_database E fuel target n d s = (r, s') /\
    st_attempts s' = (st_attempts s + k + 1)%nat /\
    let transfers :=
      EvUrlretrieve remote_link tmp :: retry_events k tmp d
      ++ EvTemp tmp :: EvMakedirs target :: EvDownload target n d :: st_log s in
    match net E (st_attempts s + k) with
    | NetOk _ =>
        st_log s' = EvMove tmp (target /: filename REMOTE_SCH_DATASET) :: transfers
    | NetRaise e _ =>
        r = Raise e /\
        (is_URLError_or_TimeoutError e = true -> k = Z.to_nat n) /\
        st_log s' =
          (if is_Exception_or_KeyboardInterrupt e then [EvUnlink tmp] else []) ++ transfers
    end.
Proof.
  intros Hst Hn Hd Hfuel.
  destruct (download_loop_spec E fuel tmp n d (staged E target n d tmp s) Hn Hd Hfuel)
    as (k & r3 & s3 & Hk & Hpre & Hloop & Hatt & Hlog & Hlast).
  destruct (staged_facts E target n d tmp s) as (_ & Hatt0 & _ & _).
  rewrite Hatt0 in *. cbn [staged st_log log set_fs] in Hlog.
  destruct (net E (st_attempts s + k)) as [p|e w] eqn:Hnet.
  - subst r3.
    destruct (publish E tmp (target /: filename REMOTE_SCH_DATASET) s3) as [r s'] eqn:Hpub.
    exists k, r, s'. destruct (publish_log E _ _ _ _ _ Hpub) as [Hl Ha].
    rewrite (download_phases E fuel target n d s tmp Hst), Hloop, Hnet.
    repeat split; try assumption; try (cbv zeta; cbn [app]; congruence).
  - destruct Hlast as [-> Hex].
    destruct (is_Exception_or_KeyboardInterrupt e) eqn:Hc.
    + destruct (download_loop_failed E _ _ _ _ _ _ _ _ Hst Hloop Hc)
        as (s' & Hrun & _ & Ha & Hl & _).
      exists k, (Raise e), s'. rewrite Hnet, Hc.
      repeat split; try assumption; try (cbv zeta; cbn [app]; congruence).
    + exists k, (Raise e), s3.
      rewrite (download_phases E fuel target n d s tmp Hst), Hloop, Hnet, Hc.
      repeat split; try assumption; try (cbv zeta; cbn [app]; congruence).
Qed.

(** Two timeouts, then the payload, with a budget of three retries. *)
Lemma retry_policy_witness :
  exists (k : nat) (r : outcome unit) (s' : State),
    (k <= Z.to_nat 3)%nat /\
    (forall i, (i < k)%nat ->
       retried (net (env0 (fails_then_ok 2 TimeoutError "new") MoveDone)
                  (st_attempts (state0 ∅) + i)) = true) /\
    _download_sch_database (env0 (fails_then_ok 2 TimeoutError "new") MoveDone)
      10 cache_dir 3 1 (state0 ∅) = (r, s') /\
    st_attempts s' = (st_attempts (state0 ∅) + k + 1)%nat /\
    let transfers :=
      EvUrlretrieve remote_link staging0 :: retry_events k staging0 1
      ++ EvTemp staging0 :: EvMakedirs cache_dir :: EvDownload cache_dir 3 1
         :: st_log (state0 ∅) in
    match net (env0 (fails_then_ok 2 TimeoutError "new") MoveDone)
            (st_attempts (state0 ∅) + k) with
    | NetOk _ =>
        st_log s' = EvMove staging0 (cache_dir /: filename REMOTE_SCH_DATASET) :: transfers
    | NetRaise e _ =>
        r = Raise e /\
        (is_URLError_or_TimeoutError e = true -> k = Z.to_nat 3) /\
        st_log s' =
          (if is_Exception_or_KeyboardInterrupt e then [EvUnlink staging0] else []) ++ transfers
    end.
Proof.
  apply (retry_policy (env0 (fails_then_ok 2 TimeoutError "new") MoveDone)
           10 cache_dir 3 1 (state0 ∅) staging0).
  - vm_compute. reflexivity.
  - lia.
  - reflexivity.
  - vm_compute. lia.
Defined.

(** * Clean-up after a failed download *)

(** C4, as the code has it.  When [_download_sch_database] fails before it
    attempts the publishing move (while making the directory, creating the
    staging file, transferring or waiting between transfers), with an
    exception of class [Exception] or [KeyboardInterrupt]: the staging file,
    if one was created, is gone and its unlinking is the last action of the
    call; the canonical path holds what it held; no regular file was created,
    changed or removed. *)
Theorem download_failure_cleans_up (E : Env) (fuel : nat) (target : Path) (n : Z) (d : Q)
    (s : State) (e : exn) (s' : State) :
  _download_sch_database E fuel target n d s = (Raise e, s') ->
  is_Exception_or_KeyboardInterrupt e = true ->
  moves s' = moves s ->
  (forall tmp, staging_of E target s = Some tmp ->
     st_fs s' !! tmp = None /\ head (st_log s') = Some (EvUnlink tmp)) /\
  st_fs s' !! (target /: filename REMOTE_SCH_DATASET)
    = st_fs s !! (target /: filename REMOTE_SCH_DATASET) /\
  (forall q c m, st_fs s' !! q = Some (File c m) <-> st_fs s !! q = Some (File c m)).
Proof.
  intros Hrun Hcaught Hmoves.
  assert (Hfs : st_fs s' = fs_made E target s /\
                forall tmp, staging_of E target s = Some tmp ->
                            head (st_log s') = Some (EvUnlink tmp)).
  { destruct (staging_of E target s) as [tmp|] eqn:Hst.
    - pose proof Hrun as Hrun0.
      rewrite (download_phases E fuel target n d s tmp Hst) in Hrun.
      destruct (staged_facts E target n d tmp s) as (_ & _ & _ & Hm0).
      destruct (download_loop E fuel tmp n d (staged E target n d tmp s))
        as [[[]|e0|] s3] eqn:Hloop.
      + destruct (download_loop_effect E _ _ _ _ _ _ _ Hloop) as (_ & Hm & _).
        apply publish_log in Hrun as [Hlog _]. unfold moves in *.
        rewrite Hlog in Hmoves. cbn in Hmoves. lia.
      + destruct (is_Exception_or_KeyboardInterrupt e0) eqn:Hc.
        * destruct (download_loop_failed E _ _ _ _ _ _ _ _ Hst Hloop Hc)
            as (s'' & Hrun' & Hfs & _ & Hlog & _).
          rewrite Hrun0 in Hrun'. inversion Hrun'; subst.
          split; [exact Hfs|]. intros tmp' [= <-]. by rewrite Hlog.
        * inversion Hrun; subst. congruence.
      + discriminate Hrun.
    - destruct (download_no_staging E fuel target n d s Hst)
        as (e' & s'' & Hrun' & _ & Hfs & _).
      rewrite Hrun in Hrun'. inversion Hrun'; subst. split; [exact Hfs|discriminate]. }
  destruct Hfs as [Hfs Hhead]. rewrite Hfs. split; [|split].
  - intros tmp Hst. split; [|by apply Hhead].
    by destruct (staging_of_Some E _ _ _ Hst) as (_ & Hfresh & _).
  - apply fs_made_inside.
  - intros q c m. apply fs_made_files.
Qed.

(** Four timeouts exhaust a budget of three retries; the cache held a file. *)
Lemma download_failure_cleans_up_witness :
  (forall tmp, staging_of (env0 (always (NetRaise TimeoutError (Some "par"))) MoveDone)
                 cache_dir (state0 (cached 5)) = Some tmp ->
     st_fs (snd (_download_sch_database
                   (env0 (always (NetRaise TimeoutError (Some "par"))) MoveDone)
                   10 cache_dir 3 1 (state0 (cached 5)))) !! tmp = None /\
     head (st_log (snd (_download_sch_database
                   (env0 (always (NetRaise TimeoutError (Some "par"))) MoveDone)
                   10 cache_dir 3 1 (state0 (cached 5))))) = Some (EvUnlink tmp)) /\
  st_fs (snd (_download_sch_database
                (env0 (always (NetRaise TimeoutError (Some "par"))) MoveDone)
                10 cache_dir 3 1 (state0 (cached 5))))
    !! (cache_dir /: filename REMOTE_SCH_DATASET)
  = st_fs (state0 (cached 5)) !! (cache_dir /: filename REMOTE_SCH_DATASET) /\
  (forall q c m,
     st_fs (snd (_download_sch_database
                   (env0 (always (NetRaise TimeoutError (Some "par"))) MoveDone)
                   10 cache_dir 3 1 (state0 (cached 5)))) !! q = Some (File c m)
     <-> st_fs (state0 (cached 5)) !! q = Some (File c m)).
Proof.
  apply (download_failure_cleans_up
           (env0 (always (NetRaise TimeoutError (Some "par"))) MoveDone)
           10 cache_dir 3 1 (state0 (cached 5)) TimeoutError).
  - vm_compute. reflexivity.
  - reflexivity.
  - vm_compute. reflexivity.
Defined.

(** C4, as stated, fails when the publishing move is refused: the transfer
    succeeds, the storage refuses the move (line 113 is outside the [try]),
    the call fails with that error, and the staging file stays behind. *)
Lemma staging_file_survives_refused_move :
  staging_of (env0 (always (NetOk "new")) (MoveRaises (PermissionError "produtos_certificados.zip")))
    cache_dir (state0 (cached 5)) = Some staging0 /\
  fst (_download_sch_database
         (env0 (always (NetOk "new")) (MoveRaises (PermissionError "produtos_certificados.zip")))
         10 cache_dir 3 1 (state0 (cached 5)))
  = Raise (PermissionError "produtos_certificados.zip") /\
  st_fs (snd (_download_sch_database
         (env0 (always (NetOk "new")) (MoveRaises (PermissionError "produtos_certificados.zip")))
         10 cache_dir 3 1 (state0 (cached 5)))) !! staging0
  = Some (File "new" (1000 * DAY)).
Proof. repeat split; vm_compute; reflexivity. Qed.

(** Nor does the handler of line 105 catch an exception that is neither an
    [Exception] nor a [KeyboardInterrupt]: the staging file stays as well. *)
Lemma staging_file_survives_SystemExit :
  fst (_download_sch_database (env0 (always (NetRaise SystemExit (Some "par"))) MoveDone)
         10 cache_dir 3 1 (state0 (cached 5)))
  = Raise SystemExit /\
  st_fs (snd (_download_sch_database (env0 (always (NetRaise SystemExit (Some "par"))) MoveDone)
         10 cache_dir 3 1 (state0 (cached 5)))) !! staging0
  = Some (File "par" (1000 * DAY)).
Proof. repeat split; vm_compute; reflexivity. Qed.

(** * Publishing *)

(** C5.  When the loop of [_download_sch_database] has delivered, the
    download is in the staging file, and the call goes on with the move of
    the staging file onto the canonical path, which is its last action, and
    with the check: the call returns only if the canonical path exists then,
    and a canonical path that is absent after the move is the
    [OSError("Error downloading SCH Database file.")] (or, when the move
    itself was refused, the error of the move).  With a canonical path that
    is not a directory, what follows depends on the storage: the move is
    performed, the canonical file holds the payload of the last transfer,
    the staging file is gone and the call returns; the destination is not
    there after the move, and the call raises the [OSError]; the move is
    refused, and its error is the error of the call.  With a directory at
    the canonical path the check passes as well: the payload is moved into
    it, under the name of the staging file. *)
Theorem publish_after_download (E : Env) (fuel : nat) (target : Path) (n : Z) (d : Q)
    (s : State) (tmp : Path) (s3 : State) :
  staging_of E target s = Some tmp ->
  download_loop E fuel tmp n d (staged E target n d tmp s) = (Ok tt, s3) ->
  exists payload r s',
    _download_sch_database E fuel target n d s = (r, s') /\
    net E (pred (st_attempts s3)) = NetOk payload /\
    st_fs s3 !! tmp = Some (File payload (now E)) /\
    st_log s' = EvMove tmp (target /: filename REMOTE_SCH_DATASET) :: st_log s3 /\
    moves s' = S (moves s) /\
    (r = Ok tt -> is_Some (st_fs s' !! (target /: filename REMOTE_SCH_DATASET))) /\
    (st_fs s' !! (target /: filename REMOTE_SCH_DATASET) = None ->
     match storage E with
     | MoveRaises e => r = Raise e
     | _ => r = Raise (OSError "Error downloading SCH Database file.")
     end) /\
    (is_Dir (st_fs s !! (target /: filename REMOTE_SCH_DATASET)) = false ->
     match storage E with
     | MoveDone =>
         r = Ok tt /\
         st_fs s' !! (target /: filename REMOTE_SCH_DATASET) = Some (File payload (now E)) /\
         st_fs s' !! tmp = None
     | MoveVanishes =>
         r = Raise (OSError "Error downloading SCH Database file.") /\
         st_fs s' !! (target /: filename REMOTE_SCH_DATASET) = None
     | MoveRaises e =>
         r = Raise e /\
         st_fs s' !! (target /: filename REMOTE_SCH_DATASET)
           = st_fs s !! (target /: filename REMOTE_SCH_DATASET)
     end) /\
    (is_Dir (st_fs s !! (target /: filename REMOTE_SCH_DATASET)) = true ->
     is_Dir (st_fs s' !! (target /: filename REMOTE_SCH_DATASET)) = true /\
     (storage E = MoveDone ->
      st_fs s !! (target /: filename REMOTE_SCH_DATASET /: default EmptyString (last tmp)) = None ->
      r = Ok tt /\
      st_fs s' !! (target /: filename REMOTE_SCH_DATASET /: default EmptyString (last tmp))
        = Some (File payload (now E)) /\
      st_fs s' !! tmp = None)).
Proof.
  intros Hst Hloop.
  set (canonical := target /: filename REMOTE_SCH_DATASET).
  set (child := canonical /: default EmptyString (last tmp)).
  destruct (_download_sch_database E fuel target n d s) as [r s'] eqn:Hrun.
  rewrite (download_phases E fuel target n d s tmp Hst), Hloop in Hrun. fold canonical in Hrun.
  destruct (staged_facts E target n d tmp s) as (Hfs0 & _ & _ & Hm0).
  destruct (staging_of_Some E _ _ _ Hst) as (Hmk & Hfresh & rnd & Htmp).
  destruct (download_loop_effect E _ _ _ _ _ _ _ Hloop) as (_ & Hm & Hframe & _ & Hok).
  destruct (Hok eq_refl) as (payload & Hnet & Hfile).
  destruct (publish_log E _ _ _ _ _ Hrun) as [Hlog _].
  assert (Hne : canonical <> tmp)
    by (subst tmp; intros Heq; symmetry in Heq; revert Heq; apply staging_ne_canonical).
  assert (Hne1 : child <> tmp).
  { subst tmp. unfold child, canonical, Path_div. intros Heq.
    apply (f_equal length) in Heq. rewrite !length_app in Heq. cbn in Heq. lia. }
  assert (Hne2 : canonical <> child).
  { unfold child, canonical, Path_div. intros Heq.
    apply (f_equal length) in Heq. rewrite !length_app in Heq. cbn in Heq. lia. }
  assert (Hcan : st_fs s3 !! canonical = st_fs s !! canonical).
  { rewrite (Hframe _ Hne), Hfs0, lookup_insert_ne by done. apply fs_made_inside. }
  assert (Hchild : st_fs s3 !! child = st_fs s !! child).
  { rewrite (Hframe _ Hne1), Hfs0, lookup_insert_ne by done.
    apply (makedirs_from_frame E [] target (st_fs s) _ _ child Hmk).
    unfold child, canonical, Path_div. rewrite !length_app. cbn. lia. }
  exists payload, r, s'.
  split; [reflexivity|]. split; [exact Hnet|]. split; [exact Hfile|]. split; [exact Hlog|].
  split.
  { unfold moves in *. rewrite Hlog. cbn. lia. }
  revert Hrun. unfold publish, bind, shutil_move, Path_exists, raise, ret.
  rewrite Hfile, Hcan. cbv zeta.
  assert (Hexists : is_Dir (st_fs s !! canonical) = true -> is_Some (st_fs s !! canonical)).
  { destruct (st_fs s !! canonical) as [[c m|m]|]; [discriminate|eauto|discriminate]. }
  assert (Hnone : is_Dir (st_fs s !! canonical) = true -> st_fs s !! canonical <> None).
  { intros Hd Hn. rewrite Hn in Hd. discriminate Hd. }
  destruct (storage E) as [|e|] eqn:Hsto;
    destruct (is_Dir (st_fs s !! canonical)) eqn:Hdir; cbn [andb];
    fold child; rewrite ?Hchild.
  - (* the move is performed, into the directory *)
    destruct (st_fs s !! child) as [nd|] eqn:Hc.
    + rewrite bool_decide_eq_true_2 by eauto.
      intros [= <- <-]. cbn [set_fs st_fs log]. rewrite Hcan.
      split; [discriminate|]. split; [intros Hn; by destruct (Hnone eq_refl)|].
      split; [discriminate|]. intros _. split; [exact Hdir|]. intros _ Hfree. discriminate Hfree.
    + rewrite bool_decide_eq_false_2 by (intros [? ?]; discriminate).
      cbn [set_fs st_fs log].
      rewrite lookup_insert_ne, lookup_delete_ne, Hcan by done.
      rewrite bool_decide_eq_true_2 by (by apply Hexists).
      intros [= <- <-]. cbn [set_fs st_fs log].
      rewrite lookup_insert_ne, lookup_delete_ne, Hcan by done.
      split; [intros _; by apply Hexists|]. split; [intros Hn; by destruct (Hnone eq_refl)|].
      split; [discriminate|]. intros _. split; [exact Hdir|]. intros _ _.
      split; [reflexivity|]. split; [apply lookup_insert_eq|].
      rewrite lookup_insert_ne by done. apply lookup_delete_eq.
  - (* the move is performed, onto the canonical path *)
    cbn [set_fs st_fs log]. rewrite lookup_insert_eq.
    rewrite bool_decide_eq_true_2 by eauto.
    intros [= <- <-]. cbn [set_fs st_fs log]. rewrite lookup_insert_eq.
    split; [eauto|]. split; [discriminate|]. split; [|discriminate].
    intros _. split; [reflexivity|]. split; [reflexivity|].
    rewrite lookup_insert_ne by done. apply lookup_delete_eq.
  - (* the move is refused, a directory at the canonical path *)
    intros [= <- <-]. cbn [set_fs st_fs log]. rewrite Hcan.
    split; [discriminate|]. split; [reflexivity|]. split; [discriminate|].
    intros _. split; [exact Hdir|]. discriminate.
  - (* the move is refused *)
    intros [= <- <-]. cbn [set_fs st_fs log]. rewrite Hcan.
    split; [discriminate|]. split; [reflexivity|]. split; [|discriminate].
    intros _. by split.
  - (* the destination is lost, inside the directory *)
    destruct (st_fs s !! child) as [nd|] eqn:Hc.
    + rewrite bool_decide_eq_true_2 by eauto.
      intros [= <- <-]. cbn [set_fs st_fs log]. rewrite Hcan.
      split; [discriminate|]. split; [intros Hn; by destruct (Hnone eq_refl)|].
      split; [discriminate|]. intros _. split; [exact Hdir|]. discriminate.
    + rewrite bool_decide_eq_false_2 by (intros [? ?]; discriminate).
      cbn [set_fs st_fs log].
      rewrite !lookup_delete_ne, Hcan by done.
      rewrite bool_decide_eq_true_2 by (by apply Hexists).
      intros [= <- <-]. cbn [set_fs st_fs log].
      rewrite !lookup_delete_ne, Hcan by done.
      split; [intros _; by apply Hexists|]. split; [intros Hn; by destruct (Hnone eq_refl)|].
      split; [discriminate|]. intros _. split; [exact Hdir|]. discriminate.
  - (* the destination is lost *)
    cbn [set_fs st_fs log]. rewrite lookup_delete_eq.
    rewrite bool_decide_eq_false_2 by (intros [? ?]; discriminate).
    intros [= <- <-]. cbn [set_fs st_fs log]. rewrite lookup_delete_eq.
    split; [discriminate|]. split; [reflexivity|]. split; [|discriminate].
    intros _. by split.
Qed.

(** One timeout, then the payload, over an old file; and a payload at once,
    with a storage that loses the destination. *)
Lemma publish_after_download_witness :
  (fst (_download_sch_database (env0 (fails_then_ok 1 TimeoutError "new") MoveDone)
          10 cache_dir 3 1 (state0 (cached 200))) = Ok tt /\
   st_fs (snd (_download_sch_database (env0 (fails_then_ok 1 TimeoutError "new") MoveDone)
                 10 cache_dir 3 1 (state0 (cached 200)))) !! canonical0
   = Some (File "new" (1000 * DAY)) /\
   head (st_log (snd (_download_sch_database
                        (env0 (fails_then_ok 1 TimeoutError "new") MoveDone)
                        10 cache_dir 3 1 (state0 (cached 200)))))
   = Some (EvMove staging0 canonical0)) /\
  (fst (_download_sch_database (env0 (always (NetOk "new")) MoveVanishes)
          10 cache_dir 3 1 (state0 ∅))
   = Raise (OSError "Error downloading SCH Database file.") /\
   head (st_log (snd (_download_sch_database (env0 (always (NetOk "new")) MoveVanishes)
                        10 cache_dir 3 1 (state0 ∅))))
   = Some (EvMove staging0 canonical0)).
Proof.
  split.
  - destruct (publish_after_download (env0 (fails_then_ok 1 TimeoutError "new") MoveDone)
                10 cache_dir 3 1 (state0 (cached 200)) staging0
                (snd (download_loop (env0 (fails_then_ok 1 TimeoutError "new") MoveDone)
                        10 staging0 3 1
                        (staged (env0 (fails_then_ok 1 TimeoutError "new") MoveDone)
                           cache_dir 3 1 staging0 (state0 (cached 200))))))
      as (payload & r & s' & Hrun & Hnet & _ & Hlog & _ & _ & _ & Hfile & _).
    + vm_compute. reflexivity.
    + vm_compute. reflexivity.
    + assert (Hnodir : is_Dir (st_fs (state0 (cached 200))
                                 !! (cache_dir /: filename REMOTE_SCH_DATASET)) = false)
        by (vm_compute; reflexivity).
      destruct (Hfile Hnodir) as (Hr & Hc & _).
      vm_compute in Hnet. injection Hnet as <-.
      rewrite Hrun. cbn [fst snd]. rewrite Hlog.
      split; [exact Hr|]. split; [exact Hc|reflexivity].
  - destruct (publish_after_download (env0 (always (NetOk "new")) MoveVanishes)
                10 cache_dir 3 1 (state0 ∅) staging0
                (snd (download_loop (env0 (always (NetOk "new")) MoveVanishes)
                        10 staging0 3 1
                        (staged (env0 (always (NetOk "new")) MoveVanishes)
                           cache_dir 3 1 staging0 (state0 ∅)))))
      as (payload & r & s' & Hrun & _ & _ & Hlog & _ & _ & _ & Hfile & _).
    + vm_compute. reflexivity.
    + vm_compute. reflexivity.
    + assert (Hnodir : is_Dir (st_fs (state0 ∅)
                                 !! (cache_dir /: filename REMOTE_SCH_DATASET)) = false)
        by (vm_compute; reflexivity).
      destruct (Hfile Hnodir) as (Hr & _).
      rewrite Hrun. cbn [fst snd]. rewrite Hlog.
      split; [exact Hr|reflexivity].
Defined.

(** * Facts about [fetch_sch_database] *)

Section FetchFacts.
Variable E : Env.
Context `{Pandas}.

Lemma sch_file_path_of_eq dh :
  sch_file_path_of E dh = data_home_of E dh /: filename REMOTE_SCH_DATASET.
Proof. reflexivity. Qed.

Lemma fetch_sch_database_eq fuel dh dim G force n d :
  fetch_sch_database E fuel dh dim G force n d =
  (refresh_cache E fuel (data_home_of E dh) dim G force n d ;;
   read_sch_frame (sch_file_path_of E dh)).
Proof. reflexivity. Qed.

(** Reading and parsing leave the state alone, and yield a frame. *)
Lemma read_sch_frame_state p s : snd (read_sch_frame p s) = s.
Proof.
  unfold read_sch_frame, pd_read_csv, read_file, pd_lift, bind, ret, raise.
  destruct (st_fs s !! p) as [[c m|m]|]; try reflexivity.
  repeat match goal with
         | |- context [match ?x with inl _ => _ | inr _ => _ end] => destruct x; cbn
         end; reflexivity.
Qed.

Lemma read_sch_frame_value p s v :
  fst (read_sch_frame p s) = Ok v -> exists frame, v = VFrame frame.
Proof.
  unfold read_sch_frame, pd_read_csv, read_file, pd_lift, bind, ret, raise.
  destruct (st_fs s !! p) as [[c m|m]|]; try discriminate.
  repeat match goal with
         | |- context [match ?x with inl _ => _ | inr _ => _ end] => destruct x; cbn
         end; try discriminate.
  intros [= <-]. eauto.
Qed.

(** The refresh, by cases on the cache. *)
Lemma refresh_cache_present fuel dir dim G force n d s nd :
  st_fs s !! (dir /: filename REMOTE_SCH_DATASET) = Some nd ->
  refresh_cache E fuel dir dim G force n d s =
  if (timedelta_days (now E - st_mtime nd) >? G) then
    _download_sch_database E fuel dir n d
      (log (EvPrint ("File " +:+ Path_str (dir /: filename REMOTE_SCH_DATASET)
                     +:+ " is older than " +:+ pretty G
                     +:+ " days. Re-downloading the file...")) s)
  else if force then
    _download_sch_database E fuel dir n d
      (log (EvPrint ("File " +:+ Path_str (dir /: filename REMOTE_SCH_DATASET)
                     +:+ " is not older than " +:+ pretty G
                     +:+ " days. Re-downloading the file (forced)...")) s)
  else (Ok tt, s).
Proof.
  intros Hnd. unfold refresh_cache, Path_exists, Path_stat_st_mtime, datetime_today.
  unfold bind at 1. rewrite Hnd. rewrite bool_decide_eq_true_2 by eauto.
  unfold bind at 1. rewrite Hnd. unfold bind at 1, ret at 1.
  destruct (timedelta_days (now E - st_mtime nd) >? G); [reflexivity|].
  destruct force; reflexivity.
Qed.

Lemma refresh_cache_missing fuel dir dim G force n d s :
  st_fs s !! (dir /: filename REMOTE_SCH_DATASET) = None ->
  refresh_cache E fuel dir dim G force n d s =
  if dim then
    _download_sch_database E fuel dir n d
      (log (EvPrint ("File " +:+ Path_str (dir /: filename REMOTE_SCH_DATASET)
                     +:+ " does not exist. Downloading the file...")) s)
  else
    (Raise (OSError ("File " +:+ Path_str (dir /: filename REMOTE_SCH_DATASET)
              +:+ " does not exist. Set download_if_missing=True to download it.")), s).
Proof.
  intros Hnd. unfold refresh_cache, Path_exists.
  unfold bind at 1. rewrite Hnd.
  rewrite bool_decide_eq_false_2 by (intros [? ?]; discriminate).
  destruct dim; reflexivity.
Qed.

(** What the whole call does to the counters is what its refresh does. *)
Lemma fetch_sch_database_state fuel dh dim G force n d s :
  snd (fetch_sch_database E fuel dh dim G force n d s) =
  snd (refresh_cache E fuel (data_home_of E dh) dim G force n d s).
Proof.
  rewrite fetch_sch_database_eq. unfold bind at 1.
  destruct (refresh_cache E fuel (data_home_of E dh) dim G force n d s) as [[[]|e|] s1];
    try reflexivity.
  apply read_sch_frame_state.
Qed.

End FetchFacts.

(** * The staleness policy *)

(** C1.  With the canonical file present and [force_download] false: if its
    age in days is at most the grace period, [fetch_sch_database] is the
    reading of that file and leaves the state as it found it (no transfer is
    started, nothing is logged, the file system is untouched); if its age in
    days exceeds the grace period, [_download_sch_database] is called once. *)
Theorem fresh_cache_is_served `{Pandas} (E : Env) (fuel : nat) (dh : option string)
    (dim : bool) (G : Z) (n : Z) (d : Q) (s : State) (nd : node) :
  st_fs s !! sch_file_path_of E dh = Some nd ->
  (timedelta_days (now E - st_mtime nd) <= G ->
     fetch_sch_database E fuel dh dim G false n d s
       = read_sch_frame (sch_file_path_of E dh) s /\
     snd (fetch_sch_database E fuel dh dim G false n d s) = s) /\
  (G < timedelta_days (now E - st_mtime nd) ->
     downloads (snd (fetch_sch_database E fuel dh dim G false n d s)) = S (downloads s)).
Proof.
  intros Hnd. rewrite sch_file_path_of_eq in Hnd. split; intros Hage.
  - assert (Hrefresh : refresh_cache E fuel (data_home_of E dh) dim G false n d s = (Ok tt, s)).
    { rewrite (refresh_cache_present E _ _ _ _ _ _ _ _ _ Hnd).
      destruct (timedelta_days (now E - st_mtime nd) >? G) eqn:Hc; [|reflexivity].
      apply Z.gtb_lt in Hc. lia. }
    split.
    + rewrite fetch_sch_database_eq. unfold bind at 1. by rewrite Hrefresh.
    + by rewrite fetch_sch_database_state, Hrefresh.
  - rewrite fetch_sch_database_state, (refresh_cache_present E _ _ _ _ _ _ _ _ _ Hnd).
    destruct (timedelta_days (now E - st_mtime nd) >? G) eqn:Hc.
    + destruct (_download_sch_database E fuel (data_home_of E dh) n d _) as [r s'] eqn:Hrun.
      apply download_counts in Hrun as [Hd _]. exact Hd.
    + assert (~ G < timedelta_days (now E - st_mtime nd)) by (rewrite <- Z.gtb_lt; congruence).
      contradiction.
Qed.

(** A file aged exactly the grace period of 180 days is served as it is; a
    file aged 181 days is fetched again. *)
Lemma fresh_cache_is_served_witness :
  (fetch_sch_database (env0 (always (NetOk "new")) MoveDone) 10 None true 180 false 3 1
     (state0 (cached 180))
   = read_sch_frame (sch_file_path_of (env0 (always (NetOk "new")) MoveDone) None)
       (state0 (cached 180)) /\
   snd (fetch_sch_database (env0 (always (NetOk "new")) MoveDone) 10 None true 180 false 3 1
          (state0 (cached 180))) = state0 (cached 180)) /\
  downloads (snd (fetch_sch_database (env0 (always (NetOk "new")) MoveDone) 10 None true 180
                    false 3 1 (state0 (cached 181))))
  = S (downloads (state0 (cached 181))).
Proof.
  split.
  - apply (fresh_cache_is_served (env0 (always (NetOk "new")) MoveDone) 10 None true 180 3 1
             (state0 (cached 180)) (File "old" ((1000 - 180) * DAY))).
    + vm_compute. reflexivity.
    + vm_compute. discriminate.
  - apply (fresh_cache_is_served (env0 (always (NetOk "new")) MoveDone) 10 None true 180 3 1
             (state0 (cached 181)) (File "old" ((1000 - 181) * DAY))).
    + vm_compute. reflexivity.
    + vm_compute. reflexivity.
Defined.

(** C2, as the code has it.  With [force_download] true, and the canonical
    file present or [download_if_missing] true, [_download_sch_database] is
    called exactly once, whatever the age of the file, and at most one
    publishing move is attempted. *)
Theorem forced_download_once `{Pandas} (E : Env) (fuel : nat) (dh : option string)
    (dim : bool) (G : Z) (n : Z) (d : Q) (s : State) :
  is_Some (st_fs s !! sch_file_path_of E dh) \/ dim = true ->
  downloads (snd (fetch_sch_database E fuel dh dim G true n d s)) = S (downloads s) /\
  (moves (snd (fetch_sch_database E fuel dh dim G true n d s)) <= S (moves s))%nat.
Proof.
  intros Hcase. rewrite fetch_sch_database_state. rewrite sch_file_path_of_eq in Hcase.
  assert (Hdl : forall msg,
            downloads (snd (_download_sch_database E fuel (data_home_of E dh) n d
                              (log (EvPrint msg) s))) = S (downloads s) /\
            (moves (snd (_download_sch_database E fuel (data_home_of E dh) n d
                              (log (EvPrint msg) s))) <= S (moves s))%nat).
  { intros msg.
    destruct (_download_sch_database E fuel (data_home_of E dh) n d _) as [r s'] eqn:Hrun.
    apply download_counts in Hrun. exact Hrun. }
  destruct (st_fs s !! (data_home_of E dh /: filename REMOTE_SCH_DATASET)) as [nd|] eqn:Hnd.
  - rewrite (refresh_cache_present E _ _ _ _ _ _ _ _ _ Hnd).
    destruct (timedelta_days (now E - st_mtime nd) >? G); apply Hdl.
  - destruct Hcase as [[? ?]| ->]; [discriminate|].
    rewrite (refresh_cache_missing E _ _ _ _ _ _ _ _ Hnd). apply Hdl.
Qed.

(** A forced call over a file five days old, and one over an empty cache. *)
Lemma forced_download_once_witness :
  (downloads (snd (fetch_sch_database (env0 (always (NetOk "new")) MoveDone) 10 None false
                     180 true 3 1 (state0 (cached 5))))
   = S (downloads (state0 (cached 5))) /\
   (moves (snd (fetch_sch_database (env0 (always (NetOk "new")) MoveDone) 10 None false
                  180 true 3 1 (state0 (cached 5))))
    <= S (moves (state0 (cached 5))))%nat) /\
  (downloads (snd (fetch_sch_database (env0 (always (NetOk "new")) MoveDone) 10 None true
                     180 true 3 1 (state0 ∅)))
   = S (downloads (state0 ∅)) /\
   (moves (snd (fetch_sch_database (env0 (always (NetOk "new")) MoveDone) 10 None true
                  180 true 3 1 (state0 ∅)))
    <= S (moves (state0 ∅)))%nat).
Proof.
  split.
  - apply (forced_download_once (env0 (always (NetOk "new")) MoveDone) 10 None false 180 3 1
             (state0 (cached 5))).
    left. vm_compute. eauto.
  - apply (forced_download_once (env0 (always (NetOk "new")) MoveDone) 10 None true 180 3 1
             (state0 ∅)).
    right. reflexivity.
Defined.

(** C2, as stated, fails on an empty cache with [download_if_missing] false:
    the forced call raises the [OSError] of line 215 and downloads nothing. *)
Lemma forced_call_without_download :
  fst (fetch_sch_database (env0 (always (NetOk "new")) MoveDone) 10 None false 180 true 3 1
         (state0 ∅))
  = Raise (OSError "File /home/u/sch_database/produtos_certificados.zip does not exist. Set download_if_missing=True to download it.") /\
  downloads (snd (fetch_sch_database (env0 (always (NetOk "new")) MoveDone) 10 None false 180
                    true 3 1 (state0 ∅))) = 0%nat /\
  st_attempts (snd (fetch_sch_database (env0 (always (NetOk "new")) MoveDone) 10 None false 180
                    true 3 1 (state0 ∅))) = 0%nat.
Proof. repeat split; vm_compute; reflexivity. Qed.

(** C6.  With the canonical file absent and [download_if_missing] false,
    [fetch_sch_database] raises the [OSError] of line 215 and leaves the
    state as it found it: no transfer, no download, no directory made. *)
Theorem missing_without_download `{Pandas} (E : Env) (fuel : nat) (dh : option string)
    (G : Z) (force : bool) (n : Z) (d : Q) (s : State) :
  st_fs s !! sch_file_path_of E dh = None ->
  fetch_sch_database E fuel dh false G force n d s =
  (Raise (OSError ("File " +:+ Path_str (sch_file_path_of E dh)
            +:+ " does not exist. Set download_if_missing=True to download it.")), s).
Proof.
  intros Hnd. rewrite fetch_sch_database_eq. unfold bind at 1.
  rewrite sch_file_path_of_eq in *.
  by rewrite (refresh_cache_missing E _ _ _ _ _ _ _ _ Hnd).
Qed.

Lemma missing_without_download_witness :
  fetch_sch_database (env0 (always (NetOk "new")) MoveDone) 10 None false 180 false 3 1
    (state0 ∅) =
  (Raise (OSError ("File " +:+ Path_str (sch_file_path_of (env0 (always (NetOk "new")) MoveDone) None)
            +:+ " does not exist. Set download_if_missing=True to download it.")), state0 ∅).
Proof.
  apply (missing_without_download (env0 (always (NetOk "new")) MoveDone) 10 None 180 false 3 1
           (state0 ∅)).
  vm_compute. reflexivity.
Defined.

(** * What the entry point returns *)

(** C8, as the code has it.  What [fetch_sch_database] returns is the frame
    read from the canonical file as the call left it; it is never a path. *)
Theorem fetch_returns_frame `{Pandas} (E : Env) (fuel : nat) (dh : option string)
    (dim : bool) (G : Z) (force : bool) (n : Z) (d : Q) (s : State) (v : pyval) (s' : State) :
  fetch_sch_database E fuel dh dim G force n d s = (Ok v, s') ->
  read_sch_frame (sch_file_path_of E dh) s' = (Ok v, s') /\
  (exists frame, v = VFrame frame) /\
  (forall p, v <> VPath p).
Proof.
  rewrite fetch_sch_database_eq. unfold bind at 1.
  destruct (refresh_cache E fuel (data_home_of E dh) dim G force n d s) as [[[]|e|] s1];
    try discriminate.
  intros Hread.
  pose proof (read_sch_frame_state (sch_file_path_of E dh) s1) as Hst.
  rewrite Hread in Hst. cbn in Hst. subst s1.
  destruct (read_sch_frame_value (sch_file_path_of E dh) s' v) as [frame ->];
    [by rewrite Hread|].
  repeat split; [exact Hread|eauto|discriminate].
Qed.

Lemma fetch_returns_frame_witness :
  read_sch_frame (sch_file_path_of (env0 (always (NetOk "new")) MoveDone) None)
    (snd (fetch_sch_database (env0 (always (NetOk "new")) MoveDone) 10 None true 180 false 3 1
            (state0 (cached 200))))
  = (Ok (VFrame ("new" : DataFrame)),
     snd (fetch_sch_database (env0 (always (NetOk "new")) MoveDone) 10 None true 180 false 3 1
            (state0 (cached 200)))) /\
  (exists frame, VFrame ("new" : DataFrame) = VFrame frame) /\
  (forall p, VFrame ("new" : DataFrame) <> VPath p).
Proof.
  apply (fetch_returns_frame (env0 (always (NetOk "new")) MoveDone) 10 None true 180 false 3 1
           (state0 (cached 200))).
  vm_compute. reflexivity.
Defined.

(** C8, as stated, fails: over a fresh cache the call returns the frame of
    the file, which is not the canonical path. *)
Lemma fetch_does_not_return_path :
  fst (fetch_sch_database (env0 (always (NetOk "new")) MoveDone) 10 None true 180 false 3 1
         (state0 (cached 5)))
  = Ok (VFrame ("old" : DataFrame)) /\
  fst (fetch_sch_database (env0 (always (NetOk "new")) MoveDone) 10 None true 180 false 3 1
         (state0 (cached 5)))
  <> Ok (VPath canonical0).
Proof. split; [vm_compute; reflexivity|vm_compute; discriminate]. Qed.

(** * The constructor of [SCHToolsDatasets] *)

(** C9, as the code has it.  Constructing [SCHToolsDatasets] always raises,
    and leaves the state as it found it (no dataset is fetched): a
    [KeyError] when the configuration has no ["datasets"] table or that
    table no ["sch_data_home"] entry, since the argument is evaluated first;
    otherwise the [TypeError] of a positional argument passed to
    [fetch_sch_database], whose parameters are keyword-only. *)
Theorem constructor_raises `{Pandas} (E : Env) (fuel : nat)
    (config : gmap string (gmap string string)) (s : State) :
  datasets.__init__ E fuel config s =
  (Raise
     match config !! "datasets" with
     | None => KeyError "datasets"
     | Some table =>
         match table !! "sch_data_home" with
         | None => KeyError "sch_data_home"
         | Some _ =>
             TypeError "fetch_sch_database() takes 0 positional arguments but 1 was given"
         end
     end, s).
Proof.
  unfold datasets.__init__, bind, getitem, raise, ret.
  destruct (config !! "datasets") as [table|]; [|reflexivity].
  destruct (table !! "sch_data_home") as [v|]; reflexivity.
Qed.

(** C9, as stated, fails on the empty configuration: the error is a
    [KeyError], raised by the lookup of the argument. *)
Lemma constructor_KeyError :
  datasets.__init__ (env0 (always (NetOk "new")) MoveDone) 10 ∅ (state0 ∅)
  = (Raise (KeyError "datasets"), state0 ∅).
Proof. reflexivity. Qed.

(** * [fetch_annotation] *)

Section AnnotationFacts.
Variable E : Env.

(** The expansion of the home is a pure computation that may fail. *)
Lemma Path_expanduser_cases (p : Path) (s : State) :
  (exists q, Path_expanduser E p s = (Ok q, s)) \/
  Path_expanduser E p s = (Raise (RuntimeError "Could not determine home directory."), s).
Proof.
  unfold Path_expanduser, raise, ret.
  destruct p as [|[|c r] rest]; eauto.
  destruct (decide (c = "~"%char)) as [->|Hne].
  - destruct (expanduser E (String "~" r)) as [|c' r']; eauto.
    destruct (decide (c' = "~"%char)) as [->|Hne']; eauto.
    left. eexists.
    destruct c' as [[] [] [] [] [] [] [] []]; try reflexivity. congruence.
  - left. eexists.
    destruct c as [[] [] [] [] [] [] [] []]; try reflexivity. congruence.
Qed.

End AnnotationFacts.

(** C10.  [fetch_annotation] leaves the state alone; it raises
    [FileNotFoundError] exactly when the path, with its home expanded, names
    nothing; when the path names a file that pandas parses, it returns the
    frame; and it never returns a path. *)
Theorem fetch_annotation_spec `{Pandas} (E : Env) (path : string) (s : State) :
  snd (fetch_annotation E path s) = s /\
  ((exists msg, fst (fetch_annotation E path s) = Raise (FileNotFoundError msg)) <->
   (exists p, Path_expanduser E (Path_of_string path) s = (Ok p, s) /\ st_fs s !! p = None)) /\
  (forall p c m frame,
     Path_expanduser E (Path_of_string path) s = (Ok p, s) ->
     st_fs s !! p = Some (File c m) ->
     pandas_read_excel c = inr frame ->
     fst (fetch_annotation E path s) = Ok (VFrame frame)) /\
  (forall p, fst (fetch_annotation E path s) <> Ok (VPath p)).
Proof.
  destruct (fetch_annotation E path s) as [r s1] eqn:Hrun. cbn [fst snd].
  revert Hrun. unfold fetch_annotation. unfold bind at 1.
  destruct (Path_expanduser_cases E (Path_of_string path) s) as [[q Hq]|Hq]; rewrite Hq.
  2:{ intros [= <- <-]. repeat split; try discriminate.
      - intros [msg Hm]. discriminate Hm.
      - intros (p & Hp & _). discriminate Hp. }
  unfold bind at 1, Path_exists at 1.
  destruct (st_fs s !! q) as [nd|] eqn:Hnode.
  - rewrite bool_decide_eq_true_2 by eauto. cbn [negb].
    unfold bind, pd_read_excel, bind, read_file, pd_lift, raise, ret. rewrite Hnode.
    assert (Hclose : forall r0 : outcome pyval,
              (forall msg, r0 <> Raise (FileNotFoundError msg)) ->
              (forall p, r0 <> Ok (VPath p)) ->
              (forall c m frame, nd = File c m -> pandas_read_excel c = inr frame ->
                                 r0 = Ok (VFrame frame)) ->
              (r0, s) = (r, s1) ->
              s1 = s /\
              ((exists msg, r = Raise (FileNotFoundError msg)) <->
               (exists p, (Ok q, s) = (Ok p, s) /\ st_fs s !! p = None)) /\
              (forall p c m frame, (Ok q, s) = (Ok p, s) -> st_fs s !! p = Some (File c m) ->
                 pandas_read_excel c = inr frame -> r = Ok (VFrame frame)) /\
              (forall p, r <> Ok (VPath p))).
    { intros r0 Hfnf Hpath Hframe [= <- <-]. repeat split.
      - intros [msg Hm]. by destruct (Hfnf msg).
      - intros (p & [= <-] & Hp). congruence.
      - intros p c m frame [= <-] Hp Hx. apply (Hframe c m); congruence.
      - exact Hpath. }
    destruct nd as [c m|m].
    + destruct (pandas_read_excel c) as [err|frame] eqn:Hparse; cbn; apply Hclose;
        try discriminate; intros c' m' frame' [= <- <-] Hx; congruence.
    + apply Hclose; discriminate.
  - rewrite bool_decide_eq_false_2 by (intros [? ?]; discriminate). cbn.
    intros [= <- <-]. repeat split; try discriminate.
    + intros _. exists q. by split.
    + eauto.
    + intros p c m frame [= <-] Hp. congruence.
Qed.

(** An annotation file under the home of the user, and a path that names
    nothing. *)
Lemma fetch_annotation_spec_witness :
  fst (fetch_annotation (env0 (always (NetOk "new")) MoveDone) "~/cloud/Annotation.xlsx"
         (state0 {[ ["/"; "home"; "u"; "cloud"; "Annotation.xlsx"] := File "sheet" 0 ]}))
  = Ok (VFrame ("sheet" : DataFrame)) /\
  (exists msg,
     fst (fetch_annotation (env0 (always (NetOk "new")) MoveDone) "~/cloud/Annotation.xlsx"
            (state0 ∅)) = Raise (FileNotFoundError msg)).
Proof.
  split.
  - apply (proj1 (proj2 (proj2 (fetch_annotation_spec (env0 (always (NetOk "new")) MoveDone)
             "~/cloud/Annotation.xlsx"
             (state0 {[ ["/"; "home"; "u"; "cloud"; "Annotation.xlsx"] := File "sheet" 0 ]}))))
           ["/"; "home"; "u"; "cloud"; "Annotation.xlsx"] "sheet" 0).
    + vm_compute. reflexivity.
    + vm_compute. reflexivity.
    + reflexivity.
  - apply (proj2 (proj1 (proj2 (fetch_annotation_spec (env0 (always (NetOk "new")) MoveDone)
             "~/cloud/Annotation.xlsx" (state0 ∅))))).
    exists ["/"; "home"; "u"; "cloud"; "Annotation.xlsx"]. split; vm_compute; reflexivity.
Defined.

(** * The cache location *)

Section ResolverFacts.
Variable E : Env.

Lemma makedirs_run p s :
  makedirs E p s =
  (fst (makedirs_from E [] p (st_fs s)),
   log (EvMakedirs p) (set_fs (snd (makedirs_from E [] p (st_fs s))) s)).
Proof. unfold makedirs. by destruct (makedirs_from E [] p (st_fs s)). Qed.

Lemma makedirs_ok_iff p s :
  fst (makedirs E p s) = Ok tt <->
  (forall q c m, is_prefix_of q p -> st_fs s !! q <> Some (File c m)).
Proof.
  rewrite makedirs_run. cbn [fst]. rewrite makedirs_from_ok_iff. split.
  - intros Hall q c m (k & Hk & ->). by apply Hall.
  - intros Hall k c m Hk. apply Hall. by exists k.
Qed.

Lemma makedirs_keep p s r s' q nd :
  makedirs E p s = (r, s') -> st_fs s !! q = Some nd -> st_fs s' !! q = Some nd.
Proof.
  rewrite makedirs_run. intros [= <- <-]. cbn.
  destruct (makedirs_from E [] p (st_fs s)) as [r fs] eqn:Hmk.
  by apply (makedirs_from_lookup E _ _ _ _ _ Hmk).
Qed.

Lemma makedirs_no_new_file p s r s' q c m :
  makedirs E p s = (r, s') ->
  st_fs s' !! q = Some (File c m) <-> st_fs s !! q = Some (File c m).
Proof.
  rewrite makedirs_run. intros [= <- <-]. cbn.
  destruct (makedirs_from E [] p (st_fs s)) as [r fs] eqn:Hmk.
  apply (makedirs_from_files E _ _ _ _ _ _ _ _ Hmk).
Qed.

Lemma makedirs_dirs p s s' q :
  makedirs E p s = (Ok tt, s') -> is_prefix_of q p -> is_Dir (st_fs s' !! q) = true.
Proof.
  rewrite makedirs_run. intros [= Hr <-] (k & Hk & ->). cbn.
  destruct (makedirs_from E [] p (st_fs s)) as [r fs] eqn:Hmk. cbn in *. subst r.
  apply (makedirs_from_dirs E _ _ _ _ Hmk k Hk).
Qed.

Lemma makedirs_existing p s :
  (forall q, is_prefix_of q p -> is_Dir (st_fs s !! q) = true) ->
  makedirs E p s = (Ok tt, log (EvMakedirs p) s).
Proof.
  intros Hall. rewrite makedirs_run.
  rewrite (makedirs_from_existing E [] p (st_fs s)); [reflexivity|].
  intros k Hk. apply Hall. by exists k.
Qed.

Lemma makedirs_again p s s' :
  makedirs E p s = (Ok tt, s') -> makedirs E p s' = (Ok tt, log (EvMakedirs p) s').
Proof.
  intros Hrun. apply makedirs_existing. intros q Hq. exact (makedirs_dirs _ _ _ _ Hrun Hq).
Qed.

Lemma is_Dir_keep p s r s' q :
  makedirs E p s = (r, s') -> is_Dir (st_fs s !! q) = true -> is_Dir (st_fs s' !! q) = true.
Proof.
  intros Hrun Hd. destruct (st_fs s !! q) as [[c m|m]|] eqn:Hq; try discriminate Hd.
  by rewrite (makedirs_keep _ _ _ _ _ _ Hrun Hq).
Qed.

End ResolverFacts.

Section ConfigFacts.
Variable E : Env.

Lemma config_get_data_home_run explicit s :
  config._get_data_home E explicit s =
  (makedirs E (config_home E explicit /: "sch") ;;
   makedirs E (config_home E explicit /: "search_results") ;;
   makedirs E (config_home E explicit /: "annotation") ;;
   ret (<["data_home" := Path_str (config_home E explicit)]>
        (<["sch_data_home" := Path_str (config_home E explicit /: "sch")]>
         (<["search_results_data_home" :=
              Path_str (config_home E explicit /: "search_results")]>
          (<["annotation_data_home" :=
               Path_str (config_home E explicit /: "annotation")]> ∅))))) s.
Proof.
  unfold config._get_data_home, config_home, precedence, default_sch_tools.
  destruct explicit as [d|]; [reflexivity|].
  by destruct (environ E !! "SCH_DATAHOME").
Qed.

(** The three folders are made one after the other. *)
Lemma config_get_data_home_Ok explicit s dict s' :
  config._get_data_home E explicit s = (Ok dict, s') ->
  exists s1 s2,
    makedirs E (config_home E explicit /: "sch") s = (Ok tt, s1) /\
    makedirs E (config_home E explicit /: "search_results") s1 = (Ok tt, s2) /\
    makedirs E (config_home E explicit /: "annotation") s2 = (Ok tt, s') /\
    dict !! "data_home" = Some (Path_str (config_home E explicit)) /\
    dict !! "sch_data_home" = Some (Path_str (config_home E explicit /: "sch")).
Proof.
  rewrite config_get_data_home_run. unfold bind, ret.
  destruct (makedirs E (config_home E explicit /: "sch") s) as [[[]|e|] s1] eqn:H1;
    try discriminate.
  destruct (makedirs E (config_home E explicit /: "search_results") s1) as [[[]|e|] s2] eqn:H2;
    try discriminate.
  destruct (makedirs E (config_home E explicit /: "annotation") s2) as [[[]|e|] s3] eqn:H3;
    try discriminate.
  intros [= <- <-]. exists s1, s2. by repeat split.
Qed.

Lemma config_get_data_home_fs explicit s dict s' :
  config._get_data_home E explicit s = (Ok dict, s') ->
  all_dirs (st_fs s') (config_home E explicit /: "sch") /\
  all_dirs (st_fs s') (config_home E explicit /: "search_results") /\
  all_dirs (st_fs s') (config_home E explicit /: "annotation") /\
  (forall q c m, st_fs s' !! q = Some (File c m) <-> st_fs s !! q = Some (File c m)).
Proof.
  intros Hrun. destruct (config_get_data_home_Ok _ _ _ _ Hrun) as (s1 & s2 & H1 & H2 & H3 & _).
  repeat split.
  - intros q Hq. apply (is_Dir_keep E _ _ _ _ _ H3), (is_Dir_keep E _ _ _ _ _ H2).
    exact (makedirs_dirs E _ _ _ _ H1 Hq).
  - intros q Hq. apply (is_Dir_keep E _ _ _ _ _ H3).
    exact (makedirs_dirs E _ _ _ _ H2 Hq).
  - intros q Hq. exact (makedirs_dirs E _ _ _ _ H3 Hq).
  - rewrite (makedirs_no_new_file E _ _ _ _ _ _ _ H3), (makedirs_no_new_file E _ _ _ _ _ _ _ H2).
    apply (makedirs_no_new_file E _ _ _ _ _ _ _ H1).
  - rewrite (makedirs_no_new_file E _ _ _ _ _ _ _ H3), (makedirs_no_new_file E _ _ _ _ _ _ _ H2).
    apply (makedirs_no_new_file E _ _ _ _ _ _ _ H1).
Qed.

(** With the three folders in place, the call changes the log only. *)
Lemma config_get_data_home_existing explicit s :
  all_dirs (st_fs s) (config_home E explicit /: "sch") ->
  all_dirs (st_fs s) (config_home E explicit /: "search_results") ->
  all_dirs (st_fs s) (config_home E explicit /: "annotation") ->
  exists dict s',
    config._get_data_home E explicit s = (Ok dict, s') /\ st_fs s' = st_fs s.
Proof.
  intros H1 H2 H3. rewrite config_get_data_home_run. unfold bind, ret.
  rewrite (makedirs_existing E _ _ H1).
  rewrite (makedirs_existing E _ (log _ s) H2).
  rewrite (makedirs_existing E _ (log _ (log _ s)) H3).
  eexists _, _. split; reflexivity.
Qed.

(** With no regular file in the way, the call succeeds. *)
Lemma config_get_data_home_succeeds explicit s :
  no_file_on (st_fs s) (config_home E explicit /: "sch") ->
  no_file_on (st_fs s) (config_home E explicit /: "search_results") ->
  no_file_on (st_fs s) (config_home E explicit /: "annotation") ->
  exists dict s', config._get_data_home E explicit s = (Ok dict, s').
Proof.
  intros H1 H2 H3. rewrite config_get_data_home_run. unfold bind, ret.
  destruct (makedirs E (config_home E explicit /: "sch") s) as [r1 s1] eqn:R1.
  assert (r1 = Ok tt) as -> by (apply (makedirs_ok_iff E) in H1; by rewrite R1 in H1).
  destruct (makedirs E (config_home E explicit /: "search_results") s1) as [r2 s2] eqn:R2.
  assert (r2 = Ok tt) as ->.
  { assert (Hok : fst (makedirs E (config_home E explicit /: "search_results") s1) = Ok tt).
    { apply makedirs_ok_iff. intros q c m Hq Hf.
      apply (makedirs_no_new_file E _ _ _ _ _ _ _ R1) in Hf. exact (H2 q c m Hq Hf). }
    by rewrite R2 in Hok. }
  destruct (makedirs E (config_home E explicit /: "annotation") s2) as [r3 s3] eqn:R3.
  assert (r3 = Ok tt) as ->.
  { assert (Hok : fst (makedirs E (config_home E explicit /: "annotation") s2) = Ok tt).
    { apply makedirs_ok_iff. intros q c m Hq Hf.
      apply (makedirs_no_new_file E _ _ _ _ _ _ _ R2) in Hf.
      apply (makedirs_no_new_file E _ _ _ _ _ _ _ R1) in Hf. exact (H3 q c m Hq Hf). }
    by rewrite R3 in Hok. }
  eauto.
Qed.

End ConfigFacts.

Section DownloadFrame.
Variable E : Env.

(** The publishing step writes at the staging path, at the destination, or
    inside the destination, and nowhere else. *)
Lemma publish_frame tmp dst s r s' q :
  publish E tmp dst s = (r, s') ->
  q <> tmp -> q <> dst -> q <> dst /: default EmptyString (last tmp) ->
  st_fs s' !! q = st_fs s !! q.
Proof.
  intros Hrun Htmp Hdst Hin. revert Hrun.
  unfold publish, bind, shutil_move, Path_exists, raise, ret.
  destruct (storage E) as [|e|];
    destruct (st_fs s !! tmp) as [nd|];
    destruct (is_Dir (st_fs s !! dst));
    cbn [andb];
    repeat match goal with
           | |- context [if ?b then _ else _] => destruct b
           end;
    intros [= <- <-]; cbn [st_fs set_fs log]; try reflexivity;
    rewrite ?lookup_insert_ne, ?lookup_delete_ne by done; reflexivity.
Qed.

(** [_download_sch_database] changes nothing at the target directory or
    above it, beyond what [makedirs] did. *)
Lemma download_short_paths fuel target n d s r s' q :
  _download_sch_database E fuel target n d s = (r, s') ->
  (length q <= length target)%nat ->
  st_fs s' !! q = fs_made E target s !! q.
Proof.
  intros Hrun Hlen. destruct (staging_of E target s) as [tmp|] eqn:Hst.
  - pose proof Hrun as Hrun0.
    rewrite (download_phases E fuel target n d s tmp Hst) in Hrun.
    destruct (staged_facts E target n d tmp s) as (Hfs0 & _).
    destruct (staging_of_Some E _ _ _ Hst) as (_ & _ & rnd & Htmp).
    assert (Hlong : forall name, q <> target /: name).
    { intros name ->. unfold Path_div in Hlen. rewrite length_app in Hlen. cbn in Hlen. lia. }
    assert (Hq : q <> tmp) by (subst tmp; apply Hlong).
    destruct (download_loop E fuel tmp n d (staged E target n d tmp s))
      as [[[]|e0|] s3] eqn:Hloop;
      destruct (download_loop_effect E _ _ _ _ _ _ _ Hloop) as (_ & _ & Hframe & _).
    + rewrite (publish_frame _ _ _ _ _ _ Hrun Hq (Hlong _)).
      * by rewrite (Hframe q Hq), Hfs0, lookup_insert_ne.
      * intros ->. unfold Path_div in Hlen. rewrite !length_app in Hlen. cbn in Hlen. lia.
    + destruct (is_Exception_or_KeyboardInterrupt e0) eqn:Hc.
      * destruct (download_loop_failed E _ _ _ _ _ _ _ _ Hst Hloop Hc) as (s'' & Hrun' & Hfs & _).
        rewrite Hrun0 in Hrun'. inversion Hrun'; subst. by rewrite Hfs.
      * inversion Hrun; subst. by rewrite (Hframe q Hq), Hfs0, lookup_insert_ne.
    + inversion Hrun; subst. by rewrite (Hframe q Hq), Hfs0, lookup_insert_ne.
  - destruct (download_no_staging E fuel target n d s Hst) as (e' & s'' & Hrun' & _ & Hfs & _).
    rewrite Hrun in Hrun'. inversion Hrun'; subst. by rewrite Hfs.
Qed.

(** So a call that finds no regular file in the way leaves its target
    directory and the parents of it in place, whatever else happens. *)
Lemma download_makes_target fuel target n d s :
  no_file_on (st_fs s) target ->
  all_dirs (st_fs (snd (_download_sch_database E fuel target n d s))) target.
Proof.
  intros Hfree q Hq.
  destruct (_download_sch_database E fuel target n d s) as [r s'] eqn:Hrun. cbn [snd].
  rewrite (download_short_paths _ _ _ _ _ _ _ _ Hrun).
  - unfold fs_made.
    destruct (makedirs_from E [] target (st_fs s)) as [r0 fs] eqn:Hmk. cbn [snd].
    assert (r0 = Ok tt) as ->.
    { assert (Hok : fst (makedirs_from E [] target (st_fs s)) = Ok tt).
      { apply makedirs_from_ok_iff. intros k c m Hk. apply Hfree. by exists k. }
      by rewrite Hmk in Hok. }
    destruct Hq as (k & Hk & ->). apply (makedirs_from_dirs E _ _ _ _ Hmk k Hk).
  - destruct Hq as (k & Hk & ->). rewrite length_take. lia.
Qed.

(** In [fetch_sch_database] an explicit [data_home] does not go through the
    resolver: it is taken as it is, its tilde unexpanded. *)
Lemma explicit_data_home_is_not_expanded :
  data_home_of E (Some "~/data") = ["~"; "data"].
Proof. reflexivity. Qed.

End DownloadFrame.

(** C7.  Both resolvers take the explicit argument, else the variable
    [SCH_DATAHOME], else the platform default ([LOCALAPPDATA], else the home
    of the user), and expand the home in what they took.  The resolver of
    config.py makes its three folders with their parents, touches no regular
    file, succeeds whenever no regular file stands in the way, and a second
    call returns the same paths and changes nothing in the file system.  The
    resolver of _sch_database.py makes nothing: its directory is made by the
    [makedirs] of [_download_sch_database], which succeeds exactly when no
    regular file stands in the way, leaves the directory and its parents in
    place, succeeds again when repeated, and changes nothing when they were
    there already; after a call of [_download_sch_database] that found no
    regular file in the way, the target directory and its parents exist. *)
Theorem cache_location_resolver (E : Env) (explicit : option string) :
  _get_data_home E explicit
    = Path_of_string
        (expanduser E (precedence explicit (environ E !! "SCH_DATAHOME")
                         (default_sch_database E))) /\
  (forall s dict s',
     config._get_data_home E explicit s = (Ok dict, s') ->
     dict !! "data_home" = Some (Path_str (config_home E explicit)) /\
     dict !! "sch_data_home" = Some (Path_str (config_home E explicit /: "sch")) /\
     all_dirs (st_fs s') (config_home E explicit /: "sch") /\
     all_dirs (st_fs s') (config_home E explicit /: "search_results") /\
     all_dirs (st_fs s') (config_home E explicit /: "annotation") /\
     (forall q c m, st_fs s' !! q = Some (File c m) <-> st_fs s !! q = Some (File c m)) /\
     exists s'', config._get_data_home E explicit s' = (Ok dict, s'') /\ st_fs s'' = st_fs s') /\
  (forall s,
     no_file_on (st_fs s) (config_home E explicit /: "sch") ->
     no_file_on (st_fs s) (config_home E explicit /: "search_results") ->
     no_file_on (st_fs s) (config_home E explicit /: "annotation") ->
     exists dict s', config._get_data_home E explicit s = (Ok dict, s')) /\
  (forall p s, fst (makedirs E p s) = Ok tt <-> no_file_on (st_fs s) p) /\
  (forall p s s',
     makedirs E p s = (Ok tt, s') ->
     all_dirs (st_fs s') p /\ makedirs E p s' = (Ok tt, log (EvMakedirs p) s')) /\
  (forall p s, all_dirs (st_fs s) p -> makedirs E p s = (Ok tt, log (EvMakedirs p) s)) /\
  (forall fuel target n d s,
     no_file_on (st_fs s) target ->
     all_dirs (st_fs (snd (_download_sch_database E fuel target n d s))) target).
Proof.
  repeat apply conj.
  - unfold _get_data_home, precedence, default_sch_database.
    destruct explicit as [d|]; [reflexivity|].
    by destruct (environ E !! "SCH_DATAHOME").
  - intros s dict s' Hrun.
    destruct (config_get_data_home_Ok E _ _ _ _ Hrun) as (_ & _ & _ & _ & _ & Hd1 & Hd2).
    destruct (config_get_data_home_fs E _ _ _ _ Hrun) as (Ha & Hb & Hc & Hfiles).
    repeat apply conj; try assumption.
    destruct (config_get_data_home_existing E explicit s' Ha Hb Hc) as (dict' & s'' & Hrun' & Hfs).
    exists s''. split; [|exact Hfs].
    rewrite Hrun'. f_equal. f_equal.
    rewrite config_get_data_home_run in Hrun, Hrun'. unfold bind, ret in Hrun, Hrun'.
    repeat match type of Hrun with
           | context [makedirs E ?p ?s0] => destruct (makedirs E p s0) as [[[]|?|] ?]
           end; try discriminate.
    repeat match type of Hrun' with
           | context [makedirs E ?p ?s0] => destruct (makedirs E p s0) as [[[]|?|] ?]
           end; try discriminate.
    congruence.
  - intros s. apply config_get_data_home_succeeds.
  - intros p s. apply makedirs_ok_iff.
  - intros p s s' Hrun. split.
    + intros q Hq. exact (makedirs_dirs E _ _ _ _ Hrun Hq).
    + exact (makedirs_again E _ _ _ Hrun).
  - intros p s. apply makedirs_existing.
  - intros fuel target n d s. apply download_makes_target.
Qed.

(** The three sources of the data home, on an empty disk; and the second
    call of the resolver of config.py. *)
Lemma cache_location_resolver_witness :
  _get_data_home (env0 (always (NetOk "new")) MoveDone) (Some "~/data")
    = ["/"; "home"; "u"; "data"] /\
  _get_data_home (mkEnv {[ "HOME" := "/home/u"; "SCH_DATAHOME" := "/srv/sch" ]}
                    None ∅ 0 (always (NetOk "new")) [] MoveDone) None
    = ["/"; "srv"; "sch"] /\
  _get_data_home (env0 (always (NetOk "new")) MoveDone) None
    = ["/"; "home"; "u"; "sch_database"] /\
  (exists dict s',
     config._get_data_home (env0 (always (NetOk "new")) MoveDone) None (state0 ∅)
     = (Ok dict, s')) /\
  exists s'',
    config._get_data_home (env0 (always (NetOk "new")) MoveDone) None
      (snd (config._get_data_home (env0 (always (NetOk "new")) MoveDone) None (state0 ∅)))
    = (fst (config._get_data_home (env0 (always (NetOk "new")) MoveDone) None (state0 ∅)), s'') /\
    st_fs s''
    = st_fs (snd (config._get_data_home (env0 (always (NetOk "new")) MoveDone) None (state0 ∅))).
Proof.
  repeat apply conj.
  - rewrite (proj1 (cache_location_resolver (env0 (always (NetOk "new")) MoveDone)
                      (Some "~/data"))).
    vm_compute. reflexivity.
  - rewrite (proj1 (cache_location_resolver
                      (mkEnv {[ "HOME" := "/home/u"; "SCH_DATAHOME" := "/srv/sch" ]}
                         None ∅ 0 (always (NetOk "new")) [] MoveDone) None)).
    vm_compute. reflexivity.
  - rewrite (proj1 (cache_location_resolver (env0 (always (NetOk "new")) MoveDone) None)).
    vm_compute. reflexivity.
  - apply (proj1 (proj2 (proj2 (cache_location_resolver
                                  (env0 (always (NetOk "new")) MoveDone) None)))).
    + intros q c m _. vm_compute. discriminate.
    + intros q c m _. vm_compute. discriminate.
    + intros q c m _. vm_compute. discriminate.
  - apply (proj1 (proj2 (cache_location_resolver (env0 (always (NetOk "new")) MoveDone) None))
             (state0 ∅)
             (<["data_home" := "/home/u/sch_tools/datasets"]>
              (<["sch_data_home" := "/home/u/sch_tools/datasets/sch"]>
               (<["search_results_data_home" := "/home/u/sch_tools/datasets/search_results"]>
                (<["annotation_data_home" := "/home/u/sch_tools/datasets/annotation"]> ∅))))).
    vm_compute. reflexivity.
Defined.

(** * More on the acquisition: what a download touches, how it ends *)

Section DownloadMore.
Variable E : Env.

(** Outside its staging file, the canonical path and the inside of it, a call
    leaves what [makedirs] left. *)
Lemma download_frame fuel target n d s r s' q :
  _download_sch_database E fuel target n d s = (r, s') ->
  (forall rnd, q <> target /: (staging_prefix +:+ rnd)) ->
  q <> target /: filename REMOTE_SCH_DATASET ->
  (forall name, q <> target /: filename REMOTE_SCH_DATASET /: name) ->
  st_fs s' !! q = fs_made E target s !! q.
Proof.
  intros Hrun Hstg Hcan Hin. destruct (staging_of E target s) as [tmp|] eqn:Hst.
  - pose proof Hrun as Hrun0.
    rewrite (download_phases E fuel target n d s tmp Hst) in Hrun.
    destruct (staged_facts E target n d tmp s) as (Hfs0 & _).
    destruct (staging_of_Some E _ _ _ Hst) as (_ & _ & rnd & Htmp).
    assert (Hq : q <> tmp) by (subst tmp; apply Hstg).
    destruct (download_loop E fuel tmp n d (staged E target n d tmp s))
      as [[[]|e0|] s3] eqn:Hloop;
      destruct (download_loop_effect E _ _ _ _ _ _ _ Hloop) as (_ & _ & Hframe & _).
    + rewrite (publish_frame E _ _ _ _ _ _ Hrun Hq Hcan (Hin _)).
      by rewrite (Hframe q Hq), Hfs0, lookup_insert_ne.
    + destruct (is_Exception_or_KeyboardInterrupt e0) eqn:Hc.
      * destruct (download_loop_failed E _ _ _ _ _ _ _ _ Hst Hloop Hc) as (s'' & Hrun' & Hfs & _).
        rewrite Hrun0 in Hrun'. inversion Hrun'; subst. by rewrite Hfs.
      * inversion Hrun; subst. by rewrite (Hframe q Hq), Hfs0, lookup_insert_ne.
    + inversion Hrun; subst. by rewrite (Hframe q Hq), Hfs0, lookup_insert_ne.
  - destruct (download_no_staging E fuel target n d s Hst) as (e' & s'' & Hrun' & _ & Hfs & _).
    rewrite Hrun in Hrun'. inversion Hrun'; subst. by rewrite Hfs.
Qed.

Lemma fs_made_keeps target s q nd :
  st_fs s !! q = Some nd -> fs_made E target s !! q = Some nd.
Proof.
  unfold fs_made. destruct (makedirs_from E [] target (st_fs s)) as [r fs] eqn:Hmk. cbn.
  by apply (makedirs_from_lookup E _ _ _ _ _ Hmk).
Qed.

(** Until the move is attempted the canonical path holds what it held,
    however the call ends. *)
Lemma download_canonical_before_move fuel target n d s r s' :
  _download_sch_database E fuel target n d s = (r, s') ->
  moves s' = moves s ->
  st_fs s' !! (target /: filename REMOTE_SCH_DATASET)
    = st_fs s !! (target /: filename REMOTE_SCH_DATASET).
Proof.
  intros Hrun Hmoves. destruct (staging_of E target s) as [tmp|] eqn:Hst.
  - pose proof Hrun as Hrun0.
    rewrite (download_phases E fuel target n d s tmp Hst) in Hrun.
    destruct (staged_facts E target n d tmp s) as (Hfs0 & _ & _ & Hm0).
    destruct (staging_of_Some E _ _ _ Hst) as (_ & _ & rnd & Htmp).
    assert (Hne : target /: filename REMOTE_SCH_DATASET <> tmp)
      by (subst tmp; intros Heq; symmetry in Heq; revert Heq; apply staging_ne_canonical).
    destruct (download_loop E fuel tmp n d (staged E target n d tmp s))
      as [[[]|e0|] s3] eqn:Hloop;
      destruct (download_loop_effect E _ _ _ _ _ _ _ Hloop) as (_ & Hm & Hframe & _).
    + apply publish_log in Hrun as [Hlog _]. unfold moves in *.
      rewrite Hlog in Hmoves. cbn in Hmoves. lia.
    + destruct (is_Exception_or_KeyboardInterrupt e0) eqn:Hc.
      * destruct (download_loop_failed E _ _ _ _ _ _ _ _ Hst Hloop Hc) as (s'' & Hrun' & Hfs & _).
        rewrite Hrun0 in Hrun'. inversion Hrun'; subst. rewrite Hfs. apply fs_made_inside.
      * inversion Hrun; subst.
        rewrite (Hframe _ Hne), Hfs0, lookup_insert_ne by done. apply fs_made_inside.
    + inversion Hrun; subst.
      rewrite (Hframe _ Hne), Hfs0, lookup_insert_ne by done. apply fs_made_inside.
  - destruct (download_no_staging E fuel target n d s Hst) as (e' & s'' & Hrun' & _ & Hfs & _).
    rewrite Hrun in Hrun'. inversion Hrun'; subst. rewrite Hfs. apply fs_made_inside.
Qed.

(** The publishing step that returns: the destination is there, the staging
    file is not, and a regular file at the destination is the staged one. *)
Lemma publish_Ok tmp dst s s' nd :
  publish E tmp dst s = (Ok tt, s') ->
  st_fs s !! tmp = Some nd ->
  tmp <> dst -> (forall name, tmp <> dst /: name) ->
  is_Some (st_fs s' !! dst) /\
  st_fs s' !! tmp = None /\
  (forall c m, st_fs s' !! dst = Some (File c m) -> nd = File c m).
Proof.
  intros Hrun Hnd Hne Hin. revert Hrun.
  unfold publish, bind, shutil_move, Path_exists, raise, ret. rewrite Hnd.
  destruct (storage E) as [|e|]; [|discriminate|];
    destruct (is_Dir (st_fs s !! dst)) eqn:Hdir; cbn [andb];
    repeat match goal with
           | |- context [if bool_decide ?P then _ else _] => destruct (bool_decide P) eqn:?
           | |- context [if negb (bool_decide ?P) then _ else _] =>
               destruct (bool_decide P) eqn:?; cbn [negb]
           end;
    try discriminate; intros [= <-]; cbn [st_fs set_fs log] in *;
    repeat match goal with
           | Hb : bool_decide _ = true |- _ => apply bool_decide_eq_true in Hb
           | Hb : bool_decide _ = false |- _ => apply bool_decide_eq_false in Hb
           end.
  all: split; [assumption|].
  all: assert (Hdd : forall name, dst /: name <> dst)
         by (intros name Heq; apply (f_equal length) in Heq; unfold Path_div in Heq;
             rewrite length_app in Heq; cbn in Heq; lia).
  - split.
    + rewrite lookup_insert_ne by (intros Heq; exact (Hin _ (eq_sym Heq))).
      apply lookup_delete_eq.
    + intros c m. rewrite lookup_insert_ne by apply Hdd.
      rewrite lookup_delete_ne by done. intros Hf. rewrite Hf in Hdir. discriminate.
  - split.
    + rewrite lookup_insert_ne by done. apply lookup_delete_eq.
    + intros c m. rewrite lookup_insert_eq. congruence.
  - split.
    + rewrite lookup_delete_ne by (intros Heq; exact (Hin _ (eq_sym Heq))).
      apply lookup_delete_eq.
    + intros c m. rewrite lookup_delete_ne by apply Hdd.
      rewrite lookup_delete_ne by done. intros Hf. rewrite Hf in Hdir. discriminate.
  - split.
    + rewrite lookup_delete_ne by done. apply lookup_delete_eq.
    + intros c m. rewrite lookup_delete_eq. discriminate.
Qed.

(** The call that returns went through the loop and the publishing step. *)
Lemma download_Ok_inv fuel target n d s s' :
  _download_sch_database E fuel target n d s = (Ok tt, s') ->
  exists tmp s3 payload,
    staging_of E target s = Some tmp /\
    download_loop E fuel tmp n d (staged E target n d tmp s) = (Ok tt, s3) /\
    st_fs s3 !! tmp = Some (File payload (now E)) /\
    publish E tmp (target /: filename REMOTE_SCH_DATASET) s3 = (Ok tt, s').
Proof.
  intros Hrun. destruct (staging_of E target s) as [tmp|] eqn:Hst.
  - rewrite (download_phases E fuel target n d s tmp Hst) in Hrun.
    destruct (download_loop E fuel tmp n d (staged E target n d tmp s))
      as [[[]|e0|] s3] eqn:Hloop.
    + destruct (download_loop_effect E _ _ _ _ _ _ _ Hloop) as (_ & _ & _ & _ & Hok).
      destruct (Hok eq_refl) as (payload & _ & Hfile). by exists tmp, s3, payload.
    + destruct (is_Exception_or_KeyboardInterrupt e0); [|discriminate].
      revert Hrun. unfold bind, os_unlink, raise.
      by destruct (st_fs s3 !! tmp) as [[c m|m]|].
    + discriminate.
  - destruct (download_no_staging E fuel target n d s Hst) as (e' & s'' & Hrun' & _).
    rewrite Hrun in Hrun'. discriminate.
Qed.

Lemma staging_shape target s tmp :
  staging_of E target s = Some tmp ->
  tmp <> target /: filename REMOTE_SCH_DATASET /\
  (forall name, tmp <> target /: filename REMOTE_SCH_DATASET /: name).
Proof.
  intros Hst. destruct (staging_of_Some E _ _ _ Hst) as (_ & _ & rnd & ->). split.
  - apply staging_ne_canonical.
  - intros name Heq. apply (f_equal length) in Heq. unfold Path_div in Heq.
    rewrite !length_app in Heq. cbn in Heq. lia.
Qed.

(** With a budget and a delay that are not negative, fuel beyond the budget
    is enough, and the call starts at most [n + 1] transfers. *)
Lemma download_terminates fuel target n d s :
  0 <= n -> Qle_bool 0 d = true -> (Z.to_nat n < fuel)%nat ->
  fst (_download_sch_database E fuel target n d s) <> OutOfFuel /\
  (st_attempts (snd (_download_sch_database E fuel target n d s))
   <= st_attempts s + Z.to_nat n + 1)%nat.
Proof.
  intros Hn Hd Hfuel. destruct (staging_of E target s) as [tmp|] eqn:Hst.
  - rewrite (download_phases E fuel target n d s tmp Hst).
    destruct (download_loop_spec E fuel tmp n d (staged E target n d tmp s) Hn Hd Hfuel)
      as (k & r3 & s3 & Hk & _ & Hloop & Hatt & _ & Hlast).
    destruct (staged_facts E target n d tmp s) as (_ & Hatt0 & _).
    rewrite Hloop. rewrite Hatt0 in *.
    destruct r3 as [[]|e0|].
    + destruct (publish E tmp (target /: filename REMOTE_SCH_DATASET) s3) as [r s'] eqn:Hpub.
      destruct (publish_log E _ _ _ _ _ Hpub) as [_ Ha]. cbn. split; [|lia].
      revert Hpub. unfold publish, bind, shutil_move, Path_exists, raise, ret.
      destruct (storage E) as [|e|];
        destruct (st_fs s3 !! tmp) as [nd|];
        repeat match goal with
               | |- context [if ?b then _ else _] => destruct b
               end;
        intros [= <- _]; discriminate.
    + destruct (is_Exception_or_KeyboardInterrupt e0).
      * unfold bind, os_unlink, raise.
        destruct (st_fs s3 !! tmp) as [[c m|m]|]; cbn; split; try discriminate; lia.
      * cbn. split; [discriminate|lia].
    + exfalso. destruct (net E (st_attempts s + k)) as [p|e w]; [discriminate|].
      destruct Hlast as [Hr _]. discriminate.
  - destruct (download_no_staging E fuel target n d s Hst) as (e' & s'' & Hrun' & _ & _ & Ha & _).
    rewrite Hrun'. cbn. split; [discriminate|lia].
Qed.

End DownloadMore.

(** X1.  A call of [_download_sch_database], however it ends, leaves every
    path alone that is not one of its staging names, the canonical path or a
    path inside it: what was there is still there, and no regular file
    appears, changes or disappears there. *)
Theorem download_writes_only_its_own_files (E : Env) (fuel : nat) (target : Path)
    (n : Z) (d : Q) (s : State) (r : outcome unit) (s' : State) (q : Path) :
  _download_sch_database E fuel target n d s = (r, s') ->
  (forall rnd, q <> target /: (staging_prefix +:+ rnd)) ->
  q <> target /: filename REMOTE_SCH_DATASET ->
  (forall name, q <> target /: filename REMOTE_SCH_DATASET /: name) ->
  (forall nd, st_fs s !! q = Some nd -> st_fs s' !! q = Some nd) /\
  (forall c m, st_fs s' !! q = Some (File c m) <-> st_fs s !! q = Some (File c m)).
Proof.
  intros Hrun H1 H2 H3. rewrite (download_frame E _ _ _ _ _ _ _ _ Hrun H1 H2 H3). split.
  - intros nd. apply fs_made_keeps.
  - intros c m. apply fs_made_files.
Qed.

Lemma download_writes_only_its_own_files_witness :
  (forall nd,
     st_fs (state0 (<[ ["/"; "home"; "u"; "notes.txt"] := File "mine" 0 ]> (cached 200)))
       !! ["/"; "home"; "u"; "notes.txt"] = Some nd ->
     st_fs (snd (_download_sch_database (env0 (always (NetOk "new")) MoveDone) 10 cache_dir 3 1
                   (state0 (<[ ["/"; "home"; "u"; "notes.txt"] := File "mine" 0 ]> (cached 200)))))
       !! ["/"; "home"; "u"; "notes.txt"] = Some nd) /\
  (forall c m,
     st_fs (snd (_download_sch_database (env0 (always (NetOk "new")) MoveDone) 10 cache_dir 3 1
                   (state0 (<[ ["/"; "home"; "u"; "notes.txt"] := File "mine" 0 ]> (cached 200)))))
       !! ["/"; "home"; "u"; "notes.txt"] = Some (File c m)
     <-> st_fs (state0 (<[ ["/"; "home"; "u"; "notes.txt"] := File "mine" 0 ]> (cached 200)))
           !! ["/"; "home"; "u"; "notes.txt"] = Some (File c m)).
Proof.
  apply (download_writes_only_its_own_files (env0 (always (NetOk "new")) MoveDone)
           10 cache_dir 3 1 _ _ _ ["/"; "home"; "u"; "notes.txt"] (surjective_pairing _)).
  - intros rnd Heq. apply (f_equal length) in Heq. vm_compute in Heq. discriminate.
  - intros Heq. apply (f_equal length) in Heq. vm_compute in Heq. discriminate.
  - intros name Heq. apply (f_equal length) in Heq. vm_compute in Heq. discriminate.
Defined.

(** X2.  Until [fetch_sch_database] attempts the publishing move, the
    canonical path holds what it held before the call, however the call ends:
    a transfer, even one cut short by an exception that no handler catches,
    never writes to the canonical file. *)
Theorem canonical_untouched_until_move `{Pandas} (E : Env) (fuel : nat)
    (dh : option string) (dim : bool) (G : Z) (force : bool) (n : Z) (d : Q)
    (s : State) (r : outcome pyval) (s' : State) :
  fetch_sch_database E fuel dh dim G force n d s = (r, s') ->
  moves s' = moves s ->
  st_fs s' !! sch_file_path_of E dh = st_fs s !! sch_file_path_of E dh.
Proof.
  intros Hrun Hmoves.
  assert (Hs : s' = snd (refresh_cache E fuel (data_home_of E dh) dim G force n d s))
    by (rewrite <- (fetch_sch_database_state E fuel dh dim G force n d s), Hrun; reflexivity).
  rewrite sch_file_path_of_eq.
  assert (Hdl : forall msg,
            s' = snd (_download_sch_database E fuel (data_home_of E dh) n d (log (EvPrint msg) s)) ->
            st_fs s' !! (data_home_of E dh /: filename REMOTE_SCH_DATASET)
            = st_fs s !! (data_home_of E dh /: filename REMOTE_SCH_DATASET)).
  { intros msg Heq.
    destruct (_download_sch_database E fuel (data_home_of E dh) n d (log (EvPrint msg) s))
      as [r1 s1] eqn:Hd. cbn in Heq. subst s1.
    apply (download_canonical_before_move E _ _ _ _ _ _ _ Hd). exact Hmoves. }
  destruct (st_fs s !! (data_home_of E dh /: filename REMOTE_SCH_DATASET)) as [nd|] eqn:Hnd.
  - rewrite (refresh_cache_present E _ _ _ _ _ _ _ _ _ Hnd) in Hs.
    destruct (timedelta_days (now E - st_mtime nd) >? G); [by rewrite (Hdl _ Hs)|].
    destruct force; [by rewrite (Hdl _ Hs)|]. cbn in Hs. by subst s'.
  - rewrite (refresh_cache_missing E _ _ _ _ _ _ _ _ Hnd) in Hs.
    destruct dim; [by rewrite (Hdl _ Hs)|]. cbn in Hs. by subst s'.
Qed.

(** A stale file, and a transfer cut short by [SystemExit]. *)
Lemma canonical_untouched_until_move_witness :
  st_fs (snd (fetch_sch_database (env0 (always (NetRaise SystemExit (Some "par"))) MoveDone)
                10 None true 180 false 3 1 (state0 (cached 200))))
    !! sch_file_path_of (env0 (always (NetRaise SystemExit (Some "par"))) MoveDone) None
  = st_fs (state0 (cached 200))
    !! sch_file_path_of (env0 (always (NetRaise SystemExit (Some "par"))) MoveDone) None.
Proof.
  apply (canonical_untouched_until_move
           (env0 (always (NetRaise SystemExit (Some "par"))) MoveDone)
           10 None true 180 false 3 1 (state0 (cached 200)) _ _ (surjective_pairing _)).
  vm_compute. reflexivity.
Defined.

(** X3.  When [_download_sch_database] returns, the canonical path exists,
    the staging file is gone, one move was made, the last transfer had
    delivered; and if the canonical path is a regular file, it holds the
    payload of that transfer, dated by the clock. *)
Theorem download_returns_with_file_in_place (E : Env) (fuel : nat) (target : Path)
    (n : Z) (d : Q) (s s' : State) :
  _download_sch_database E fuel target n d s = (Ok tt, s') ->
  is_Some (st_fs s' !! (target /: filename REMOTE_SCH_DATASET)) /\
  moves s' = S (moves s) /\
  exists tmp payload,
    staging_of E target s = Some tmp /\
    st_fs s' !! tmp = None /\
    net E (pred (st_attempts s')) = NetOk payload /\
    (forall c m, st_fs s' !! (target /: filename REMOTE_SCH_DATASET) = Some (File c m) ->
                 c = payload /\ m = now E).
Proof.
  intros Hrun.
  destruct (download_Ok_inv E _ _ _ _ _ _ Hrun) as (tmp & s3 & payload0 & Hst & Hloop & _ & Hpub).
  destruct (download_loop_effect E _ _ _ _ _ _ _ Hloop) as (_ & Hm & _ & _ & Hok).
  destruct (Hok eq_refl) as (payload & Hnet & Hfile).
  destruct (staging_shape E _ _ _ Hst) as [Hne Hin].
  destruct (publish_Ok E _ _ _ _ _ Hpub Hfile Hne Hin) as (Hsome & Hgone & Hsame).
  destruct (publish_log E _ _ _ _ _ Hpub) as [Hlog Hatt].
  destruct (staged_facts E target n d tmp s) as (_ & _ & _ & Hm0).
  split; [exact Hsome|]. split.
  - unfold moves in *. rewrite Hlog. cbn. congruence.
  - exists tmp, payload. rewrite Hatt. split; [exact Hst|]. split; [exact Hgone|].
    split; [exact Hnet|]. intros c m Hcm. specialize (Hsame _ _ Hcm). split; congruence.
Qed.

Lemma download_returns_with_file_in_place_witness :
  is_Some (st_fs (snd (_download_sch_database (env0 (fails_then_ok 1 TimeoutError "new") MoveDone)
                         10 cache_dir 3 1 (state0 (cached 200))))
             !! (cache_dir /: filename REMOTE_SCH_DATASET)) /\
  moves (snd (_download_sch_database (env0 (fails_then_ok 1 TimeoutError "new") MoveDone)
                10 cache_dir 3 1 (state0 (cached 200)))) = S (moves (state0 (cached 200))) /\
  exists tmp payload,
    staging_of (env0 (fails_then_ok 1 TimeoutError "new") MoveDone) cache_dir
      (state0 (cached 200)) = Some tmp /\
    st_fs (snd (_download_sch_database (env0 (fails_then_ok 1 TimeoutError "new") MoveDone)
                  10 cache_dir 3 1 (state0 (cached 200)))) !! tmp = None /\
    net (env0 (fails_then_ok 1 TimeoutError "new") MoveDone)
      (pred (st_attempts (snd (_download_sch_database
                                 (env0 (fails_then_ok 1 TimeoutError "new") MoveDone)
                                 10 cache_dir 3 1 (state0 (cached 200)))))) = NetOk payload /\
    (forall c m,
       st_fs (snd (_download_sch_database (env0 (fails_then_ok 1 TimeoutError "new") MoveDone)
                     10 cache_dir 3 1 (state0 (cached 200))))
         !! (cache_dir /: filename REMOTE_SCH_DATASET) = Some (File c m) ->
       c = payload /\ m = now (env0 (fails_then_ok 1 TimeoutError "new") MoveDone)).
Proof.
  apply (download_returns_with_file_in_place (env0 (fails_then_ok 1 TimeoutError "new") MoveDone)
           10 cache_dir 3 1 (state0 (cached 200))).
  vm_compute. reflexivity.
Defined.

Section FetchMore.
Variable E : Env.
Context `{Pandas}.

Lemma read_sch_frame_finishes p s : fst (read_sch_frame p s) <> OutOfFuel.
Proof.
  unfold read_sch_frame, pd_read_csv, read_file, pd_lift, bind, ret, raise.
  destruct (st_fs s !! p) as [[c m|m]|]; try discriminate.
  repeat match goal with
         | |- context [match ?x with inl _ => _ | inr _ => _ end] => destruct x; cbn
         end; discriminate.
Qed.

(** The refresh is a call of [_download_sch_database] after a message, or
    nothing, or the error of line 215. *)
Lemma refresh_cache_shape fuel dir dim G force n d s :
  (exists msg,
     refresh_cache E fuel dir dim G force n d s
     = _download_sch_database E fuel dir n d (log (EvPrint msg) s)) \/
  (exists r, refresh_cache E fuel dir dim G force n d s = (r, s) /\ r <> OutOfFuel).
Proof.
  destruct (st_fs s !! (dir /: filename REMOTE_SCH_DATASET)) as [nd|] eqn:Hnd.
  - rewrite (refresh_cache_present E _ _ _ _ _ _ _ _ _ Hnd).
    destruct (timedelta_days (now E - st_mtime nd) >? G); [left; eauto|].
    destruct force; [left; eauto|]. right. eexists. split; [reflexivity|discriminate].
  - rewrite (refresh_cache_missing E _ _ _ _ _ _ _ _ Hnd).
    destruct dim; [left; eauto|]. right. eexists. split; [reflexivity|discriminate].
Qed.

End FetchMore.

(** X4.  With a retry budget and a delay that are not negative,
    [fetch_sch_database] ends: fuel beyond the budget is always enough; and
    one call starts at most [n_retries + 1] transfers. *)
Theorem fetch_terminates `{Pandas} (E : Env) (fuel : nat) (dh : option string)
    (dim : bool) (G : Z) (force : bool) (n : Z) (d : Q) (s : State) :
  0 <= n ->
  Qle_bool 0 d = true ->
  (Z.to_nat n < fuel)%nat ->
  fst (fetch_sch_database E fuel dh dim G force n d s) <> OutOfFuel /\
  (st_attempts (snd (fetch_sch_database E fuel dh dim G force n d s))
   <= st_attempts s + Z.to_nat n + 1)%nat.
Proof.
  intros Hn Hd Hfuel. split.
  - rewrite fetch_sch_database_eq. unfold bind at 1.
    destruct (refresh_cache_shape E fuel (data_home_of E dh) dim G force n d s)
      as [[msg Heq]|(r & Heq & Hr)]; rewrite Heq.
    + pose proof (download_terminates E fuel (data_home_of E dh) n d (log (EvPrint msg) s)
                    Hn Hd Hfuel) as [Hfin _].
      destruct (_download_sch_database E fuel (data_home_of E dh) n d (log (EvPrint msg) s))
        as [[[]|e|] s1]; cbn in *; try discriminate; try congruence.
      apply read_sch_frame_finishes.
    + destruct r as [[]|e|]; cbn; try discriminate; try congruence.
      apply read_sch_frame_finishes.
  - rewrite fetch_sch_database_state.
    destruct (refresh_cache_shape E fuel (data_home_of E dh) dim G force n d s)
      as [[msg Heq]|(r & Heq & Hr)]; rewrite Heq.
    + apply (download_terminates E fuel (data_home_of E dh) n d (log (EvPrint msg) s)
               Hn Hd Hfuel).
    + cbn. lia.
Qed.

(** A network that never answers, and a budget of three retries: four
    transfers, and the call is over. *)
Lemma fetch_terminates_witness :
  fst (fetch_sch_database (env0 (always (NetRaise TimeoutError None)) MoveDone)
         4 None true 180 false 3 1 (state0 ∅)) <> OutOfFuel /\
  (st_attempts (snd (fetch_sch_database (env0 (always (NetRaise TimeoutError None)) MoveDone)
                       4 None true 180 false 3 1 (state0 ∅)))
   <= st_attempts (state0 ∅) + Z.to_nat 3 + 1)%nat.
Proof.
  apply (fetch_terminates (env0 (always (NetRaise TimeoutError None)) MoveDone)
           4 None true 180 false 3 1 (state0 ∅)).
  - lia.
  - reflexivity.
  - vm_compute. lia.
Defined.

(** X5.  With a negative retry budget the test [n_retries == 0] never
    holds: against a network whose every transfer fails with a [URLError] or
    a [TimeoutError], [_download_sch_database] never returns, whatever the
    fuel. *)
Theorem negative_budget_never_returns (E : Env) (fuel : nat) (target : Path) (n : Z) (d : Q)
    (s : State) (tmp : Path) :
  staging_of E target s = Some tmp ->
  n < 0 ->
  Qle_bool 0 d = true ->
  (forall i, retried (net E i) = true) ->
  fst (_download_sch_database E fuel target n d s) = OutOfFuel.
Proof.
  intros Hst Hn Hd Hnet.
  rewrite (download_phases E fuel target n d s tmp Hst).
  pose proof (download_loop_negative_budget E fuel tmp n d (staged E target n d tmp s)
                Hn Hd Hnet) as Hloop.
  destruct (download_loop E fuel tmp n d (staged E target n d tmp s)) as [[[]|e|] s3];
    cbn in Hloop; try discriminate. reflexivity.
Qed.

Lemma negative_budget_never_returns_witness :
  fst (_download_sch_database (env0 (always (NetRaise TimeoutError None)) MoveDone)
         50 cache_dir (-1) 1 (state0 ∅)) = OutOfFuel.
Proof.
  apply (negative_budget_never_returns (env0 (always (NetRaise TimeoutError None)) MoveDone)
           50 cache_dir (-1) 1 (state0 ∅) staging0).
  - vm_compute. reflexivity.
  - lia.
  - reflexivity.
  - intros i. reflexivity.
Defined.

(** X6.  With a negative delay and a budget that is not zero, the first
    transfer that fails with a [URLError] or a [TimeoutError] is not retried:
    the warning is emitted, [time.sleep] raises [ValueError], the staging
    file is unlinked, and that [ValueError] is what the call raises, after
    one transfer. *)
Theorem negative_delay_fails_at_first_retry (E : Env) (fuel : nat) (target : Path)
    (n : Z) (d : Q) (s : State) (tmp : Path) :
  staging_of E target s = Some tmp ->
  Qle_bool 0 d = false ->
  n <> 0 ->
  retried (net E (st_attempts s)) = true ->
  exists s',
    _download_sch_database E (S fuel) target n d s
    = (Raise (ValueError "sleep length must be non-negative"), s') /\
    st_attempts s' = S (st_attempts s) /\
    st_log s' = EvUnlink tmp :: EvWarn retry_warning :: EvUrlretrieve remote_link tmp
                :: EvTemp tmp :: EvMakedirs target :: EvDownload target n d :: st_log s /\
    st_fs s' !! tmp = None /\
    st_fs s' !! (target /: filename REMOTE_SCH_DATASET)
      = st_fs s !! (target /: filename REMOTE_SCH_DATASET).
Proof.
  intros Hst Hd Hn Hnet.
  assert (Hloop : download_loop E (S fuel) tmp n d (staged E target n d tmp s)
                  = (Raise (ValueError "sleep length must be non-negative"),
                     log (EvWarn retry_warning) (transferred E tmp (staged E target n d tmp s)))).
  { rewrite download_loop_S.
    destruct (staged_facts E target n d tmp s) as (_ & Hatt0 & _). rewrite Hatt0.
    destruct (net E (st_attempts s)) as [p|e w]; [discriminate Hnet|].
    cbn in Hnet. rewrite Hnet, Hd.
    destruct (n =? 0) eqn:Hz; [apply Z.eqb_eq in Hz; contradiction|reflexivity]. }
  destruct (download_loop_failed E _ _ _ _ _ _ _ _ Hst Hloop eq_refl)
    as (s' & Hrun & Hfs & Hatt & Hlog & _).
  exists s'. split; [exact Hrun|]. repeat split.
  - rewrite Hatt. cbn [st_attempts log]. rewrite transferred_attempts.
    by destruct (staged_facts E target n d tmp s) as (_ & -> & _).
  - rewrite Hlog. cbn [st_log log]. by rewrite transferred_log.
  - rewrite Hfs. by destruct (staging_of_Some E _ _ _ Hst) as (_ & Hfresh & _).
  - rewrite Hfs. apply fs_made_inside.
Qed.

Lemma negative_delay_fails_at_first_retry_witness :
  exists s',
    _download_sch_database (env0 (fails_then_ok 1 TimeoutError "new") MoveDone)
      (S 9) cache_dir 3 (-1) (state0 (cached 200))
    = (Raise (ValueError "sleep length must be non-negative"), s') /\
    st_attempts s' = S (st_attempts (state0 (cached 200))) /\
    st_log s' = EvUnlink staging0 :: EvWarn retry_warning :: EvUrlretrieve remote_link staging0
                :: EvTemp staging0 :: EvMakedirs cache_dir :: EvDownload cache_dir 3 (-1)
                :: st_log (state0 (cached 200)) /\
    st_fs s' !! staging0 = None /\
    st_fs s' !! (cache_dir /: filename REMOTE_SCH_DATASET)
      = st_fs (state0 (cached 200)) !! (cache_dir /: filename REMOTE_SCH_DATASET).
Proof.
  apply (negative_delay_fails_at_first_retry (env0 (fails_then_ok 1 TimeoutError "new") MoveDone)
           9 cache_dir 3 (-1) (state0 (cached 200)) staging0).
  - vm_compute. reflexivity.
  - reflexivity.
  - lia.
  - reflexivity.
Defined.

Section RepeatFacts.
Variable E : Env.
Context `{Pandas}.

Lemma read_sch_frame_Ok_file p s v :
  fst (read_sch_frame p s) = Ok v -> exists c m, st_fs s !! p = Some (File c m).
Proof.
  unfold read_sch_frame, pd_read_csv, read_file, bind, raise.
  destruct (st_fs s !! p) as [[c m|m]|]; try discriminate. eauto.
Qed.

Lemma download_Ok_canonical_file fuel target n d s s' c m :
  _download_sch_database E fuel target n d s = (Ok tt, s') ->
  st_fs s' !! (target /: filename REMOTE_SCH_DATASET) = Some (File c m) ->
  m = now E.
Proof.
  intros Hrun Hfile.
  destruct (download_Ok_inv E _ _ _ _ _ _ Hrun) as (tmp & s3 & payload & Hst & _ & Htmp & Hpub).
  destruct (staging_shape E _ _ _ Hst) as [Hne Hin].
  destruct (publish_Ok E _ _ _ _ _ Hpub Htmp Hne Hin) as (_ & _ & Hsame).
  specialize (Hsame _ _ Hfile). congruence.
Qed.

End RepeatFacts.

(** X7.  After a call of [fetch_sch_database] that downloaded and returned,
    the canonical file is dated by the clock of that call; so a later call
    that is not forced, made while the clock is within the grace period of
    that date, returns the same frame and does nothing else: no transfer,
    whatever the network, and no change of state. *)
Theorem refreshed_cache_is_served `{Pandas} (E : Env) (fuel : nat) (dh : option string)
    (dim : bool) (G : Z) (force : bool) (n : Z) (d : Q) (s : State) (v : pyval) (s' : State) :
  fetch_sch_database E fuel dh dim G force n d s = (Ok v, s') ->
  downloads s' = S (downloads s) ->
  exists payload,
    st_fs s' !! sch_file_path_of E dh = Some (File payload (now E)) /\
    forall (E' : Env) (fuel' : nat) (dim' : bool) (n' : Z) (d' : Q),
      sch_file_path_of E' dh = sch_file_path_of E dh ->
      timedelta_days (now E' - now E) <= G ->
      fetch_sch_database E' fuel' dh dim' G false n' d' s' = (Ok v, s').
Proof.
  intros Hrun Hdl.
  pose proof Hrun as Hrun0. rewrite fetch_sch_database_eq in Hrun. unfold bind at 1 in Hrun.
  destruct (refresh_cache E fuel (data_home_of E dh) dim G force n d s) as [[[]|e|] s1] eqn:Href;
    try discriminate.
  pose proof (read_sch_frame_state (sch_file_path_of E dh) s1) as Hst.
  rewrite Hrun in Hst. cbn in Hst. subst s1.
  destruct (read_sch_frame_Ok_file (sch_file_path_of E dh) s' v) as (c & m & Hfile);
    [by rewrite Hrun|].
  assert (Hm : m = now E).
  { destruct (refresh_cache_shape E fuel (data_home_of E dh) dim G force n d s)
      as [[msg Heq]|(r & Heq & _)]; rewrite Heq in Href.
    - exact (download_Ok_canonical_file E _ _ _ _ _ _ c m Href Hfile).
    - inversion Href; subst. lia. }
  subst m. exists c. split; [exact Hfile|].
  intros E' fuel' dim' n' d' Hpath Hage.
  rewrite fetch_sch_database_eq. unfold bind at 1.
  rewrite <- Hpath in Hfile. pose proof Hfile as Hfile'. rewrite sch_file_path_of_eq in Hfile'.
  rewrite (refresh_cache_present E' _ _ _ _ _ _ _ _ _ Hfile'). cbn [st_mtime].
  destruct (timedelta_days (now E' - now E) >? G) eqn:Hc; [apply Z.gtb_lt in Hc; lia|].
  by rewrite Hpath.
Qed.

(** A download on day 1000, then a call on day 1100 with a dead network and
    a grace period of 180 days. *)
Lemma refreshed_cache_is_served_witness :
  exists payload,
    st_fs (snd (fetch_sch_database (env0 (always (NetOk "new")) MoveDone) 10 None true 180
                  false 3 1 (state0 ∅)))
      !! sch_file_path_of (env0 (always (NetOk "new")) MoveDone) None
    = Some (File payload (now (env0 (always (NetOk "new")) MoveDone))) /\
    forall (E' : Env) (fuel' : nat) (dim' : bool) (n' : Z) (d' : Q),
      sch_file_path_of E' None = sch_file_path_of (env0 (always (NetOk "new")) MoveDone) None ->
      timedelta_days (now E' - now (env0 (always (NetOk "new")) MoveDone)) <= 180 ->
      fetch_sch_database E' fuel' None dim' 180 false n' d'
        (snd (fetch_sch_database (env0 (always (NetOk "new")) MoveDone) 10 None true 180
                false 3 1 (state0 ∅)))
      = (Ok (VFrame ("new" : DataFrame)),
         snd (fetch_sch_database (env0 (always (NetOk "new")) MoveDone) 10 None true 180
                false 3 1 (state0 ∅))).
Proof.
  apply (refreshed_cache_is_served (env0 (always (NetOk "new")) MoveDone) 10 None true 180
           false 3 1 (state0 ∅)).
  - vm_compute. reflexivity.
  - vm_compute. reflexivity.
Defined.

(** * The loaders of config.py *)

Section LoaderFacts.
Variable E : Env.
Context `{Tomllib}.
Variable module_dir : string.
Variable exists_other : toml -> py_exn + bool.

Lemma load_config_file_eq config_file :
  load_config_file E module_dir exists_other config_file =
  (config <~ read_config exists_other
               (match config_file with
                | None => join module_dir "config.toml"
                | Some f => f
                end) ;;
   _ <~ validate_cloud exists_other config ;;
   finish_config E exists_other config).
Proof. reflexivity. Qed.

Lemma os_path_exists_state v s : snd (os_path_exists exists_other v s) = s.
Proof. unfold os_path_exists. destruct v; try reflexivity; by destruct (exists_other _). Qed.

Lemma os_path_exists_str_Some f fs :
  os_path_exists_str f fs = true -> is_Some (fs !! Path_of_string f).
Proof.
  unfold os_path_exists_str.
  destruct (bool_decide (f = EmptyString) || has_nul f); [discriminate|].
  destruct (fs !! Path_of_string f); [eauto|discriminate].
Qed.

(** Reading the configuration never changes the state, and returns a
    document exactly when the file holds it. *)
Lemma read_config_state f s : snd (read_config exists_other f s) = s.
Proof.
  unfold read_config, bindL, os_path_exists, raiseL, retL, lift, read_file, tomllib_load.
  destruct (os_path_exists_str f (st_fs s)); cbn; [|reflexivity].
  destruct (st_fs s !! Path_of_string f) as [[c m|m]|]; try reflexivity.
  by destruct (tomllib_loads c).
Qed.

Lemma read_config_Returned f s document :
  fst (read_config exists_other f s) = Returned document <->
  holds_document f document (st_fs s).
Proof.
  unfold read_config, holds_document, bindL, os_path_exists, raiseL, retL, lift, read_file,
    tomllib_load.
  destruct (os_path_exists_str f (st_fs s)) eqn:Hex; cbn.
  - destruct (st_fs s !! Path_of_string f) as [[c m|m]|]; cbn.
    + destruct (tomllib_loads c) as [msg|doc'] eqn:Hp; cbn; split.
      * discriminate.
      * intros (_ & c' & m' & [= <- <-] & Hp'). congruence.
      * intros [= <-]. eauto 6.
      * intros (_ & c' & m' & [= <- <-] & Hp'). congruence.
    + split; [discriminate|]. intros (_ & c' & m' & Hf & _). discriminate.
    + split; [discriminate|]. intros (_ & c' & m' & Hf & _). discriminate.
  - split; [discriminate|]. intros [Hf _]. discriminate.
Qed.

Lemma validate_cloud_state document s : snd (validate_cloud exists_other document s) = s.
Proof.
  unfold validate_cloud, bindL, py_get, raiseL, retL.
  destruct (document !! "cloud") as [[| | | | | |cloud]|]; try reflexivity.
  destruct (truthy_opt (cloud !! "cloud_annotation_get_folder")
            && truthy_opt (cloud !! "cloud_annotation_post_folder")); cbn; [|reflexivity].
  destruct (cloud !! "cloud_annotation_get_folder") as [g|]; cbn.
  - pose proof (os_path_exists_state g s) as Hg.
    destruct (os_path_exists exists_other g s) as [[ge|e|] s1]; cbn in Hg; subst s1;
      try reflexivity.
    destruct (cloud !! "cloud_annotation_post_folder") as [p|]; cbn.
    + pose proof (os_path_exists_state p s) as Hp.
      destruct (os_path_exists exists_other p s) as [[pe|e|] s1]; cbn in Hp; subst s1;
        try reflexivity.
      by destruct (ge && pe).
    + by destruct (ge && false).
  - destruct (cloud !! "cloud_annotation_post_folder") as [p|]; cbn; [|reflexivity].
    pose proof (os_path_exists_state p s) as Hp.
    destruct (os_path_exists exists_other p s) as [[pe|e|] s1]; cbn in Hp; subst s1;
      reflexivity.
Qed.

Lemma os_path_exists_eta v s :
  os_path_exists exists_other v s = (fst (os_path_exists exists_other v s), s).
Proof.
  rewrite <- (os_path_exists_state v s) at 3. apply surjective_pairing.
Qed.

Lemma validate_cloud_Returned document s :
  fst (validate_cloud exists_other document s) = Returned tt <->
  cloud_validated exists_other document s.
Proof.
  split.
  - unfold validate_cloud, cloud_validated, bindL, py_get, raiseL, retL.
    destruct (document !! "cloud") as [[| | | | | |cloud]|]; try discriminate.
    destruct (cloud !! "cloud_annotation_get_folder") as [g|] eqn:Hg; [|discriminate].
    destruct (cloud !! "cloud_annotation_post_folder") as [p|] eqn:Hp;
      [|cbn; rewrite andb_false_r; discriminate].
    cbn [truthy_opt]. destruct (truthy g) eqn:Tg; [|discriminate].
    destruct (truthy p) eqn:Tp; [|discriminate]. cbn [andb negb].
    rewrite (os_path_exists_eta g s).
    destruct (fst (os_path_exists exists_other g s)) as [[|]|e|] eqn:Xg; try discriminate;
      rewrite (os_path_exists_eta p s);
      destruct (fst (os_path_exists exists_other p s)) as [[|]|e'|] eqn:Xp; try discriminate.
    intros _. exists cloud, g, p. by repeat split.
  - intros (cloud & g & p & Hcloud & Hg & Hp & Tg & Tp & Xg & Xp).
    unfold validate_cloud, bindL, py_get, raiseL, retL.
    rewrite Hcloud, Hg, Hp. cbn [truthy_opt]. rewrite Tg, Tp. cbn [andb negb].
    rewrite (os_path_exists_eta g s), Xg, (os_path_exists_eta p s), Xp. reflexivity.
Qed.

Lemma load_api_credentiails_state creds_file s :
  snd (load_api_credentiails E exists_other creds_file s) = s.
Proof.
  unfold load_api_credentiails, bindL, py_expanduser, os_path_exists, raiseL, retL, lift,
    read_file, tomllib_load.
  destruct creds_file as [[]|]; try reflexivity.
  all: match goal with
       | |- context [os_path_exists_str ?f ?fs] => destruct (os_path_exists_str f fs)
       end; cbn; try reflexivity.
  all: match goal with
       | |- context [st_fs ?st !! ?q] => destruct (st_fs st !! q) as [[c m|m]|]
       end; try reflexivity.
  all: by destruct (tomllib_loads c).
Qed.

End LoaderFacts.

Section LoaderRuns.
Variable E : Env.
Context `{Tomllib}.
Variable module_dir : string.
Variable exists_other : toml -> py_exn + bool.

Lemma read_config_run f document s :
  holds_document f document (st_fs s) ->
  read_config exists_other f s = (Returned document, s).
Proof.
  intros Hdoc. apply (read_config_Returned exists_other) in Hdoc.
  pose proof (read_config_state exists_other f s) as Hst.
  destruct (read_config exists_other f s) as [r s1]. cbn in *. by subst.
Qed.

Lemma validate_cloud_run document s :
  cloud_validated exists_other document s ->
  validate_cloud exists_other document s = (Returned tt, s).
Proof.
  intros Hval. apply validate_cloud_Returned in Hval.
  pose proof (validate_cloud_state exists_other document s) as Hst.
  destruct (validate_cloud exists_other document s) as [r s1]. cbn in *. by subst.
Qed.

(** The credentials that are returned are the document of the file that the
    argument, or the default, names. *)
Lemma load_api_credentiails_Returned creds_file s creds :
  fst (load_api_credentiails E exists_other creds_file s) = Returned creds ->
  exists name,
    (creds_file = None /\ name = join "~" "creds.ini" \/ creds_file = Some (TStr name)) /\
    holds_document (expanduser E name) creds (st_fs s).
Proof.
  unfold load_api_credentiails, holds_document, bindL, py_expanduser, os_path_exists, raiseL,
    retL, lift, read_file, tomllib_load.
  assert (Hstr : forall name,
            fst (let (r, s') := (Returned (os_path_exists_str (expanduser E name) (st_fs s)), s) in
                 match r with
                 | Returned a =>
                     (if negb a
                      then fun s0 : State =>
                             (Raised (Builtin (FileNotFoundError
                                ("Credentials file not found: " +:+ expanduser E name))), s0)
                      else fun s0 : State =>
                             let (r0, s'0) :=
                               let (o, s'0) :=
                                 match st_fs s0 !! Path_of_string (expanduser E name) with
                                 | Some (File c _) => (Ok c, s0)
                                 | Some (Dir _) =>
                                     (Raise (IsADirectoryError
                                               (Path_str (Path_of_string (expanduser E name)))), s0)
                                 | None =>
                                     (Raise (FileNotFoundError
                                               (Path_str (Path_of_string (expanduser E name)))), s0)
                                 end in
                               match o with
                               | Ok a0 => (Returned a0, s'0)
                               | Raise e => (Raised (Builtin e), s'0)
                               | OutOfFuel => (Unfinished, s'0)
                               end in
                             match r0 with
                             | Returned a0 =>
                                 let (r1, s'1) :=
                                   match tomllib_loads a0 with
                                   | inl msg => fun s1 : State =>
                                                  (Raised (Builtin (ValueError msg)), s1)
                                   | inr document => fun s1 : State => (Returned document, s1)
                                   end s'0 in
                                 match r1 with
                                 | Returned a1 => (Returned a1, s'1)
                                 | Raised e => (Raised e, s'1)
                                 | Unfinished => (Unfinished, s'1)
                                 end
                             | Raised e => (Raised e, s'0)
                             | Unfinished => (Unfinished, s'0)
                             end) s'
                 | Raised e => (Raised e, s')
                 | Unfinished => (Unfinished, s')
                 end) = Returned creds ->
            os_path_exists_str (expanduser E name) (st_fs s) = true /\
            exists c m, st_fs s !! Path_of_string (expanduser E name) = Some (File c m) /\
                        tomllib_loads c = inr creds).
  { intros name.
    destruct (os_path_exists_str (expanduser E name) (st_fs s)); cbn; [|discriminate].
    destruct (st_fs s !! Path_of_string (expanduser E name)) as [[c m|m]|]; try discriminate.
    destruct (tomllib_loads c) as [msg|doc] eqn:Hp; cbn; [discriminate|].
    intros [= <-]. eauto. }
  destruct creds_file as [[name| | | | | |]|]; try discriminate.
  - intros Hrun. exists name. split; [by right|]. by apply Hstr.
  - intros Hrun. exists (join "~" "creds.ini"). split; [by left|]. by apply Hstr.
Qed.

(** The last part of [load_config_file], once the data home is resolved:
    whatever the credentials step does, the state is the one [_get_data_home]
    left; and what is returned is the document with its two entries set. *)
Lemma finish_config_run document explicit r1 s1 s :
  document !! "datasets" = TStr <$> explicit ->
  config._get_data_home E explicit s = (r1, s1) ->
  snd (finish_config E exists_other document s) = s1 /\
  (forall config,
     fst (finish_config E exists_other document s) = Returned config ->
     exists paths creds,
       r1 = Ok paths /\
       fst (load_api_credentiails E exists_other (named_creds_file document) s1)
       = Returned creds /\
       config = <["credentials" := TDict creds]>
                  (<["datasets" := TDict (TStr <$> paths)]> document)) /\
  (forall e, r1 = Raise e ->
     fst (finish_config E exists_other document s) = Raised (Builtin e)) /\
  (forall paths, r1 = Ok paths -> document !! "credentials" = None ->
     fst (finish_config E exists_other document s)
     = match fst (load_api_credentiails E exists_other None s1) with
       | Returned creds =>
           Returned (<["credentials" := TDict creds]>
                       (<["datasets" := TDict (TStr <$> paths)]> document))
       | Raised e => Raised e
       | Unfinished => Unfinished
       end).
Proof.
  intros Hds Hhome.
  assert (Hcall : call_get_data_home E (document !! "datasets") s
                  = lift (config._get_data_home E explicit) s).
  { rewrite Hds. by destruct explicit. }
  destruct (finish_config E exists_other document s) as [rf sf] eqn:Hfin. cbn [fst snd].
  revert Hfin.
  unfold finish_config. unfold bindL at 1. rewrite Hcall. unfold lift. rewrite Hhome.
  destruct r1 as [paths|e|];
    [|intros [= <- <-];
      (split; [reflexivity|
        split; [intros config; discriminate|
          split; [intros e' He; congruence|intros paths' He; discriminate]]])..].
  unfold bindL at 1.
  rewrite lookup_insert_ne by discriminate.
  assert (Hstep : exists r, match document !! "credentials" with
                            | Some credentials =>
                                if truthy credentials then py_get credentials "creds_file"
                                else retL None
                            | None => retL None
                            end s1 = (r, s1) /\
                            (forall o, r = Returned o -> o = named_creds_file document) /\
                            (document !! "credentials" = None -> r = Returned None)).
  { unfold named_creds_file.
    destruct (document !! "credentials") as [cr|];
      [|exists (Returned None); split; [reflexivity|split; [by intros o [= <-]|reflexivity]]].
    destruct (truthy cr) eqn:Htruthy.
    - unfold py_get, retL.
      destruct cr; (eexists; split; [reflexivity|split; [|discriminate]]); try discriminate.
      rewrite Htruthy. by intros o [= <-].
    - exists (Returned None). split; [reflexivity|split; [|discriminate]].
      intros o [= <-]. destruct cr; try reflexivity. by rewrite Htruthy. }
  destruct Hstep as (r & Hstep & Hnamed & Hnone). rewrite Hstep.
  destruct r as [creds_file|e|].
  2,3: intros [= <- <-];
      (split; [reflexivity|
        split; [intros config; discriminate|
          split; [intros e' He; congruence|]]]);
      intros paths' _ Hcr; specialize (Hnone Hcr); discriminate.
  rewrite (Hnamed creds_file eq_refl) in *.
  unfold bindL at 1.
  pose proof (load_api_credentiails_state E exists_other (named_creds_file document) s1) as Hst.
  destruct (load_api_credentiails E exists_other (named_creds_file document) s1)
    as [r2 s2] eqn:Hload.
  cbn in Hst. subst s2. cbn [retL].
  assert (Hlast : forall paths', Ok paths = Ok paths' -> document !! "credentials" = None ->
            match r2 with
            | Returned creds =>
                (Returned (<["credentials" := TDict creds]>
                             (<["datasets" := TDict (TStr <$> paths)]> document)), s1)
            | Raised e => (Raised e, s1)
            | Unfinished => (Unfinished, s1)
            end = (rf, sf) ->
            rf = match fst (load_api_credentiails E exists_other None s1) with
                 | Returned creds =>
                     Returned (<["credentials" := TDict creds]>
                                 (<["datasets" := TDict (TStr <$> paths')]> document))
                 | Raised e => Raised e
                 | Unfinished => Unfinished
                 end).
  { intros paths' [= <-] Hcr Hrun.
    assert (Hn : named_creds_file document = None) by (unfold named_creds_file; by rewrite Hcr).
    rewrite Hn in Hload. rewrite Hload. cbn [fst].
    destruct r2; by injection Hrun as <- _. }
  intros Hrun.
  split; [destruct r2; by injection Hrun as _ <-|].
  split; [|split; [intros e' He; discriminate|intros paths' Hp Hcr; exact (Hlast paths' Hp Hcr Hrun)]].
  intros config ->. destruct r2 as [creds|e|]; try discriminate.
  injection Hrun as <-. exists paths, creds. by repeat split.
Qed.

Lemma call_get_data_home_rejects v s :
  (forall p, v <> TStr p) ->
  call_get_data_home E (Some v) s
  = (Raised (Builtin (TypeError ("expected str, bytes or os.PathLike object, not "
                                 +:+ type_name v))), s).
Proof. intros Hv. destruct v; try reflexivity. by destruct (Hv s0). Qed.

(** What a run of [load_config_file] that returned went through. *)
Lemma load_config_file_Returned_inv config_file s config s' :
  load_config_file E module_dir exists_other config_file s = (Returned config, s') ->
  exists document explicit paths creds,
    holds_document (match config_file with
                    | None => join module_dir "config.toml"
                    | Some f => f
                    end) document (st_fs s) /\
    cloud_validated exists_other document s /\
    document !! "datasets" = TStr <$> explicit /\
    config._get_data_home E explicit s = (Ok paths, s') /\
    fst (load_api_credentiails E exists_other (named_creds_file document) s') = Returned creds /\
    config = <["credentials" := TDict creds]>
               (<["datasets" := TDict (TStr <$> paths)]> document).
Proof.
  rewrite load_config_file_eq. unfold bindL at 1.
  set (f := match config_file with None => join module_dir "config.toml" | Some f => f end).
  pose proof (read_config_state exists_other f s) as Hs1.
  pose proof (read_config_Returned exists_other f s) as Hdoc.
  destruct (read_config exists_other f s) as [[document|e|] s1]; cbn in Hs1; subst s1;
    try discriminate.
  unfold bindL at 1.
  pose proof (validate_cloud_state exists_other document s) as Hs2.
  pose proof (validate_cloud_Returned exists_other document s) as Hval.
  destruct (validate_cloud exists_other document s) as [[[]|e|] s2]; cbn in Hs2; subst s2;
    try discriminate.
  intros Hfin.
  assert (Hds : exists explicit, document !! "datasets" = TStr <$> explicit).
  { destruct (document !! "datasets") as [v|] eqn:Hv; [|by exists None].
    destruct v as [p| | | | | |]; [by exists (Some p)|..];
      exfalso; revert Hfin; unfold finish_config; unfold bindL at 1; rewrite Hv;
      rewrite call_get_data_home_rejects by discriminate; discriminate. }
  destruct Hds as [explicit Hds].
  destruct (config._get_data_home E explicit s) as [r1 s1] eqn:Hhome.
  destruct (finish_config_run document explicit r1 s1 s Hds Hhome) as (Hst & Hret & _).
  rewrite Hfin in Hst, Hret. cbn in Hst, Hret. subst s1.
  destruct (Hret config eq_refl) as (paths & creds & Hr1 & Hcreds & Hconfig).
  subst r1.
  exists document, explicit, paths, creds.
  split; [apply Hdoc; reflexivity|].
  split; [apply Hval; reflexivity|].
  split; [exact Hds|].
  split; [exact Hhome|].
  split; [exact Hcreds|exact Hconfig].
Qed.

End LoaderRuns.

Section CredentialsFacts.
Variable E : Env.
Context `{Tomllib}.
Variable exists_other : toml -> py_exn + bool.

(** [load_api_credentiails] on a string, or on nothing, step by step. *)
Lemma load_api_credentiails_run (name : option string) s :
  load_api_credentiails E exists_other (TStr <$> name) s =
  let p := expanduser E (default (join "~" "creds.ini") name) in
  (if os_path_exists_str p (st_fs s) then
     match st_fs s !! Path_of_string p with
     | Some (File c _) =>
         match tomllib_loads c with
         | inl msg => Raised (Builtin (ValueError msg))
         | inr document => Returned document
         end
     | Some (Dir _) => Raised (Builtin (IsADirectoryError (Path_str (Path_of_string p))))
     | None => Raised (Builtin (FileNotFoundError (Path_str (Path_of_string p))))
     end
   else Raised (Builtin (FileNotFoundError ("Credentials file not found: " +:+ p))), s).
Proof.
  assert (Hstr : forall p,
            (present <~ os_path_exists exists_other (TStr p) ;;
             if negb present then
               raiseL (FileNotFoundError ("Credentials file not found: " +:+ p))
             else
               content <~ lift (read_file (Path_of_string p)) ;;
               creds <~ tomllib_load content ;;
               retL creds)%function s =
            (if os_path_exists_str p (st_fs s) then
               match st_fs s !! Path_of_string p with
               | Some (File c _) =>
                   match tomllib_loads c with
                   | inl msg => Raised (Builtin (ValueError msg))
                   | inr document => Returned document
                   end
               | Some (Dir _) =>
                   Raised (Builtin (IsADirectoryError (Path_str (Path_of_string p))))
               | None => Raised (Builtin (FileNotFoundError (Path_str (Path_of_string p))))
               end
             else Raised (Builtin (FileNotFoundError ("Credentials file not found: " +:+ p))),
             s)).
  { intros p. unfold bindL, os_path_exists, raiseL, retL, lift, read_file, tomllib_load.
    destruct (os_path_exists_str p (st_fs s)); cbn; [|reflexivity].
    destruct (st_fs s !! Path_of_string p) as [[c m|m]|]; try reflexivity.
    by destruct (tomllib_loads c). }
  destruct name as [name|]; exact (Hstr _).
Qed.

End CredentialsFacts.

(** X8. [load_api_credentiails] reads and writes nothing but the file named by
    its argument once the tilde is expanded, [~/creds.ini] when there is no
    argument: it leaves the state as it is, raises [FileNotFoundError] with
    the expanded name when [os.path.exists] does not find that file, and
    returns a document exactly when the file is found and parses as it. *)
Theorem credentials_come_from_the_expanded_file (E : Env) `{Tomllib}
    (exists_other : toml -> py_exn + bool) (name : option string) (s : State) :
  let p := expanduser E (default (join "~" "creds.ini") name) in
  let run := load_api_credentiails E exists_other (TStr <$> name) s in
  snd run = s /\
  (os_path_exists_str p (st_fs s) = false ->
   fst run = Raised (Builtin (FileNotFoundError ("Credentials file not found: " +:+ p)))) /\
  (forall creds, fst run = Returned creds <-> holds_document p creds (st_fs s)).
Proof.
  cbv zeta. rewrite load_api_credentiails_run. cbv zeta. cbn [fst snd].
  set (p := expanduser E (default (join "~" "creds.ini") name)).
  split; [reflexivity|]. split.
  - by intros ->.
  - intros creds. unfold holds_document. split.
    + destruct (os_path_exists_str p (st_fs s)); [|discriminate].
      destruct (st_fs s !! Path_of_string p) as [[c m|m]|]; try discriminate.
      destruct (tomllib_loads c) as [msg|document] eqn:Hparse; [discriminate|].
      intros [= <-]. eauto.
    + intros (-> & c & m & -> & ->). reflexivity.
Qed.

Lemma credentials_come_from_the_expanded_file_witness :
  snd (load_api_credentiails host0 no_descriptor None (state0 (with_creds "CONFIG")))
  = state0 (with_creds "CONFIG") /\
  fst (load_api_credentiails host0 no_descriptor (Some (TStr "~/nothing.ini"))
         (state0 (with_creds "CONFIG")))
  = Raised (Builtin (FileNotFoundError "Credentials file not found: /home/u/nothing.ini")) /\
  fst (load_api_credentiails host0 no_descriptor None (state0 (with_creds "CONFIG")))
  = Returned creds_document.
Proof.
  split; [|split].
  - apply (credentials_come_from_the_expanded_file host0 no_descriptor None
             (state0 (with_creds "CONFIG"))).
  - apply (credentials_come_from_the_expanded_file host0 no_descriptor (Some "~/nothing.ini")
             (state0 (with_creds "CONFIG"))).
    vm_compute. reflexivity.
  - apply (credentials_come_from_the_expanded_file host0 no_descriptor None
             (state0 (with_creds "CONFIG"))).
    split; [vm_compute; reflexivity|].
    exists "CREDS", 0. split; vm_compute; reflexivity.
Defined.

Section LoaderSteps.
Variable E : Env.
Context `{Tomllib}.
Variable module_dir : string.
Variable exists_other : toml -> py_exn + bool.

Lemma load_config_file_name config_file :
  match config_file with
  | Some f => f
  | None => join module_dir "config.toml"
  end = default (join module_dir "config.toml") config_file.
Proof. by destruct config_file. Qed.

(** Once the document is read, the call goes on with the checks. *)
Lemma load_config_file_read config_file document s :
  holds_document (default (join module_dir "config.toml") config_file) document (st_fs s) ->
  load_config_file E module_dir exists_other config_file s
  = (_ <~ validate_cloud exists_other document ;; finish_config E exists_other document)%function s.
Proof.
  intros Hdoc. rewrite load_config_file_eq, load_config_file_name. unfold bindL at 1.
  by rewrite (read_config_run exists_other _ document s Hdoc).
Qed.

(** Once the checks are passed, the call goes on with the data home. *)
Lemma load_config_file_validated config_file document s :
  holds_document (default (join module_dir "config.toml") config_file) document (st_fs s) ->
  cloud_validated exists_other document s ->
  load_config_file E module_dir exists_other config_file s
  = finish_config E exists_other document s.
Proof.
  intros Hdoc Hval. rewrite (load_config_file_read _ _ _ Hdoc). unfold bindL at 1.
  by rewrite (validate_cloud_run exists_other document s Hval).
Qed.

End LoaderSteps.

(** X9. What [load_config_file] refuses, and how.  The configuration file is
    looked up under the name given, with no tilde expanded, or as
    [config.toml] beside the module; when it is not found the call raises
    [FileNotFoundError] with that name.  A document with no [cloud] entry is
    a [ValueError]; a [cloud] entry that is not a table is an
    [AttributeError]; a folder entry that is missing or falsy is a
    [ValueError]; two folder names of which one is not found are a
    [FileNotFoundError].  In each case the state is left as it was. *)
Theorem load_config_file_rejects (E : Env) `{Tomllib} (module_dir : string)
    (exists_other : toml -> py_exn + bool) (config_file : option string) (s : State) :
  let f := default (join module_dir "config.toml") config_file in
  let run := load_config_file E module_dir exists_other config_file s in
  (os_path_exists_str f (st_fs s) = false ->
   run = (Raised (Builtin (FileNotFoundError ("Config file not found: " +:+ f))), s)) /\
  (forall document,
     holds_document f document (st_fs s) ->
     (document !! "cloud" = None ->
      run = (Raised (Builtin (ValueError "Cloud configuration is missing in the config file.")),
             s)) /\
     (forall v,
        document !! "cloud" = Some v ->
        (forall d, v <> TDict d) ->
        run = (Raised (AttributeError ("'" +:+ type_name v +:+ "' object has no attribute 'get'")),
               s)) /\
     (forall cloud,
        document !! "cloud" = Some (TDict cloud) ->
        truthy_opt (cloud !! "cloud_annotation_get_folder")
        && truthy_opt (cloud !! "cloud_annotation_post_folder") = false ->
        run = (Raised (Builtin (ValueError
                 "GET/POST cloud configuration is missing in the config file.")), s)) /\
     (forall cloud g p,
        document !! "cloud" = Some (TDict cloud) ->
        cloud !! "cloud_annotation_get_folder" = Some (TStr g) ->
        cloud !! "cloud_annotation_post_folder" = Some (TStr p) ->
        g <> EmptyString ->
        p <> EmptyString ->
        os_path_exists_str g (st_fs s) && os_path_exists_str p (st_fs s) = false ->
        run = (Raised (Builtin (FileNotFoundError
                 "GET/POST cloud configuration folders not found. Check config file.")), s))).
Proof.
  cbv zeta. set (f := default (join module_dir "config.toml") config_file).
  split.
  - intros Hmissing. rewrite load_config_file_eq, load_config_file_name. fold f.
    unfold bindL at 1. unfold read_config, bindL, os_path_exists.
    by rewrite Hmissing.
  - intros document Hdoc.
    rewrite (load_config_file_read E module_dir exists_other config_file document s Hdoc).
    split; [|split; [|split]].
    + intros Hcloud. unfold bindL at 1. unfold validate_cloud. by rewrite Hcloud.
    + intros v Hcloud Hv. unfold bindL at 1. unfold validate_cloud. rewrite Hcloud.
      unfold bindL, py_get.
      destruct v as [| | | | | |d]; try reflexivity. by destruct (Hv d).
    + intros cloud Hcloud Hfalsy. unfold bindL at 1. unfold validate_cloud. rewrite Hcloud.
      unfold bindL, py_get, retL, raiseL. cbv beta iota. by rewrite Hfalsy.
    + intros cloud g p Hcloud Hg Hp Hg_str Hp_str Hfound.
      unfold bindL at 1. unfold validate_cloud. rewrite Hcloud.
      unfold bindL, py_get, retL, raiseL, os_path_exists. cbv beta iota. rewrite Hg, Hp.
      cbn [truthy_opt truthy].
      rewrite !bool_decide_eq_false_2 by assumption. cbn [negb andb]. cbv beta iota.
      by rewrite Hfound.
Qed.

Lemma load_config_file_rejects_witness :
  load_config_file host0 "/pkg" no_descriptor (Some "~/config.toml")
    (state0 {[ ["/"; "home"; "u"; "config.toml"] := File "CONFIG" 0 ]})
  = (Raised (Builtin (FileNotFoundError "Config file not found: ~/config.toml")),
     state0 {[ ["/"; "home"; "u"; "config.toml"] := File "CONFIG" 0 ]}) /\
  load_config_file host0 "/pkg" no_descriptor None (state0 (installed "CREDS"))
  = (Raised (Builtin (ValueError "Cloud configuration is missing in the config file.")),
     state0 (installed "CREDS")) /\
  load_config_file host0 "/pkg" no_descriptor None (state0 (installed "CLOUD IS A STRING"))
  = (Raised (AttributeError "'str' object has no attribute 'get'"),
     state0 (installed "CLOUD IS A STRING")) /\
  load_config_file host0 "/pkg" no_descriptor None (state0 (installed "EMPTY GET FOLDER"))
  = (Raised (Builtin (ValueError "GET/POST cloud configuration is missing in the config file.")),
     state0 (installed "EMPTY GET FOLDER")) /\
  load_config_file host0 "/pkg" no_descriptor None (state0 (installed "NO POST FOLDER ON DISK"))
  = (Raised (Builtin (FileNotFoundError
       "GET/POST cloud configuration folders not found. Check config file.")),
     state0 (installed "NO POST FOLDER ON DISK")).
Proof.
  assert (Hholds : forall text document,
            stored_documents !! text = Some document ->
            holds_document "/pkg/config.toml" document (st_fs (state0 (installed text)))).
  { intros text document Hstored. split; [vm_compute; reflexivity|].
    exists text, 0. split; [vm_compute; reflexivity|].
    cbn. by rewrite Hstored. }
  split; [|split; [|split; [|split]]].
  - apply (load_config_file_rejects host0 "/pkg" no_descriptor (Some "~/config.toml")
             (state0 {[ ["/"; "home"; "u"; "config.toml"] := File "CONFIG" 0 ]})).
    vm_compute. reflexivity.
  - pose proof (load_config_file_rejects host0 "/pkg" no_descriptor None
                  (state0 (installed "CREDS"))) as W.
    cbv zeta in W. destruct W as [_ W].
    destruct (W _ (Hholds "CREDS" _ eq_refl)) as (W1 & _).
    apply W1. vm_compute. reflexivity.
  - pose proof (load_config_file_rejects host0 "/pkg" no_descriptor None
                  (state0 (installed "CLOUD IS A STRING"))) as W.
    cbv zeta in W. destruct W as [_ W].
    destruct (W _ (Hholds "CLOUD IS A STRING" _ eq_refl)) as (_ & W2 & _).
    apply (W2 (TStr "/cloud")); [vm_compute; reflexivity|discriminate].
  - pose proof (load_config_file_rejects host0 "/pkg" no_descriptor None
                  (state0 (installed "EMPTY GET FOLDER"))) as W.
    cbv zeta in W. destruct W as [_ W].
    destruct (W _ (Hholds "EMPTY GET FOLDER" _ eq_refl)) as (_ & _ & W3 & _).
    apply (W3 {[ "cloud_annotation_get_folder" := TStr EmptyString;
                 "cloud_annotation_post_folder" := TStr "/cloud/post" ]});
      vm_compute; reflexivity.
  - pose proof (load_config_file_rejects host0 "/pkg" no_descriptor None
                  (state0 (installed "NO POST FOLDER ON DISK"))) as W.
    cbv zeta in W. destruct W as [_ W].
    destruct (W _ (Hholds "NO POST FOLDER ON DISK" _ eq_refl)) as (_ & _ & _ & W4).
    apply (W4 {[ "cloud_annotation_get_folder" := TStr "/cloud/get";
                 "cloud_annotation_post_folder" := TStr "/cloud/nowhere" ]}
              "/cloud/get" "/cloud/nowhere");
      try discriminate; vm_compute; reflexivity.
Defined.

Section HomeFacts.
Variable E : Env.

(** The table that [_get_data_home] of config.py returns. *)
Lemma config_get_data_home_paths explicit s paths s' :
  config._get_data_home E explicit s = (Ok paths, s') ->
  paths = <["data_home" := Path_str (config_home E explicit)]>
          (<["sch_data_home" := Path_str (config_home E explicit /: "sch")]>
           (<["search_results_data_home" :=
                Path_str (config_home E explicit /: "search_results")]>
            (<["annotation_data_home" :=
                 Path_str (config_home E explicit /: "annotation")]> ∅))).
Proof.
  rewrite config_get_data_home_run. unfold bind, ret.
  destruct (makedirs E (config_home E explicit /: "sch") s) as [[[]|e|] s1];
    try discriminate.
  destruct (makedirs E (config_home E explicit /: "search_results") s1) as [[[]|e|] s2];
    try discriminate.
  destruct (makedirs E (config_home E explicit /: "annotation") s2) as [[[]|e|] s3];
    try discriminate.
  by intros [= <- <-].
Qed.

(** What is on the disk stays there. *)
Lemma config_get_data_home_keep explicit s paths s' q nd :
  config._get_data_home E explicit s = (Ok paths, s') ->
  st_fs s !! q = Some nd -> st_fs s' !! q = Some nd.
Proof.
  intros Hrun Hq.
  destruct (config_get_data_home_Ok E _ _ _ _ Hrun) as (s1 & s2 & H1 & H2 & H3 & _).
  apply (makedirs_keep E _ _ _ _ _ _ H3), (makedirs_keep E _ _ _ _ _ _ H2).
  exact (makedirs_keep E _ _ _ _ _ _ H1 Hq).
Qed.

End HomeFacts.

(** X10. [load_config_file] changes nothing before its checks are passed: a
    call that leaves a state other than the one it found has read a
    document, has found its two cloud folders, and has a [datasets] entry
    that is a string or none; the state it leaves is the one
    [_get_data_home] makes of that entry. *)
Theorem load_config_file_changes_only_after_validation (E : Env) `{Tomllib}
    (module_dir : string) (exists_other : toml -> py_exn + bool)
    (config_file : option string) (s : State) (r : result (gmap string toml)) (s' : State) :
  load_config_file E module_dir exists_other config_file s = (r, s') ->
  s' <> s ->
  exists document explicit,
    holds_document (default (join module_dir "config.toml") config_file) document (st_fs s) /\
    cloud_validated exists_other document s /\
    document !! "datasets" = TStr <$> explicit /\
    s' = snd (config._get_data_home E explicit s).
Proof.
  intros Hrun Hchanged. revert Hrun.
  set (f := default (join module_dir "config.toml") config_file).
  rewrite load_config_file_eq, load_config_file_name. fold f. unfold bindL at 1.
  pose proof (read_config_state exists_other f s) as Hs1.
  pose proof (read_config_Returned exists_other f s) as Hdoc.
  destruct (read_config exists_other f s) as [[document|e|] s1]; cbn in Hs1; subst s1;
    [|intros [= _ <-]; by destruct Hchanged..].
  unfold bindL at 1.
  pose proof (validate_cloud_state exists_other document s) as Hs2.
  pose proof (validate_cloud_Returned exists_other document s) as Hval.
  destruct (validate_cloud exists_other document s) as [[[]|e|] s2]; cbn in Hs2; subst s2;
    [|intros [= _ <-]; by destruct Hchanged..].
  intros Hfin.
  assert (Hds : exists explicit, document !! "datasets" = TStr <$> explicit).
  { destruct (document !! "datasets") as [v|] eqn:Hv; [|by exists None].
    destruct v as [p| | | | | |]; [by exists (Some p)|..];
      exfalso; revert Hfin; unfold finish_config; unfold bindL at 1; rewrite Hv;
      rewrite call_get_data_home_rejects by discriminate;
      intros [= _ <-]; by destruct Hchanged. }
  destruct Hds as [explicit Hds].
  exists document, explicit.
  split; [apply Hdoc; reflexivity|].
  split; [apply Hval; reflexivity|].
  split; [exact Hds|].
  destruct (config._get_data_home E explicit s) as [r1 s1] eqn:Hhome.
  destruct (finish_config_run E exists_other document explicit r1 s1 s Hds Hhome) as (Hst & _).
  rewrite Hfin in Hst. cbn in Hst. by subst s1.
Qed.

Lemma load_config_file_changes_only_after_validation_witness :
  exists document explicit,
    holds_document (default (join "/pkg" "config.toml") None) document
      (st_fs (state0 (with_creds "CONFIG"))) /\
    cloud_validated no_descriptor document (state0 (with_creds "CONFIG")) /\
    document !! "datasets" = TStr <$> explicit /\
    snd (load_config_file host0 "/pkg" no_descriptor None (state0 (with_creds "CONFIG")))
    = snd (config._get_data_home host0 explicit (state0 (with_creds "CONFIG"))).
Proof.
  apply (load_config_file_changes_only_after_validation host0 "/pkg" no_descriptor None
           (state0 (with_creds "CONFIG"))
           (fst (load_config_file host0 "/pkg" no_descriptor None
                   (state0 (with_creds "CONFIG"))))).
  - apply surjective_pairing.
  - intros Heq. apply (f_equal st_log) in Heq. vm_compute in Heq. discriminate Heq.
Defined.

(** X11. A [datasets] entry of the configuration that is not a string, a
    table for instance, is a [TypeError]: the value is handed to
    [_get_data_home] as the path of the data home.  No directory is made. *)
Theorem datasets_entry_must_be_a_string (E : Env) `{Tomllib}
    (module_dir : string) (exists_other : toml -> py_exn + bool)
    (config_file : option string) (s : State) (document : gmap string toml) (v : toml) :
  holds_document (default (join module_dir "config.toml") config_file) document (st_fs s) ->
  cloud_validated exists_other document s ->
  document !! "datasets" = Some v ->
  (forall p, v <> TStr p) ->
  load_config_file E module_dir exists_other config_file s
  = (Raised (Builtin (TypeError ("expected str, bytes or os.PathLike object, not "
                                 +:+ type_name v))), s).
Proof.
  intros Hdoc Hval Hds Hv.
  rewrite (load_config_file_validated E module_dir exists_other config_file document s Hdoc Hval).
  unfold finish_config. unfold bindL at 1. rewrite Hds.
  by rewrite (call_get_data_home_rejects E v s Hv).
Qed.

Lemma datasets_entry_must_be_a_string_witness :
  load_config_file host0 "/pkg" no_descriptor None (state0 (installed "DATASETS TABLE"))
  = (Raised (Builtin (TypeError "expected str, bytes or os.PathLike object, not dict")),
     state0 (installed "DATASETS TABLE")).
Proof.
  apply (datasets_entry_must_be_a_string host0 "/pkg" no_descriptor None
           (state0 (installed "DATASETS TABLE"))
           (<[ "datasets" := TDict {[ "data_home" := TStr "/srv/data" ]} ]> config_document)
           (TDict {[ "data_home" := TStr "/srv/data" ]})).
  - split; [vm_compute; reflexivity|].
    exists "DATASETS TABLE", 0. split; vm_compute; reflexivity.
  - exists {[ "cloud_annotation_get_folder" := TStr "/cloud/get";
              "cloud_annotation_post_folder" := TStr "/cloud/post" ]},
      (TStr "/cloud/get"), (TStr "/cloud/post").
    repeat split; vm_compute; reflexivity.
  - vm_compute. reflexivity.
  - discriminate.
Defined.

(** X12. What [load_config_file] returns.  The configuration is the document
    of the file with two entries replaced: [datasets] by the four paths of
    the data home, taken from the [datasets] string of the document, else
    from [SCH_DATAHOME], else the default; and [credentials] by the document
    of the credentials file, the one that [credentials.creds_file] names,
    else [~/creds.ini].  The three folders of the data home are there with
    their parents, and the regular files are those there were. *)
Theorem load_config_file_returns (E : Env) `{Tomllib}
    (module_dir : string) (exists_other : toml -> py_exn + bool)
    (config_file : option string) (s : State) (config : gmap string toml) (s' : State) :
  load_config_file E module_dir exists_other config_file s = (Returned config, s') ->
  exists document explicit creds name,
    holds_document (default (join module_dir "config.toml") config_file) document (st_fs s) /\
    document !! "datasets" = TStr <$> explicit /\
    (named_creds_file document = None /\ name = join "~" "creds.ini" \/
     named_creds_file document = Some (TStr name)) /\
    holds_document (expanduser E name) creds (st_fs s') /\
    config =
      <["credentials" := TDict creds]>
        (<["datasets" :=
             TDict {[ "data_home" := TStr (Path_str (config_home E explicit));
                      "sch_data_home" := TStr (Path_str (config_home E explicit /: "sch"));
                      "search_results_data_home" :=
                        TStr (Path_str (config_home E explicit /: "search_results"));
                      "annotation_data_home" :=
                        TStr (Path_str (config_home E explicit /: "annotation")) ]}]>
           document) /\
    all_dirs (st_fs s') (config_home E explicit /: "sch") /\
    all_dirs (st_fs s') (config_home E explicit /: "search_results") /\
    all_dirs (st_fs s') (config_home E explicit /: "annotation") /\
    (forall q c m, st_fs s' !! q = Some (File c m) <-> st_fs s !! q = Some (File c m)).
Proof.
  intros Hrun.
  destruct (load_config_file_Returned_inv E module_dir exists_other config_file s config s' Hrun)
    as (document & explicit & paths & creds & Hdoc & Hval & Hds & Hhome & Hcreds & Hconfig).
  rewrite load_config_file_name in Hdoc.
  destruct (load_api_credentiails_Returned E exists_other _ _ _ Hcreds) as (name & Hname & Hfile).
  destruct (config_get_data_home_fs E _ _ _ _ Hhome) as (Hd1 & Hd2 & Hd3 & Hfiles).
  exists document, explicit, creds, name.
  split; [exact Hdoc|]. split; [exact Hds|].
  split.
  { destruct Hname as [[Hn ->]|Hn]; [by left|by right]. }
  split; [exact Hfile|].
  split.
  { rewrite Hconfig. rewrite (config_get_data_home_paths E _ _ _ _ Hhome).
    do 2 f_equal. }
  split; [exact Hd1|]. split; [exact Hd2|]. split; [exact Hd3|exact Hfiles].
Qed.

Lemma load_config_file_returns_witness :
  exists document explicit creds name,
    holds_document (default (join "/pkg" "config.toml") None) document
      (st_fs (state0 (with_creds "CONFIG"))) /\
    document !! "datasets" = TStr <$> explicit /\
    (named_creds_file document = None /\ name = join "~" "creds.ini" \/
     named_creds_file document = Some (TStr name)) /\
    holds_document (expanduser host0 name) creds
      (st_fs (snd (load_config_file host0 "/pkg" no_descriptor None
                     (state0 (with_creds "CONFIG"))))) /\
    <["credentials" := TDict creds_document]>
      (<["datasets" :=
           TDict {[ "data_home" := TStr "/home/u/sch_tools/datasets";
                    "sch_data_home" := TStr "/home/u/sch_tools/datasets/sch";
                    "search_results_data_home" :=
                      TStr "/home/u/sch_tools/datasets/search_results";
                    "annotation_data_home" :=
                      TStr "/home/u/sch_tools/datasets/annotation" ]}]>
         config_document) =
      <["credentials" := TDict creds]>
        (<["datasets" :=
             TDict {[ "data_home" := TStr (Path_str (config_home host0 explicit));
                      "sch_data_home" := TStr (Path_str (config_home host0 explicit /: "sch"));
                      "search_results_data_home" :=
                        TStr (Path_str (config_home host0 explicit /: "search_results"));
                      "annotation_data_home" :=
                        TStr (Path_str (config_home host0 explicit /: "annotation")) ]}]>
           document) /\
    all_dirs (st_fs (snd (load_config_file host0 "/pkg" no_descriptor None
                            (state0 (with_creds "CONFIG")))))
      (config_home host0 explicit /: "sch") /\
    all_dirs (st_fs (snd (load_config_file host0 "/pkg" no_descriptor None
                            (state0 (with_creds "CONFIG")))))
      (config_home host0 explicit /: "search_results") /\
    all_dirs (st_fs (snd (load_config_file host0 "/pkg" no_descriptor None
                            (state0 (with_creds "CONFIG")))))
      (config_home host0 explicit /: "annotation") /\
    (forall q c m,
       st_fs (snd (load_config_file host0 "/pkg" no_descriptor None
                     (state0 (with_creds "CONFIG")))) !! q = Some (File c m) <->
       st_fs (state0 (with_creds "CONFIG")) !! q = Some (File c m)).
Proof.
  apply (load_config_file_returns host0 "/pkg" no_descriptor None
           (state0 (with_creds "CONFIG"))).
  vm_compute. reflexivity.
Defined.

(** X13. The constructor of [SCHToolsDatasets] refuses every configuration
    that [load_config_file] returns: the [datasets] table and its
    [sch_data_home] entry are there, so the path is passed to
    [fetch_sch_database] by position, which is a [TypeError].  The state is
    the one the loader left. *)
Theorem loaded_configuration_stops_the_constructor `{Pandas} (E : Env) `{Tomllib}
    (module_dir : string) (exists_other : toml -> py_exn + bool)
    (config_file : option string) (fuel : nat) (s : State)
    (config : gmap string toml) (s' : State) :
  load_config_file E module_dir exists_other config_file s = (Returned config, s') ->
  datasets.__init__ E fuel (tables_of config) s'
  = (Raise (TypeError "fetch_sch_database() takes 0 positional arguments but 1 was given"),
     s').
Proof.
  intros Hrun.
  destruct (load_config_file_Returned_inv E module_dir exists_other config_file s config s' Hrun)
    as (document & explicit & paths & creds & _ & _ & _ & Hhome & _ & ->).
  destruct (config_get_data_home_Ok E _ _ _ _ Hhome) as (_ & _ & _ & _ & _ & _ & Hsch).
  unfold datasets.__init__, bind, getitem, tables_of.
  rewrite lookup_omap, lookup_insert_ne by discriminate. rewrite lookup_insert_eq.
  cbn [mbind option_bind table_of_toml].
  unfold ret at 1. rewrite lookup_omap, lookup_fmap, Hsch. reflexivity.
Qed.

Lemma loaded_configuration_stops_the_constructor_witness :
  datasets.__init__ host0 10
    (tables_of
       (<["credentials" := TDict creds_document]>
          (<["datasets" :=
               TDict {[ "data_home" := TStr "/home/u/sch_tools/datasets";
                        "sch_data_home" := TStr "/home/u/sch_tools/datasets/sch";
                        "search_results_data_home" :=
                          TStr "/home/u/sch_tools/datasets/search_results";
                        "annotation_data_home" :=
                          TStr "/home/u/sch_tools/datasets/annotation" ]}]>
             config_document)))
    (snd (load_config_file host0 "/pkg" no_descriptor None (state0 (with_creds "CONFIG"))))
  = (Raise (TypeError "fetch_sch_database() takes 0 positional arguments but 1 was given"),
     snd (load_config_file host0 "/pkg" no_descriptor None (state0 (with_creds "CONFIG")))).
Proof.
  apply (loaded_configuration_stops_the_constructor host0 "/pkg" no_descriptor None 10
           (state0 (with_creds "CONFIG"))).
  vm_compute. reflexivity.
Defined.

(** X14. The folders of the data home are made before the credentials are
    looked for: when the document has no [credentials] entry and
    [~/creds.ini] is not found, [load_config_file] raises
    [FileNotFoundError], and the three folders it has made stay. *)
Theorem late_failure_keeps_the_directories (E : Env) `{Tomllib}
    (module_dir : string) (exists_other : toml -> py_exn + bool)
    (config_file : option string) (s : State) (document : gmap string toml)
    (explicit : option string) (paths : gmap string string) (s1 : State) :
  holds_document (default (join module_dir "config.toml") config_file) document (st_fs s) ->
  cloud_validated exists_other document s ->
  document !! "datasets" = TStr <$> explicit ->
  document !! "credentials" = None ->
  config._get_data_home E explicit s = (Ok paths, s1) ->
  os_path_exists_str (expanduser E (join "~" "creds.ini")) (st_fs s1) = false ->
  load_config_file E module_dir exists_other config_file s
  = (Raised (Builtin (FileNotFoundError
       ("Credentials file not found: " +:+ expanduser E (join "~" "creds.ini")))), s1) /\
  all_dirs (st_fs s1) (config_home E explicit /: "sch") /\
  all_dirs (st_fs s1) (config_home E explicit /: "search_results") /\
  all_dirs (st_fs s1) (config_home E explicit /: "annotation").
Proof.
  intros Hdoc Hval Hds Hcr Hhome Hmissing.
  destruct (config_get_data_home_fs E _ _ _ _ Hhome) as (Hd1 & Hd2 & Hd3 & _).
  split; [|by repeat split].
  rewrite (load_config_file_validated E module_dir exists_other config_file document s Hdoc Hval).
  destruct (finish_config_run E exists_other document explicit _ _ s Hds Hhome)
    as (Hst & _ & _ & Hlast).
  specialize (Hlast paths eq_refl Hcr).
  rewrite (load_api_credentiails_run E exists_other None s1) in Hlast. cbv zeta in Hlast.
  cbn [default fst] in Hlast. rewrite Hmissing in Hlast.
  destruct (finish_config E exists_other document s) as [rf sf]. cbn in Hst, Hlast. by subst.
Qed.

Lemma late_failure_keeps_the_directories_witness :
  load_config_file host0 "/pkg" no_descriptor None (state0 (installed "CONFIG"))
  = (Raised (Builtin (FileNotFoundError
       ("Credentials file not found: " +:+ expanduser host0 (join "~" "creds.ini")))),
     snd (config._get_data_home host0 None (state0 (installed "CONFIG")))) /\
  all_dirs (st_fs (snd (config._get_data_home host0 None (state0 (installed "CONFIG")))))
    (config_home host0 None /: "sch") /\
  all_dirs (st_fs (snd (config._get_data_home host0 None (state0 (installed "CONFIG")))))
    (config_home host0 None /: "search_results") /\
  all_dirs (st_fs (snd (config._get_data_home host0 None (state0 (installed "CONFIG")))))
    (config_home host0 None /: "annotation").
Proof.
  apply (late_failure_keeps_the_directories host0 "/pkg" no_descriptor None
           (state0 (installed "CONFIG")) config_document None
           (<["data_home" := "/home/u/sch_tools/datasets"]>
            (<["sch_data_home" := "/home/u/sch_tools/datasets/sch"]>
             (<["search_results_data_home" := "/home/u/sch_tools/datasets/search_results"]>
              (<["annotation_data_home" := "/home/u/sch_tools/datasets/annotation"]> ∅))))).
  - split; [vm_compute; reflexivity|].
    exists "CONFIG", 0. split; vm_compute; reflexivity.
  - exists {[ "cloud_annotation_get_folder" := TStr "/cloud/get";
              "cloud_annotation_post_folder" := TStr "/cloud/post" ]},
      (TStr "/cloud/get"), (TStr "/cloud/post").
    repeat split; vm_compute; reflexivity.
  - vm_compute. reflexivity.
  - vm_compute. reflexivity.
  - vm_compute. reflexivity.
  - vm_compute. reflexivity.
Defined.

Section LoaderAgain.
Variable E : Env.
Context `{Tomllib}.
Variable module_dir : string.
Variable exists_other : toml -> py_exn + bool.

(** What [os.path.exists] finds is still found on a disk that has kept
    everything. *)
Lemma os_path_exists_str_keep (p : string) (fs fs' : gmap Path node) :
  (forall q nd, fs !! q = Some nd -> fs' !! q = Some nd) ->
  os_path_exists_str p fs = true -> os_path_exists_str p fs' = true.
Proof.
  intros Hkeep. unfold os_path_exists_str.
  destruct (bool_decide (p = EmptyString) || has_nul p); [done|].
  destruct (fs !! Path_of_string p) as [nd|] eqn:Hp; [|done].
  by rewrite (Hkeep _ _ Hp).
Qed.

Lemma os_path_exists_keep v s s' :
  (forall q nd, st_fs s !! q = Some nd -> st_fs s' !! q = Some nd) ->
  fst (os_path_exists exists_other v s) = Returned true ->
  fst (os_path_exists exists_other v s') = Returned true.
Proof.
  intros Hkeep. unfold os_path_exists.
  destruct v as [p| | | | | |]; try (by destruct (exists_other _)).
  cbn. intros [= Hp]. by rewrite (os_path_exists_str_keep p _ _ Hkeep Hp).
Qed.

Lemma holds_document_keep (f : string) (document : gmap string toml)
    (fs fs' : gmap Path node) :
  (forall q nd, fs !! q = Some nd -> fs' !! q = Some nd) ->
  holds_document f document fs -> holds_document f document fs'.
Proof.
  intros Hkeep (Hfound & c & m & Hfile & Hparse). split.
  - exact (os_path_exists_str_keep f _ _ Hkeep Hfound).
  - exists c, m. split; [exact (Hkeep _ _ Hfile)|exact Hparse].
Qed.

Lemma cloud_validated_keep document s s' :
  (forall q nd, st_fs s !! q = Some nd -> st_fs s' !! q = Some nd) ->
  cloud_validated exists_other document s -> cloud_validated exists_other document s'.
Proof.
  intros Hkeep (cloud & g & p & Hcloud & Hg & Hp & Htg & Htp & Heg & Hep).
  exists cloud, g, p. repeat split; try assumption.
  - exact (os_path_exists_keep g s s' Hkeep Heg).
  - exact (os_path_exists_keep p s s' Hkeep Hep).
Qed.

(** The credentials loader looks at the disk only. *)
Lemma load_api_credentiails_fs creds_file s t :
  st_fs t = st_fs s ->
  fst (load_api_credentiails E exists_other creds_file t)
  = fst (load_api_credentiails E exists_other creds_file s).
Proof.
  intros Hfs.
  assert (Hstr : forall name : option string,
            fst (load_api_credentiails E exists_other (TStr <$> name) t)
            = fst (load_api_credentiails E exists_other (TStr <$> name) s)).
  { intros name. rewrite !load_api_credentiails_run. cbv zeta. cbn [fst]. by rewrite Hfs. }
  destruct creds_file as [[name| | | | | |]|]; try reflexivity.
  - exact (Hstr (Some name)).
  - exact (Hstr None).
Qed.

(** The last part of [load_config_file] gives the same result in two states
    from which [_get_data_home] returns the same table and leaves the same
    disk. *)
Lemma finish_config_again document explicit paths s s1 t t1 :
  document !! "datasets" = TStr <$> explicit ->
  config._get_data_home E explicit s = (Ok paths, s1) ->
  config._get_data_home E explicit t = (Ok paths, t1) ->
  st_fs t1 = st_fs s1 ->
  finish_config E exists_other document t
  = (fst (finish_config E exists_other document s), t1).
Proof.
  intros Hds Hs Ht Hfs.
  assert (Hcall : forall x, call_get_data_home E (document !! "datasets") x
                            = lift (config._get_data_home E explicit) x).
  { intros x. rewrite Hds. by destruct explicit. }
  assert (Hstep : exists r, forall x,
            match document !! "credentials" with
            | Some credentials =>
                if truthy credentials then py_get credentials "creds_file"
                else retL None
            | None => retL None
            end x = (r, x)).
  { destruct (document !! "credentials") as [cr|]; [|by eexists].
    destruct (truthy cr); [|by eexists]. unfold py_get, retL. destruct cr; by eexists. }
  destruct Hstep as [r Hstep].
  destruct (finish_config E exists_other document s) as [rs ss] eqn:Hs_run.
  destruct (finish_config E exists_other document t) as [rt tt'] eqn:Ht_run.
  cbn [fst].
  unfold finish_config in Hs_run, Ht_run.
  unfold bindL at 1 in Hs_run. unfold bindL at 1 in Ht_run.
  rewrite Hcall in Hs_run, Ht_run. unfold lift in Hs_run, Ht_run.
  rewrite Hs in Hs_run. rewrite Ht in Ht_run.
  rewrite lookup_insert_ne in Hs_run, Ht_run by discriminate.
  unfold bindL at 1 in Hs_run. unfold bindL at 1 in Ht_run.
  rewrite Hstep in Hs_run, Ht_run.
  destruct r as [creds_file|e|]; [|congruence..].
  unfold bindL in Hs_run, Ht_run.
  pose proof (load_api_credentiails_fs creds_file s1 t1 Hfs) as Hsame.
  pose proof (load_api_credentiails_state E exists_other creds_file s1) as Hss.
  pose proof (load_api_credentiails_state E exists_other creds_file t1) as Hst.
  destruct (load_api_credentiails E exists_other creds_file s1) as [r2 s2].
  destruct (load_api_credentiails E exists_other creds_file t1) as [r3 s3].
  cbn in Hsame, Hss, Hst. subst r3 s2 s3.
  destruct r2; cbn in Hs_run, Ht_run; unfold retL in Hs_run, Ht_run; congruence.
Qed.

End LoaderAgain.

(** X15. A call of [load_config_file] that returned can be repeated: from the
    state it left, the same call returns the same configuration and leaves
    the disk as it is. *)
Theorem load_config_file_again (E : Env) `{Tomllib}
    (module_dir : string) (exists_other : toml -> py_exn + bool)
    (config_file : option string) (s : State) (config : gmap string toml) (s' : State) :
  load_config_file E module_dir exists_other config_file s = (Returned config, s') ->
  exists s'',
    load_config_file E module_dir exists_other config_file s' = (Returned config, s'') /\
    st_fs s'' = st_fs s'.
Proof.
  intros Hrun.
  destruct (load_config_file_Returned_inv E module_dir exists_other config_file s config s' Hrun)
    as (document & explicit & paths & creds & Hdoc & Hval & Hds & Hhome & Hcreds & Hconfig).
  rewrite load_config_file_name in Hdoc.
  pose proof (fun q nd => config_get_data_home_keep E explicit s paths s' q nd Hhome) as Hkeep.
  destruct (config_get_data_home_fs E _ _ _ _ Hhome) as (Hd1 & Hd2 & Hd3 & _).
  destruct (config_get_data_home_existing E explicit s' Hd1 Hd2 Hd3)
    as (paths' & s'' & Hhome' & Hfs).
  assert (paths' = paths) as ->.
  { rewrite (config_get_data_home_paths E _ _ _ _ Hhome).
    exact (config_get_data_home_paths E _ _ _ _ Hhome'). }
  exists s''. split; [|exact Hfs].
  rewrite (load_config_file_validated E module_dir exists_other config_file document s'
             (holds_document_keep _ _ _ _ Hkeep Hdoc)
             (cloud_validated_keep exists_other _ _ _ Hkeep Hval)).
  assert (Hfirst : load_config_file E module_dir exists_other config_file s
                   = finish_config E exists_other document s).
  { exact (load_config_file_validated E module_dir exists_other config_file document s
             Hdoc Hval). }
  rewrite (finish_config_again E exists_other document explicit paths s s' s' s''
             Hds Hhome Hhome' Hfs).
  by rewrite <- Hfirst, Hrun.
Qed.

Lemma load_config_file_again_witness :
  exists s'',
    load_config_file host0 "/pkg" no_descriptor None
      (snd (load_config_file host0 "/pkg" no_descriptor None (state0 (with_creds "CONFIG"))))
    = (Returned
         (<["credentials" := TDict creds_document]>
            (<["datasets" :=
                 TDict {[ "data_home" := TStr "/home/u/sch_tools/datasets";
                          "sch_data_home" := TStr "/home/u/sch_tools/datasets/sch";
                          "search_results_data_home" :=
                            TStr "/home/u/sch_tools/datasets/search_results";
                          "annotation_data_home" :=
                            TStr "/home/u/sch_tools/datasets/annotation" ]}]>
               config_document)), s'') /\
    st_fs s''
    = st_fs (snd (load_config_file host0 "/pkg" no_descriptor None
                    (state0 (with_creds "CONFIG")))).
Proof.
  apply (load_config_file_again host0 "/pkg" no_descriptor None
           (state0 (with_creds "CONFIG"))).
  vm_compute. reflexivity.
Defined.
